(** * Request signing and session handling of the third-party API clients

    A shallow embedding of the JavaScript clients of this repository
    (the browser tool [samples/robotool/app.js], the Node.js SDK
    [third_party_client.js] and the client classes printed in the two
    documentation guides), together with the properties the design
    document states about them.

    Conventions of the embedding.
    - A JavaScript / Python string is a [string]: a sequence of 8-bit
      characters holding the UTF-8 encoding of the text, so that the
      UTF-8 bytes of a string are the codes of its characters and string
      concatenation is [+:+].
    - A 32-bit word is a [Z] in [0, 2^32); a byte is a [Z] in [0, 256).
    - A JavaScript object used as a header map is a [gmap string string];
      an object that is serialised keeps its keys in insertion order.
    - Code that reads the clock, talks to the network or updates the page
      runs in the monad [M] over a [World].
    - The two [generateSignature] methods are embedded a second time on the
      values the engine holds (modules [RawBrowser] and [RawNodeSDK]):
      strings as sequences of UTF-16 code units, and secrets that need not
      be strings. There a call into the crypto library may fail. *)

From Stdlib Require Import ZArith List String Ascii Lia DecimalString.
From stdpp Require Import base strings gmap.
Import ListNotations.

#[local] Set Warnings "-register-all".

Local Open Scope Z_scope.

(** ** SHA-256 (FIPS 180-4), the hash both crypto libraries implement *)

Module SHA256.

Definition wordmod : Z := 2 ^ 32.

Definition add32 (x y : Z) : Z := (x + y) mod wordmod.

Definition shr (n x : Z) : Z := Z.shiftr x n.

Definition rotr (n x : Z) : Z :=
  Z.lor (Z.shiftr x n) ((Z.shiftl x (32 - n)) mod wordmod).

Definition not32 (x : Z) : Z := Z.lxor x (wordmod - 1).

Definition Ch (x y z : Z) : Z := Z.lxor (Z.land x y) (Z.land (not32 x) z).

Definition Maj (x y z : Z) : Z :=
  Z.lxor (Z.lxor (Z.land x y) (Z.land x z)) (Z.land y z).

Definition bigsigma0 (x : Z) : Z :=
  Z.lxor (Z.lxor (rotr 2 x) (rotr 13 x)) (rotr 22 x).

Definition bigsigma1 (x : Z) : Z :=
  Z.lxor (Z.lxor (rotr 6 x) (rotr 11 x)) (rotr 25 x).

Definition smallsigma0 (x : Z) : Z :=
  Z.lxor (Z.lxor (rotr 7 x) (rotr 18 x)) (shr 3 x).

Definition smallsigma1 (x : Z) : Z :=
  Z.lxor (Z.lxor (rotr 17 x) (rotr 19 x)) (shr 10 x).

(** The round constants and the initial hash value are defined the way
    the standard defines them, as the leading 32 fractional bits of the
    cube roots (square roots) of the first primes, and computed once. *)

Definition is_prime (p : nat) : bool :=
  (1 <? p)%nat &&
  forallb (fun d => negb (p mod d =? 0)%nat) (seq 2 (p - 2)).

Definition primes_below (n : nat) : list Z :=
  map Z.of_nat (filter is_prime (seq 0 n)).

(** Largest [r] below [2^bits] with [r^3 <= n], found bit by bit. *)
Fixpoint cube_root_bits (bits : nat) (n r : Z) : Z :=
  match bits with
  | O => r
  | S b =>
      let r' := r + 2 ^ Z.of_nat b in
      cube_root_bits b n (if r' * r' * r' <=? n then r' else r)
  end.

Definition frac_cbrt32 (p : Z) : Z := cube_root_bits 36 (p * 2 ^ 96) 0 mod wordmod.

Definition frac_sqrt32 (p : Z) : Z := Z.sqrt (p * 2 ^ 64) mod wordmod.

Definition K : list Z := Eval vm_compute in map frac_cbrt32 (primes_below 312).

Definition H0 : list Z := Eval vm_compute in map frac_sqrt32 (primes_below 20).

(** Padding (section 5.1.1): a 1 bit, zeros up to 56 modulo 64 bytes, and
    the bit length as a 64-bit big-endian number. *)

Fixpoint be_bytes (n : nat) (x : Z) : list Z :=
  match n with
  | O => []
  | S m => (Z.shiftr x (8 * Z.of_nat m)) mod 256 :: be_bytes m x
  end.

Definition pad (msg : list Z) : list Z :=
  let len := Z.of_nat (length msg) in
  let k := Z.to_nat ((55 - len) mod 64) in
  msg ++ [128] ++ repeat 0 k ++ be_bytes 8 (8 * len).

Definition be_word (bs : list Z) : Z :=
  fold_left (fun acc b => acc * 256 + b) bs 0.

Fixpoint words_of (n : nat) (bs : list Z) : list Z :=
  match n with
  | O => []
  | S m => be_word (firstn 4 bs) :: words_of m (skipn 4 bs)
  end.

(** Message schedule (section 6.2.2, step 1). [rev_w] holds the words
    computed so far, most recent first. *)
Fixpoint schedule (n : nat) (rev_w : list Z) : list Z :=
  match n with
  | O => rev rev_w
  | S m =>
      let w :=
        add32 (add32 (smallsigma1 (nth 1 rev_w 0)) (nth 6 rev_w 0))
              (add32 (smallsigma0 (nth 14 rev_w 0)) (nth 15 rev_w 0)) in
      schedule m (w :: rev_w)
  end.

Record regs := Regs { ra : Z; rb : Z; rc : Z; rd : Z; re : Z; rf : Z; rg : Z; rh : Z }.

Definition regs_of (l : list Z) : regs :=
  Regs (nth 0 l 0) (nth 1 l 0) (nth 2 l 0) (nth 3 l 0)
       (nth 4 l 0) (nth 5 l 0) (nth 6 l 0) (nth 7 l 0).

Definition regs_words (r : regs) : list Z :=
  [ra r; rb r; rc r; rd r; re r; rf r; rg r; rh r].

Definition round (r : regs) (kw : Z * Z) : regs :=
  let '(k, w) := kw in
  let t1 := add32 (add32 (add32 (rh r) (bigsigma1 (re r))) (Ch (re r) (rf r) (rg r)))
                  (add32 k w) in
  let t2 := add32 (bigsigma0 (ra r)) (Maj (ra r) (rb r) (rc r)) in
  Regs (add32 t1 t2) (ra r) (rb r) (rc r) (add32 (rd r) t1) (re r) (rf r) (rg r).

Definition compress (h : regs) (block : list Z) : regs :=
  let w := schedule 48 (rev (words_of 16 block)) in
  let r := fold_left round (combine K w) h in
  Regs (add32 (ra h) (ra r)) (add32 (rb h) (rb r)) (add32 (rc h) (rc r))
       (add32 (rd h) (rd r)) (add32 (re h) (re r)) (add32 (rf h) (rf r))
       (add32 (rg h) (rg r)) (add32 (rh h) (rh r)).

(** Hash [n] consecutive 64-byte blocks of [bs]. *)
Fixpoint blocks (n : nat) (h : regs) (bs : list Z) : regs :=
  match n with
  | O => h
  | S m => blocks m (compress h (firstn 64 bs)) (skipn 64 bs)
  end.

Definition hash_words (msg : list Z) : regs :=
  let p := pad msg in
  blocks (length p / 64) (regs_of H0) p.

(** The digest: the eight words, each as four big-endian bytes. *)
Definition digest (msg : list Z) : list Z :=
  flat_map (be_bytes 4) (regs_words (hash_words msg)).

End SHA256.

(** ** HMAC (RFC 2104) over SHA-256 *)

Module HMAC.

Definition block_size : nat := 64.

Definition normalize_key (key : list Z) : list Z :=
  let k := if (block_size <? length key)%nat then SHA256.digest key else key in
  k ++ repeat 0 (block_size - length k).

Definition xor_pad (c : Z) (key : list Z) : list Z := map (Z.lxor c) key.

(** The eight words of the authentication code. *)
Definition hmac_words (key msg : list Z) : SHA256.regs :=
  let k := normalize_key key in
  SHA256.hash_words (xor_pad 92 k ++ SHA256.digest (xor_pad 54 k ++ msg)).

Definition hmac_sha256 (key msg : list Z) : list Z :=
  flat_map (SHA256.be_bytes 4) (SHA256.regs_words (hmac_words key msg)).

End HMAC.

(** ** Text: UTF-8 bytes and hexadecimal *)

Module Text.

Definition utf8 (s : string) : list Z :=
  map (fun c => Z.of_N (N_of_ascii c)) (list_ascii_of_string s).

Definition hex_digit (d : Z) : ascii :=
  nth (Z.to_nat (d mod 16)) (list_ascii_of_string "0123456789abcdef") "0"%char.

Definition hex_byte (b : Z) : list ascii := [hex_digit (b / 16); hex_digit b].

Definition hex (bs : list Z) : string :=
  string_of_list_ascii (flat_map hex_byte bs).

Definition is_lower_hex (c : ascii) : bool :=
  let n := N_of_ascii c in
  ((48 <=? n) && (n <=? 57) || (97 <=? n) && (n <=? 102))%N.

End Text.

(** ** The three HMAC interfaces the clients call *)

(** [CryptoJS.HmacSHA256(message, key)] takes both strings as UTF-8 and
    yields a word array; [toString(CryptoJS.enc.Hex)] prints its
    significant bytes, two digits each. *)
Module CryptoJS.

Record WordArray := { words : list Z; sigBytes : nat }.

Definition HmacSHA256 (message key : string) : WordArray :=
  {| words := SHA256.regs_words (HMAC.hmac_words (Text.utf8 key) (Text.utf8 message));
     sigBytes := 32 |}.

Definition toString_Hex (wa : WordArray) : string :=
  string_of_list_ascii
    (flat_map
       (fun i : nat =>
          let bite :=
            Z.land (Z.shiftr (nth (i / 4) (words wa) 0)
                             (24 - Z.of_nat (i mod 4) * 8)) 255 in
          [Text.hex_digit (Z.shiftr bite 4); Text.hex_digit (Z.land bite 15)])
       (seq 0 (sigBytes wa))).

End CryptoJS.

(** Node's [crypto.createHmac('sha256', key)], [update] and
    [digest('hex')]: the object keeps the key and the data fed so far. *)
Module NodeCrypto.

Record Hmac := { hmac_key : list Z; hmac_data : list Z }.

Definition createHmac (key : string) : Hmac :=
  {| hmac_key := Text.utf8 key; hmac_data := [] |}.

Definition update (h : Hmac) (data : string) : Hmac :=
  {| hmac_key := hmac_key h; hmac_data := hmac_data h ++ Text.utf8 data |}.

Definition digest_hex (h : Hmac) : string :=
  Text.hex (HMAC.hmac_sha256 (hmac_key h) (hmac_data h)).

End NodeCrypto.

(** Python's [hmac.new(key, msg, hashlib.sha256).hexdigest()] on byte
    strings obtained with [encode('utf-8')]. *)
Module PyHmac.

Definition encode_utf8 (s : string) : list Z := Text.utf8 s.

Definition new_hexdigest (key msg : list Z) : string :=
  Text.hex (HMAC.hmac_sha256 key msg).

End PyHmac.

Local Open Scope string_scope.

(** ** JavaScript values, [JSON.stringify] and string conversion *)

Module JS.

(** The line feed written ["\n"] in the sources. *)
Definition nl : string := String (ascii_of_nat 10) EmptyString.

(** Values that [JSON.parse] yields and that the clients build. A number
    is an integer (the clients handle identifiers and status codes only),
    of the size that is printed digit by digit, below 10^21;
    [undefined] is the [None] of [option value]. Object fields are kept in
    insertion order and have distinct keys. *)
Inductive value : Type :=
| Null
| Bool (b : bool)
| Num (n : Z)
| Str (s : string)
| Arr (items : list value)
| Obj (fields : list (string * value)).

(** Structural induction that reaches the elements of arrays and the
    fields of objects. *)
Section value_induction.
Variable P : value -> Prop.
Hypothesis P_Null : P Null.
Hypothesis P_Bool : forall b, P (Bool b).
Hypothesis P_Num : forall n, P (Num n).
Hypothesis P_Str : forall s, P (Str s).
Hypothesis P_Arr : forall items, Forall P items -> P (Arr items).
Hypothesis P_Obj : forall fields, Forall (fun kv => P (snd kv)) fields -> P (Obj fields).

Fixpoint value_induction (v : value) : P v :=
  match v with
  | Null => P_Null
  | Bool b => P_Bool b
  | Num n => P_Num n
  | Str s => P_Str s
  | Arr items =>
      P_Arr items
        ((fix all (l : list value) : Forall P l :=
            match l with
            | [] => List.Forall_nil P
            | x :: rest => @List.Forall_cons _ P x rest (value_induction x) (all rest)
            end) items)
  | Obj fields =>
      P_Obj fields
        ((fix all (l : list (string * value)) : Forall (fun kv => P (snd kv)) l :=
            match l with
            | [] => List.Forall_nil _
            | kv :: rest =>
                @List.Forall_cons _ (fun kv => P (snd kv)) kv rest
                  (match kv as kv0 return P (snd kv0) with
                   | (_, x) => value_induction x
                   end)
                  (all rest)
            end) fields)
  end.
End value_induction.

Inductive exn : Type :=
| Error (message : string)
| TypeError (message : string)
| SyntaxError (message : string)
| URIError (message : string).

Definition message_of (e : exn) : string :=
  match e with Error m | TypeError m | SyntaxError m | URIError m => m end.


Definition decimal (n : Z) : string :=
  DecimalString.NilZero.string_of_int (Z.to_int n).

(** ToBoolean. *)
Definition truthy (v : value) : bool :=
  match v with
  | Null => false
  | Bool b => b
  | Num n => negb (n =? 0)%Z
  | Str s => negb (String.eqb s "")
  | Arr _ | Obj _ => true
  end.

Definition truthy_opt (o : option value) : bool :=
  match o with Some v => truthy v | None => false end.

Fixpoint field (k : string) (fs : list (string * value)) : option value :=
  match fs with
  | [] => None
  | (k', v) :: rest => if String.eqb k k' then Some v else field k rest
  end.

(** [v.k] for a value that is neither [null] nor [undefined]; of the
    properties the clients read, only objects have any. *)
Definition get (v : value) (k : string) : option value :=
  match v with
  | Obj fs => field k fs
  | _ => None
  end.

(** [v[0]]. *)
Definition first (v : value) : option value :=
  match v with
  | Arr items => head items
  | Str s => match s with
             | EmptyString => None
             | String c _ => Some (Str (String c EmptyString))
             end
  | Obj fs => field "0" fs
  | _ => None
  end.

(** ToString, as applied by template literals and by [new Error(v)]; an
    array is joined with commas, [null] elements printing as nothing. *)
Fixpoint to_string (v : value) : string :=
  match v with
  | Null => "null"
  | Bool true => "true"
  | Bool false => "false"
  | Num n => decimal n
  | Str s => s
  | Arr items =>
      String.concat ","
        (map (fun x => match x with Null => "" | _ => to_string x end) items)
  | Obj _ => "[object Object]"
  end.

Definition hex4 (n : Z) : string :=
  string_of_list_ascii
    [Text.hex_digit (n / 4096); Text.hex_digit (n / 256);
     Text.hex_digit (n / 16); Text.hex_digit n].

Definition dq : string := String (ascii_of_nat 34) EmptyString.

(** QuoteJSONString, one character at a time. *)
Definition quote_char (c : ascii) : string :=
  let n := Z.of_N (N_of_ascii c) in
  if (n =? 34)%Z then "\" +:+ dq
  else if (n =? 92)%Z then "\\"
  else if (n =? 8)%Z then "\b"
  else if (n =? 9)%Z then "\t"
  else if (n =? 10)%Z then "\n"
  else if (n =? 12)%Z then "\f"
  else if (n =? 13)%Z then "\r"
  else if (n <? 32)%Z then "\u" +:+ hex4 n
  else String c EmptyString.

Fixpoint quote_body (s : string) : string :=
  match s with
  | EmptyString => ""
  | String c rest => quote_char c +:+ quote_body rest
  end.

Definition quote (s : string) : string := dq +:+ quote_body s +:+ dq.

(** [JSON.stringify] without indentation. *)
Fixpoint stringify (v : value) : string :=
  match v with
  | Null => "null"
  | Bool true => "true"
  | Bool false => "false"
  | Num n => decimal n
  | Str s => quote s
  | Arr items => "[" +:+ String.concat "," (map stringify items) +:+ "]"
  | Obj fields =>
      "{" +:+
      String.concat ","
        (map (fun kv => let '(k, x) := kv in quote k +:+ ":" +:+ stringify x) fields)
      +:+ "}"
  end.

End JS.

(** ** HTTP messages *)

Module Http.

Record File := { file_name : string; file_bytes : list Z }.

Inductive part : Type :=
| Field (text : string)
| Blob (f : File).

(** What is handed to [fetch] as [body]: nothing, a string, or a
    [FormData] with its parts in the order they were appended. *)
Inductive payload : Type :=
| NoBody
| Text (s : string)
| FormData (parts : list (string * part)).

Record Request := {
  url : string;
  verb : string;
  headers : gmap string string;
  body : payload
}.

(** [parsed] is what [response.json()] resolves to, [None] when the body
    is not JSON. *)
Record Response := {
  status : Z;
  statusText : string;
  text : string;
  parsed : option JS.value
}.

Definition ok (r : Response) : bool :=
  (200 <=? status r)%Z && (status r <=? 299)%Z.

End Http.

(** ** The world the clients run in *)

Module Eff.
Import JS Http.

Inductive outcome (A : Type) : Type :=
| Returned (a : A)
| Thrown (e : exn).
Arguments Returned {A} a.
Arguments Thrown {A} e.

(** [FedshiAPIClient] of the browser tool. *)
Record FedshiAPIClient := {
  apiKey : string;
  secretKey : string;
  baseUrl : string
}.

(** What [parseCSVFile] resolves to. *)
Record CsvData := { shipmentIDs : list string; courierID : value }.

(** The fields of [FedshiIntegrationApp] that the client code reads or
    writes; [fedshiJwtToken] starts as [Null]. *)
Record App := {
  fedshiClient : option FedshiAPIClient;
  fedshiJwtToken : value;
  authenticationStatus_fedshi : bool
}.

Inductive ui_event : Type :=
| ShowMessage (message type : string)
| UpdateStatus (elementId message type : string)
| FileOperationsEnabled (enabled : bool).

(** [iso n] is the text of the [n]-th reading of the clock and [ticks]
    counts the readings made; [network n r] is the answer to request [r]
    when [n] requests went out before it ([None]: the transport fails);
    [sent] lists the requests handed to the transport, oldest first;
    [window_app] is the global [window.app]; [csv_of] is the result of
    reading and splitting a file, the plumbing of [parseCSVFile]. *)
Record World := {
  ticks : nat;
  iso : nat -> string;
  network : nat -> Request -> option Response;
  sent : list Request;
  window_app : option App;
  page : list ui_event;
  csv_of : File -> outcome CsvData
}.

Definition M (A : Type) : Type := World -> outcome A * World.

Definition ret {A} (a : A) : M A := fun w => (Returned a, w).

Definition throw {A} (e : exn) : M A := fun w => (Thrown e, w).

Definition bind {A B} (m : M A) (k : A -> M B) : M B :=
  fun w =>
    match m w with
    | (Returned a, w') => k a w'
    | (Thrown e, w') => (Thrown e, w')
    end.

Definition try_catch {A} (m : M A) (handler : exn -> M A) : M A :=
  fun w =>
    match m w with
    | (Returned a, w') => (Returned a, w')
    | (Thrown e, w') => handler e w'
    end.

Definition lift {A} (o : outcome A) : M A := fun w => (o, w).

(** The four ways the clients change the world. *)
Definition tick (w : World) : World :=
  {| ticks := S (ticks w); iso := iso w; network := network w;
     sent := sent w; window_app := window_app w; page := page w;
     csv_of := csv_of w |}.

Definition record_request (r : Request) (w : World) : World :=
  {| ticks := ticks w; iso := iso w; network := network w;
     sent := sent w ++ [r]; window_app := window_app w; page := page w;
     csv_of := csv_of w |}.

Definition put_app (a : App) (w : World) : World :=
  {| ticks := ticks w; iso := iso w; network := network w;
     sent := sent w; window_app := Some a; page := page w;
     csv_of := csv_of w |}.

Definition show (e : ui_event) (w : World) : World :=
  {| ticks := ticks w; iso := iso w; network := network w;
     sent := sent w; window_app := window_app w; page := page w ++ [e];
     csv_of := csv_of w |}.

(** [new Date().toISOString()]. *)
Definition new_Date_toISOString : M string :=
  fun w => (Returned (iso w (ticks w)), tick w).

(** [fetch(url, {method, headers, body})]. *)
Definition fetch (r : Request) : M Response :=
  fun w =>
    match network w (length (sent w)) r with
    | Some resp => (Returned resp, record_request r w)
    | None => (Thrown (TypeError "Failed to fetch"), record_request r w)
    end.

(** [response.json()]. *)
Definition json (r : Response) : M value :=
  match parsed r with
  | Some v => ret v
  | None => throw (SyntaxError "Unexpected token in JSON")
  end.

Definition get_app : M (option App) := fun w => (Returned (window_app w), w).

Definition set_app (a : App) : M unit := fun w => (Returned tt, put_app a w).

Definition emit (e : ui_event) : M unit := fun w => (Returned tt, show e w).

(** [parseCSVFile(file)]: what the reader and the splitting of lines and
    columns yield is the world's [csv_of]. *)
Definition parseCSVFile (f : File) : M CsvData := fun w => (csv_of w f, w).

(** [v.k] where [v] may be [null] or [undefined]. *)
Definition prop (v : option value) (k : string) : M (option value) :=
  match v with
  | None => throw (TypeError ("Cannot read properties of undefined (reading '" +:+ k +:+ "')"))
  | Some Null => throw (TypeError ("Cannot read properties of null (reading '" +:+ k +:+ "')"))
  | Some x => ret (get x k)
  end.

(** The object literal [{k1: v1, ..., kn: vn}] used as a header map. *)
Definition object (l : list (string * string)) : gmap string string :=
  list_to_map l.

End Eff.

Declare Scope eff_scope.
Delimit Scope eff_scope with eff.
Notation "x <- m ;; k" := (Eff.bind m (fun x => k))
  (at level 100, m at next level, right associativity) : eff_scope.
Notation "m ;;; k" := (Eff.bind m (fun _ => k))
  (at level 100, right associativity) : eff_scope.
Local Open Scope eff_scope.

(** ** The browser tool, [samples/robotool/app.js] *)

Module Browser.
Import JS Http Eff.

(** *** [FedshiAPIClient] *)

Definition generateSignature (this : FedshiAPIClient)
    (method path body timestamp : string) : string :=
  let stringToSign :=
    method +:+ nl +:+ path +:+ nl +:+ body +:+ nl +:+ timestamp +:+ nl +:+ apiKey this in
  CryptoJS.toString_Hex (CryptoJS.HmacSHA256 stringToSign (secretKey this)).

Definition authenticate (this : FedshiAPIClient) (username password : string) : M value :=
  timestamp <- new_Date_toISOString ;;
  let method := "POST" in
  let path := "/api/v1/third-party/admin/login" in
  let body := stringify (Obj [("email", Str username); ("password", Str password)]) in
  let signature := generateSignature this method path body timestamp in
  response <- fetch {| url := baseUrl this +:+ path;
                       verb := "POST";
                       headers := object [("X-API-Key", apiKey this);
                                          ("X-API-Signature", signature);
                                          ("X-API-Timestamp", timestamp);
                                          ("Content-Type", "application/json")];
                       body := Text body |} ;;
  if negb (ok response) then
    throw (Error ("Authentication failed: " +:+ decimal (status response)))
  else json response.

(** [window.app && window.app.fedshiJwtToken]. *)
Definition session_token : M (option value) :=
  a <- get_app ;;
  ret (match a with
       | Some app => Some (fedshiJwtToken app)
       | None => None
       end).

(** [headers['Authorization'] = `Bearer ${token}`] when the token is truthy. *)
Definition with_authorization (token : option value)
    (headers : gmap string string) : gmap string string :=
  match token with
  | Some t => if truthy t then <["Authorization" := "Bearer " +:+ to_string t]> headers
              else headers
  | None => headers
  end.

Definition makeGraphQLRequest (this : FedshiAPIClient)
    (query : string) (variables : value) : M (option value) :=
  timestamp <- new_Date_toISOString ;;
  let method := "POST" in
  let path := "/graphql/third-party" in
  let body := stringify (Obj [("query", Str query); ("variables", variables)]) in
  let signature := generateSignature this method path body timestamp in
  let headers := object [("X-API-Key", apiKey this);
                         ("X-API-Signature", signature);
                         ("X-API-Timestamp", timestamp);
                         ("Content-Type", "application/json")] in
  token <- session_token ;;
  let headers := with_authorization token headers in
  response <- fetch {| url := baseUrl this +:+ path;
                       verb := "POST";
                       headers := headers;
                       body := Text body |} ;;
  if negb (ok response) then
    throw (Error ("GraphQL request failed: " +:+ decimal (status response)))
  else
    result <- json response ;;
    errors <- prop (Some result) "errors" ;;
    match errors with
    | Some errs =>
        if truthy errs then throw (Error ("GraphQL Error: " +:+ stringify errs))
        else prop (Some result) "data"
    | None => prop (Some result) "data"
    end.

Definition exportOrderShipmentReceipt_query : string :=
  String.concat nl
    [""
     ; "            query ExportOrderShipmentReceipt($ID : FID!){"
     ; "                ExportOrderShipmentReceipt(OrderShipmentID: $ID){"
     ; "                    Content"
     ; "                    Extension"
     ; "                }"
     ; "            }"
     ; "        "].

Definition exportOrderShipmentReceipt (this : FedshiAPIClient)
    (orderShipmentID : value) : M (option value) :=
  result <- makeGraphQLRequest this exportOrderShipmentReceipt_query
              (Obj [("ID", orderShipmentID)]) ;;
  prop result "ExportOrderShipmentReceipt".

Definition AddShipmentPackV2_query : string :=
  String.concat nl
    [""
     ; "            mutation AddShipmentPackV2($request: AddShipmentPackRequestV2!) {"
     ; "                AddShipmentPackV2(Request: $request) {"
     ; "                    ID"
     ; "                    Courier"
     ; "                    OrderShipments {"
     ; "                        ID"
     ; "                    }"
     ; "                }"
     ; "            }"
     ; "        "].

Definition processCSVAndCreateShipmentPack (this : FedshiAPIClient)
    (file : File) : M (option value) :=
  csvData <- parseCSVFile file ;;
  if (length (shipmentIDs csvData) =? 0)%nat then
    throw (Error "No shipment IDs found in CSV file")
  else
    let query := AddShipmentPackV2_query in
    let variables :=
      Obj [("request",
            Obj [("OrderShipmentIDs", Arr (map Str (shipmentIDs csvData)));
                 ("DeliveryCourierID", courierID csvData);
                 ("Type", Str "shipping")])] in
    timestamp <- new_Date_toISOString ;;
    let method := "POST" in
    let path := "/graphql/third-party" in
    let body := stringify (Obj [("query", Str query); ("variables", variables)]) in
    let signature := generateSignature this method path body timestamp in
    let headers := object [("Content-Type", "application/json");
                           ("X-API-Key", apiKey this);
                           ("X-API-Signature", signature);
                           ("X-API-Timestamp", timestamp)] in
    token <- session_token ;;
    let headers := with_authorization token headers in
    try_catch
      (response <- fetch {| url := baseUrl this +:+ "/graphql/third-party";
                            verb := "POST";
                            headers := headers;
                            body := Text body |} ;;
       result <- json response ;;
       errors <- prop (Some result) "errors" ;;
       if truthy_opt errors then
         firstError <- ret (match errors with Some errs => first errs | None => None end) ;;
         msg <- prop firstError "message" ;;
         throw (Error (if truthy_opt msg
                       then match msg with Some m => to_string m | None => "" end
                       else "Unknown GraphQL error"))
       else
         data <- prop (Some result) "data" ;;
         prop data "AddShipmentPackV2")
      (fun error => throw error).

(** *** [FedshiIntegrationApp] *)

Definition this_app : M App :=
  a <- get_app ;;
  match a with
  | Some app => ret app
  | None => throw (TypeError "app is not defined")
  end.

Definition showMessage (message type : string) : M unit :=
  emit (ShowMessage message type).

Definition updateStatus (elementId message type : string) : M unit :=
  emit (UpdateStatus elementId message type).

Definition updateAuthenticationStatus : M unit :=
  this <- this_app ;;
  emit (FileOperationsEnabled (authenticationStatus_fedshi this)).

Definition set_fedshiJwtToken (token : value) : M unit :=
  this <- this_app ;;
  set_app {| fedshiClient := fedshiClient this;
             fedshiJwtToken := token;
             authenticationStatus_fedshi := authenticationStatus_fedshi this |}.

Definition set_authenticationStatus_fedshi (b : bool) : M unit :=
  this <- this_app ;;
  set_app {| fedshiClient := fedshiClient this;
             fedshiJwtToken := fedshiJwtToken this;
             authenticationStatus_fedshi := b |}.

(** [this.fedshiClient.authenticate(username, password)]. *)
Definition call_authenticate (username password : string) : M value :=
  this <- this_app ;;
  match fedshiClient this with
  | Some client => authenticate client username password
  | None => throw (TypeError "Cannot read properties of null (reading 'authenticate')")
  end.

(** [username] and [password] are the values of the two input fields. *)
Definition loginFedshi (username password : string) : M unit :=
  _ <- this_app ;;
  if String.eqb username "" || String.eqb password "" then
    showMessage "Please enter both Fedshi email and password" "error"
  else
    updateStatus "fedshiAuthStatus" "Authenticating..." "info" ;;;
    try_catch
      (loginResult <- call_authenticate username password ;;
       if truthy loginResult && truthy_opt (get loginResult "Token") then
         set_fedshiJwtToken (default Null (get loginResult "Token")) ;;;
         set_authenticationStatus_fedshi true ;;;
         updateStatus "fedshiAuthStatus" "Authentication successful" "success" ;;;
         showMessage "Fedshi authentication successful" "success"
       else
         set_authenticationStatus_fedshi false ;;;
         updateStatus "fedshiAuthStatus" "Authentication failed" "error" ;;;
         showMessage "Fedshi authentication failed. Please check your credentials." "error")
      (fun error =>
         set_authenticationStatus_fedshi false ;;;
         updateStatus "fedshiAuthStatus" "Authentication error" "error" ;;;
         showMessage ("Fedshi authentication error: " +:+ message_of error) "error") ;;;
    updateAuthenticationStatus.

End Browser.

(** ** The Node.js SDK, [third_party_client.js] *)

Module NodeSDK.
Import JS Http Eff.

Record ThirdPartyAPIClient := {
  apiKey : string;
  secret : string;
  baseUrl : string
}.

Definition generateSignature (this : ThirdPartyAPIClient)
    (method path body timestamp : string) : string :=
  let stringToSign :=
    method +:+ nl +:+ path +:+ nl +:+ body +:+ nl +:+ timestamp +:+ nl +:+ apiKey this in
  let hmac := NodeCrypto.createHmac (secret this) in
  let hmac := NodeCrypto.update hmac stringToSign in
  NodeCrypto.digest_hex hmac.

(** [body] defaults to [Null]. *)
Definition makeRequest (this : ThirdPartyAPIClient)
    (method path : string) (body : value) : M value :=
  timestamp <- new_Date_toISOString ;;
  let bodyString := if truthy body then stringify body else "" in
  let signature := generateSignature this method path bodyString timestamp in
  let headers := object [("X-API-Key", apiKey this);
                         ("X-API-Signature", signature);
                         ("X-API-Timestamp", timestamp);
                         ("Content-Type", "application/json")] in
  let url := baseUrl this +:+ path in
  response <- fetch {| url := url;
                       verb := method;
                       headers := headers;
                       body := if String.eqb bodyString "" then NoBody
                               else Text bodyString |} ;;
  if negb (ok response) then
    errorData <- try_catch (json response) (fun _ => ret (Obj [])) ;;
    err <- prop (Some errorData) "error" ;;
    throw (Error ("API request failed: " +:+ decimal (status response) +:+ " "
                  +:+ statusText response +:+ " - "
                  +:+ (if truthy_opt err
                       then match err with Some e => to_string e | None => "" end
                       else "Unknown error")))
  else json response.

Definition exportOrderShipmentReceipt (this : ThirdPartyAPIClient)
    (orderShipmentID : string) : M value :=
  let path := "/api/v1/third-party/export-order-shipment-receipt/" +:+ orderShipmentID in
  makeRequest this "GET" path Null.

Definition getUsageStats (this : ThirdPartyAPIClient) : M value :=
  let path := "/api/v1/third-party/usage-stats" in
  makeRequest this "GET" path Null.

End NodeSDK.

(** ** The GraphQL quick start guide (the examples printed after the SDK) *)

Module QuickStart.
Import JS Http Eff.

Definition apiKey : string := "your-api-key-here".
Definition secretKey : string := "your-128-character-secret-key-here".
Definition baseUrl : string := "https://admin-api.app.fedshi.com/graphql/third-party".

Definition ExportOrderShipmentReceipt_query : string :=
  String.concat nl
    [""
     ; "    query ExportOrderShipmentReceipt($ID: FID!) {"
     ; "      ExportOrderShipmentReceipt(OrderShipmentID: $ID) {"
     ; "        Content"
     ; "        Extension"
     ; "      }"
     ; "    }"
     ; "  "].

(** The JavaScript function [exportOrderShipmentReceipt], up to and
    including its [fetch]. *)
Definition exportOrderShipmentReceipt_send (orderShipmentID : value) : M Response :=
  let query := ExportOrderShipmentReceipt_query in
  let variables := Obj [("ID", orderShipmentID)] in
  timestamp <- new_Date_toISOString ;;
  let method := "POST" in
  let path := "/graphql/third-party" in
  let body := stringify (Obj [("query", Str query); ("variables", variables)]) in
  let stringToSign :=
    method +:+ nl +:+ path +:+ nl +:+ body +:+ nl +:+ timestamp +:+ nl +:+ apiKey in
  let signature := CryptoJS.toString_Hex (CryptoJS.HmacSHA256 stringToSign secretKey) in
  fetch {| url := baseUrl;
           verb := "POST";
           headers := object [("X-API-Key", apiKey);
                              ("X-API-Signature", signature);
                              ("X-API-Timestamp", timestamp);
                              ("Content-Type", "application/json")];
           body := Text body |}.

Definition UploadCSV_query : string :=
  String.concat nl
    [""
     ; "    mutation UploadCSV($file: Upload!) {"
     ; "      UploadShipmentPack(Request: {CsvFile: $file}) {"
     ; "        ID"
     ; "      }"
     ; "    }"
     ; "  "].

(** The fields appended to the [FormData] of an upload. *)
Definition upload_form (query : string) (file : File) : list (string * part) :=
  [("operations",
    Field (stringify (Obj [("query", Str query);
                           ("variables", Obj [("file", Null)])])));
   ("map", Field (stringify (Obj [("0", Arr [Str "variables.file"])])));
   ("0", Blob file)].

(** The JavaScript function [uploadShipmentPack], up to and including its
    [fetch]. *)
Definition uploadShipmentPack_send (csvFile : File) : M Response :=
  let query := UploadCSV_query in
  let variables := Obj [("file", Null)] in
  timestamp <- new_Date_toISOString ;;
  let method := "POST" in
  let path := "/graphql/third-party" in
  let body := stringify (Obj [("query", Str query); ("variables", variables)]) in
  let stringToSign :=
    method +:+ nl +:+ path +:+ nl +:+ body +:+ nl +:+ timestamp +:+ nl +:+ apiKey in
  let signature := CryptoJS.toString_Hex (CryptoJS.HmacSHA256 stringToSign secretKey) in
  let formData := upload_form query csvFile in
  fetch {| url := baseUrl;
           verb := "POST";
           headers := object [("X-API-Key", apiKey);
                              ("X-API-Signature", signature);
                              ("X-API-Timestamp", timestamp)];
           body := FormData formData |}.

(** *** The class [FedshiGraphQLClient] *)

Record FedshiGraphQLClient := {
  client_apiKey : string;
  client_secretKey : string;
  client_baseUrl : string
}.

Definition generateSignature (this : FedshiGraphQLClient)
    (method path body timestamp : string) : string :=
  let stringToSign :=
    method +:+ nl +:+ path +:+ nl +:+ body +:+ nl +:+ timestamp +:+ nl
    +:+ client_apiKey this in
  CryptoJS.toString_Hex (CryptoJS.HmacSHA256 stringToSign (client_secretKey this)).

(** [if (result.errors) throw ...; return result.data]. *)
Definition data_or_errors (result : value) : M (option value) :=
  errors <- prop (Some result) "errors" ;;
  match errors with
  | Some errs =>
      if truthy errs then throw (Error ("GraphQL Error: " +:+ stringify errs))
      else prop (Some result) "data"
  | None => prop (Some result) "data"
  end.

Definition makeRequest (this : FedshiGraphQLClient)
    (query : string) (variables : value) : M (option value) :=
  timestamp <- new_Date_toISOString ;;
  let method := "POST" in
  let path := "/graphql/third-party" in
  let body := stringify (Obj [("query", Str query); ("variables", variables)]) in
  let signature := generateSignature this method path body timestamp in
  response <- fetch {| url := client_baseUrl this;
                       verb := "POST";
                       headers := object [("X-API-Key", client_apiKey this);
                                          ("X-API-Signature", signature);
                                          ("X-API-Timestamp", timestamp);
                                          ("Content-Type", "application/json")];
                       body := Text body |} ;;
  result <- json response ;;
  data_or_errors result.

Definition client_UploadCSV_query : string :=
  String.concat nl
    [""
     ; "      mutation UploadCSV($file: Upload!) {"
     ; "        UploadShipmentPack(Request: {CsvFile: $file}) {"
     ; "          ID"
     ; "        }"
     ; "      }"
     ; "    "].

Definition uploadShipmentPack (this : FedshiGraphQLClient) (file : File) : M (option value) :=
  let query := client_UploadCSV_query in
  let variables := Obj [("file", Null)] in
  timestamp <- new_Date_toISOString ;;
  let method := "POST" in
  let path := "/graphql/third-party" in
  let body := stringify (Obj [("query", Str query); ("variables", variables)]) in
  let signature := generateSignature this method path body timestamp in
  let formData := upload_form query file in
  response <- fetch {| url := client_baseUrl this;
                       verb := "POST";
                       headers := object [("X-API-Key", client_apiKey this);
                                          ("X-API-Signature", signature);
                                          ("X-API-Timestamp", timestamp)];
                       body := FormData formData |} ;;
  result <- json response ;;
  data <- data_or_errors result ;;
  prop data "UploadShipmentPack".

(** *** The Python example [export_order_shipment_receipt] *)

(** The signing statements of the example: the string to sign ends with
    the timestamp. *)
Definition python_example_signature
    (secret_key method path body timestamp : string) : string :=
  let string_to_sign :=
    method +:+ nl +:+ path +:+ nl +:+ body +:+ nl +:+ timestamp in
  PyHmac.new_hexdigest (PyHmac.encode_utf8 secret_key)
                       (PyHmac.encode_utf8 string_to_sign).

Section Python.

(** Python's [json.dumps], a library function. *)
Variable json_dumps : value -> string.

Definition python_query : string :=
  String.concat nl
    [""
     ; "    query ExportOrderShipmentReceipt($ID: FID!) {"
     ; "      ExportOrderShipmentReceipt(OrderShipmentID: $ID) {"
     ; "        Content"
     ; "        Extension"
     ; "      }"
     ; "    }"
     ; "    "].

(** The example up to and including [requests.post]; the clock reading
    stands for [datetime.utcnow().isoformat()]. *)
Definition export_order_shipment_receipt_send (order_shipment_id : value) : M Response :=
  let api_key := "your-api-key-here" in
  let secret_key := "your-128-character-secret-key-here" in
  let base_url := "https://admin-api.app.fedshi.com/graphql/third-party" in
  let variables := Obj [("ID", order_shipment_id)] in
  now <- new_Date_toISOString ;;
  let timestamp := now +:+ "Z" in
  let method := "POST" in
  let path := "/graphql/third-party" in
  let body := json_dumps (Obj [("query", Str python_query); ("variables", variables)]) in
  let signature := python_example_signature secret_key method path body timestamp in
  let headers := object [("X-API-Key", api_key);
                         ("X-API-Signature", signature);
                         ("X-API-Timestamp", timestamp);
                         ("Content-Type", "application/json")] in
  fetch {| url := base_url; verb := "POST"; headers := headers; body := Text body |}.

End Python.

End QuickStart.

(** ** The API access guide, [docs/THIRD_PARTY_QUICK_START.md] *)

Module AccessGuide.
Import JS Http Eff.

(** *** The JavaScript class [ThirdPartyAPIClient]; [jwtToken] starts as
    [Some Null]. *)

Record ThirdPartyAPIClient := {
  apiKey : string;
  secretKey : string;
  baseUrl : string;
  jwtToken : option value
}.

(** Returns [{ signature, timestamp }]. *)
Definition generateSignature (this : ThirdPartyAPIClient)
    (method path body : string) : M (string * string) :=
  timestamp <- new_Date_toISOString ;;
  let stringToSign :=
    method +:+ nl +:+ path +:+ nl +:+ body +:+ nl +:+ timestamp +:+ nl +:+ apiKey this in
  let signature :=
    NodeCrypto.digest_hex
      (NodeCrypto.update (NodeCrypto.createHmac (secretKey this)) stringToSign) in
  ret (signature, timestamp).

Definition getHeaders (this : ThirdPartyAPIClient)
    (method path body : string) : M (gmap string string) :=
  st <- generateSignature this method path body ;;
  let '(signature, timestamp) := st in
  let headers := object [("X-API-Key", apiKey this);
                         ("X-API-Signature", signature);
                         ("X-API-Timestamp", timestamp);
                         ("Content-Type", "application/json")] in
  ret (if truthy_opt (jwtToken this)
       then <["Authorization" :=
                "Bearer " +:+ match jwtToken this with
                              | Some t => to_string t
                              | None => "undefined"
                              end]> headers
       else headers).

(** Returns the parsed response and the client with its token set. *)
Definition login (this : ThirdPartyAPIClient)
    (email password : string) : M (value * ThirdPartyAPIClient) :=
  let method := "POST" in
  let path := "/api/v1/third-party/admin/login" in
  let body := stringify (Obj [("Email", Str email); ("Password", Str password)]) in
  headers <- getHeaders this method path body ;;
  response <- fetch {| url := baseUrl this +:+ path;
                       verb := "POST";
                       headers := headers;
                       body := Text body |} ;;
  if ok response then
    result <- json response ;;
    data <- prop (Some result) "data" ;;
    token <- prop data "Token" ;;
    ret (result, {| apiKey := apiKey this; secretKey := secretKey this;
                    baseUrl := baseUrl this; jwtToken := token |})
  else
    throw (Error ("Login failed: " +:+ decimal (status response) +:+ " - "
                  +:+ text response)).

(** [variables] defaults to [Null]. *)
Definition makeGraphQLRequest (this : ThirdPartyAPIClient)
    (query : string) (variables : value) : M value :=
  let method := "POST" in
  let path := "/graphql/third-party" in
  let payload :=
    if truthy variables
    then Obj [("query", Str query); ("variables", variables)]
    else Obj [("query", Str query)] in
  let body := stringify payload in
  headers <- getHeaders this method path body ;;
  response <- fetch {| url := baseUrl this +:+ path;
                       verb := "POST";
                       headers := headers;
                       body := Text body |} ;;
  if ok response then json response
  else
    throw (Error ("GraphQL request failed: " +:+ decimal (status response) +:+ " - "
                  +:+ text response)).

(** *** The Python class [ThirdPartyAPIClient]; [jwt_token] is [None] or
    a string. *)

Record PyClient := {
  api_key : string;
  secret_key : string;
  base_url : string;
  jwt_token : option string
}.

(** Returns [(signature, timestamp)]; the clock reading stands for
    [datetime.utcnow().isoformat()]. *)
Definition generate_signature (self : PyClient)
    (method path body : string) : M (string * string) :=
  now <- new_Date_toISOString ;;
  let timestamp := now +:+ "Z" in
  let string_to_sign :=
    method +:+ nl +:+ path +:+ nl +:+ body +:+ nl +:+ timestamp +:+ nl +:+ api_key self in
  let signature :=
    PyHmac.new_hexdigest (PyHmac.encode_utf8 (secret_key self))
                         (PyHmac.encode_utf8 string_to_sign) in
  ret (signature, timestamp).

Definition get_headers (self : PyClient)
    (method path body : string) : M (gmap string string) :=
  st <- generate_signature self method path body ;;
  let '(signature, timestamp) := st in
  let headers := object [("X-API-Key", api_key self);
                         ("X-API-Signature", signature);
                         ("X-API-Timestamp", timestamp);
                         ("Content-Type", "application/json")] in
  ret (match jwt_token self with
       | Some t => if String.eqb t "" then headers
                   else <["Authorization" := "Bearer " +:+ t]> headers
       | None => headers
       end).

End AccessGuide.

(** ** The signers on the values the engine holds

    The constructors of the clients store what they are given: the browser
    tool hands over [config.fedshi.secretKey] as [config.json] has it, the
    SDK is documented with a secret taken from the environment.  At run
    time a string is a sequence of 16-bit code units, in which a surrogate
    may stand alone, and a secret need not be a string.  The signers of
    the sections above are the same methods on text, that is on strings
    that have UTF-8 bytes. *)

Module UTF16.

(** The line feed. *)
Definition nl : list Z := [10].

(** A code unit in [0xD800, 0xDBFF], in [0xDC00, 0xDFFF]. *)
Definition high_surrogate (u : Z) : bool := ((55296 <=? u) && (u <=? 56319))%Z.

Definition low_surrogate (u : Z) : bool := ((56320 <=? u) && (u <=? 57343))%Z.

(** The code point a surrogate pair stands for. *)
Definition pair_code_point (hi lo : Z) : Z :=
  (65536 + (hi - 55296) * 1024 + (lo - 56320))%Z.

(** The UTF-8 bytes of a code point. *)
Definition utf8_code_point (c : Z) : list Z :=
  (if c <? 128 then [c]
   else if c <? 2048 then [192 + c / 64; 128 + c mod 64]
   else if c <? 65536 then [224 + c / 4096; 128 + (c / 64) mod 64; 128 + c mod 64]
   else [240 + c / 262144; 128 + (c / 4096) mod 64; 128 + (c / 64) mod 64;
         128 + c mod 64])%Z.

(** Every surrogate of the string is half of a pair. *)
Fixpoint well_formed (s : list Z) : bool :=
  match s with
  | [] => true
  | u :: rest =>
      if high_surrogate u then
        match rest with
        | lo :: rest' => low_surrogate lo && well_formed rest'
        | [] => false
        end
      else negb (low_surrogate u) && well_formed rest
  end.

(** The bytes that [encodeURIComponent] escapes and [unescape] gives back:
    the UTF-8 encoding of the string, which a string with a lone surrogate
    does not have ([None]: [encodeURIComponent] throws). *)
Fixpoint utf8_strict (s : list Z) : option (list Z) :=
  match s with
  | [] => Some []
  | u :: rest =>
      if high_surrogate u then
        match rest with
        | lo :: rest' =>
            if low_surrogate lo
            then option_map (app (utf8_code_point (pair_code_point u lo)))
                            (utf8_strict rest')
            else None
        | [] => None
        end
      else if low_surrogate u then None
      else option_map (app (utf8_code_point u)) (utf8_strict rest)
  end.

(** The bytes Node writes for a string: its UTF-8 encoding, with U+FFFD
    (EF BF BD) in the place of a lone surrogate. *)
Fixpoint utf8_lossy (s : list Z) : list Z :=
  match s with
  | [] => []
  | u :: rest =>
      if high_surrogate u then
        match rest with
        | lo :: rest' =>
            if low_surrogate lo
            then (utf8_code_point (pair_code_point u lo) ++ utf8_lossy rest')%list
            else ([239; 191; 189] ++ utf8_lossy rest)%list
        | [] => [239; 191; 189]
        end
      else if low_surrogate u then ([239; 191; 189] ++ utf8_lossy rest)%list
      else (utf8_code_point u ++ utf8_lossy rest)%list
  end.

(** The code units of a text of ASCII characters. *)
Definition of_ascii (s : string) : list Z :=
  map (fun c => Z.of_N (N_of_ascii c)) (list_ascii_of_string s).

End UTF16.

(** What a constructor may be handed as the secret: a string or another
    primitive value ([undefined] when the configuration has no such entry
    or the environment no such variable). Objects are left out. *)
Module Secret.

Inductive t : Type :=
| Undefined
| Null
| Boolean (b : bool)
| Number (n : Z)
| Str (units : list Z).

End Secret.

(** The calls into the two crypto libraries, on these values. The texts of
    the errors are those of V8 and of Node.js. *)
Module Raw.
Import JS Eff.

(** [CryptoJS.enc.Utf8.parse(s)], which is
    [Latin1.parse(unescape(encodeURIComponent(s)))]. *)
Definition Utf8_parse (s : list Z) : outcome (list Z) :=
  match UTF16.utf8_strict s with
  | Some bytes => Returned bytes
  | None => Thrown (URIError "URI malformed")
  end.

(** The key as the HMAC of CryptoJS takes it: a string is parsed, anything
    else is used as a word array ([key.sigBytes], [key.clamp()]), which no
    primitive value is. *)
Definition cryptojs_key (key : Secret.t) : outcome (list Z) :=
  match key with
  | Secret.Str s => Utf8_parse s
  | Secret.Undefined =>
      Thrown (TypeError "Cannot read properties of undefined (reading 'sigBytes')")
  | Secret.Null =>
      Thrown (TypeError "Cannot read properties of null (reading 'sigBytes')")
  | Secret.Boolean _ | Secret.Number _ =>
      Thrown (TypeError "key.clamp is not a function")
  end.

(** [CryptoJS.HmacSHA256(message, key)]: the key is read when the HMAC is
    set up, the message when it is finalised. *)
Definition HmacSHA256 (message : list Z) (key : Secret.t) : outcome CryptoJS.WordArray :=
  match cryptojs_key key with
  | Thrown e => Thrown e
  | Returned k =>
      match Utf8_parse message with
      | Thrown e => Thrown e
      | Returned m =>
          Returned {| CryptoJS.words := SHA256.regs_words (HMAC.hmac_words k m);
                      CryptoJS.sigBytes := 32 |}
      end
  end.

(** How Node.js names the value it refuses. *)
Definition received (key : Secret.t) : string :=
  match key with
  | Secret.Undefined => "undefined"
  | Secret.Null => "null"
  | Secret.Boolean true => "type boolean (true)"
  | Secret.Boolean false => "type boolean (false)"
  | Secret.Number n => "type number (" +:+ decimal n +:+ ")"
  | Secret.Str _ => "type string"
  end.

(** [crypto.createHmac('sha256', key)]: a string is written as UTF-8, any
    other primitive value is refused. *)
Definition createHmac (key : Secret.t) : outcome NodeCrypto.Hmac :=
  match key with
  | Secret.Str s =>
      Returned {| NodeCrypto.hmac_key := UTF16.utf8_lossy s; NodeCrypto.hmac_data := [] |}
  | _ =>
      Thrown (TypeError ("The " +:+ dq +:+ "key" +:+ dq
                         +:+ " argument must be of type string or an instance of "
                         +:+ "ArrayBuffer, Buffer, TypedArray, DataView, KeyObject, "
                         +:+ "or CryptoKey. Received " +:+ received key))
  end.

(** [hmac.update(data)] with a string. *)
Definition update (h : NodeCrypto.Hmac) (data : list Z) : NodeCrypto.Hmac :=
  {| NodeCrypto.hmac_key := NodeCrypto.hmac_key h;
     NodeCrypto.hmac_data := (NodeCrypto.hmac_data h ++ UTF16.utf8_lossy data)%list |}.

End Raw.

(** [FedshiAPIClient.generateSignature] of the browser tool. *)
Module RawBrowser.
Import JS Eff.

Record FedshiAPIClient := {
  apiKey : list Z;
  secretKey : Secret.t;
  baseUrl : list Z
}.

Definition generateSignature (this : FedshiAPIClient)
    (method path body timestamp : list Z) : M string :=
  let stringToSign :=
    (method ++ UTF16.nl ++ path ++ UTF16.nl ++ body ++ UTF16.nl ++ timestamp
     ++ UTF16.nl ++ apiKey this)%list in
  hash <- lift (Raw.HmacSHA256 stringToSign (secretKey this)) ;;
  ret (CryptoJS.toString_Hex hash).

End RawBrowser.

(** [ThirdPartyAPIClient.generateSignature] of the Node.js SDK. *)
Module RawNodeSDK.
Import JS Eff.

Record ThirdPartyAPIClient := {
  apiKey : list Z;
  secret : Secret.t;
  baseUrl : list Z
}.

Definition generateSignature (this : ThirdPartyAPIClient)
    (method path body timestamp : list Z) : M string :=
  let stringToSign :=
    (method ++ UTF16.nl ++ path ++ UTF16.nl ++ body ++ UTF16.nl ++ timestamp
     ++ UTF16.nl ++ apiKey this)%list in
  hmac <- lift (Raw.createHmac (secret this)) ;;
  let hmac := Raw.update hmac stringToSign in
  ret (NodeCrypto.digest_hex hmac).

End RawNodeSDK.

(** ** The Python class of the access guide: its two calls *)

Module AccessGuidePython.
Import JS Http Eff.

(** The truth value of a Python object, held as the JSON value it
    serialises to: [None], [False], zero, the empty string, the empty list
    and the empty dict are false. *)
Definition bool_of (v : value) : bool :=
  match v with
  | Null => false
  | Bool b => b
  | Num n => negb (n =? 0)%Z
  | Str s => negb (String.eqb s "")
  | Arr items => negb (length items =? 0)%nat
  | Obj fields => negb (length fields =? 0)%nat
  end.

Section Python.

(** Python's [json.dumps], a library function. *)
Variable json_dumps : value -> string.

(** [login], up to and including [requests.post]. *)
Definition login_send (self : AccessGuide.PyClient) (email password : string)
    : M Response :=
  let method := "POST" in
  let path := "/api/v1/third-party/admin/login" in
  let body := json_dumps (Obj [("Email", Str email); ("Password", Str password)]) in
  headers <- AccessGuide.get_headers self method path body ;;
  fetch {| url := AccessGuide.base_url self +:+ path;
           verb := "POST";
           headers := headers;
           body := Text body |}.

(** [make_graphql_request], up to and including [requests.post];
    [variables] defaults to [Null]. *)
Definition make_graphql_request_send (self : AccessGuide.PyClient)
    (query : string) (variables : value) : M Response :=
  let method := "POST" in
  let path := "/graphql/third-party" in
  let payload :=
    if bool_of variables
    then Obj [("query", Str query); ("variables", variables)]
    else Obj [("query", Str query)] in
  let body := json_dumps payload in
  headers <- AccessGuide.get_headers self method path body ;;
  fetch {| url := AccessGuide.base_url self +:+ path;
           verb := "POST";
           headers := headers;
           body := Text body |}.

(** [make_graphql_request] as a whole; [Exception(text)] is [Error text]. *)
Definition make_graphql_request (self : AccessGuide.PyClient)
    (query : string) (variables : value) : M value :=
  response <- make_graphql_request_send self query variables ;;
  if (status response =? 200)%Z then json response
  else
    throw (Error ("GraphQL request failed: " +:+ decimal (status response) +:+ " - "
                  +:+ text response)).

End Python.

End AccessGuidePython.

(** ** Vocabulary of the properties *)

Module Spec.
Import JS Http Eff.

(** The signature base string of the wire contract. *)
Definition string_to_sign (method path body timestamp apiKey : string) : string :=
  method +:+ nl +:+ path +:+ nl +:+ body +:+ nl +:+ timestamp +:+ nl +:+ apiKey.

(** [sign] as the contract words it: the HMAC-SHA256, keyed by the secret,
    of the UTF-8 bytes of the base string, in hexadecimal. *)
Definition sign (method path body timestamp apiKey secret : string) : string :=
  Text.hex (HMAC.hmac_sha256 (Text.utf8 secret)
              (Text.utf8 (string_to_sign method path body timestamp apiKey))).

(** The header set of the contract: the four required headers, and the
    bearer token when there is one. *)
Definition expected_headers (apiKey signature timestamp : string)
    (bearer : option string) : gmap string string :=
  let required : gmap string string :=
    {[ "X-API-Key" := apiKey;
       "X-API-Signature" := signature;
       "X-API-Timestamp" := timestamp;
       "Content-Type" := "application/json" ]} in
  match bearer with
  | Some token => <["Authorization" := "Bearer " +:+ token]> required
  | None => required
  end.

(** The next request of [w], whatever it is, is answered by [resp]. *)
Definition answers (w : World) (resp : Response) : Prop :=
  forall r, network w (length (sent w)) r = Some resp.

(** The session token the browser tool holds, if any. *)
Definition held_token (w : World) : option value :=
  match window_app w with
  | Some app => if truthy (fedshiJwtToken app) then Some (fedshiJwtToken app) else None
  | None => None
  end.

(** The session token the client class of the access guide holds, if any. *)
Definition guide_token (c : AccessGuide.ThirdPartyAPIClient) : option value :=
  match AccessGuide.jwtToken c with
  | Some t => if truthy t then Some t else None
  | None => None
  end.

(** The body of the request that creates a shipment pack. *)
Definition shipment_pack_body (csv : CsvData) : string :=
  stringify
    (Obj [("query", Str Browser.AddShipmentPackV2_query);
          ("variables",
           Obj [("request",
                 Obj [("OrderShipmentIDs", Arr (map Str (shipmentIDs csv)));
                      ("DeliveryCourierID", courierID csv);
                      ("Type", Str "shipping")])])]).

(** The headers the client class of the access guide assembles at clock
    reading [ts]. *)
Definition guide_headers (c : AccessGuide.ThirdPartyAPIClient)
    (method path body ts : string) : gmap string string :=
  let headers :=
    object [("X-API-Key", AccessGuide.apiKey c);
            ("X-API-Signature",
             sign method path body ts (AccessGuide.apiKey c) (AccessGuide.secretKey c));
            ("X-API-Timestamp", ts);
            ("Content-Type", "application/json")] in
  match guide_token c with
  | Some t => <["Authorization" := "Bearer " +:+ to_string t]> headers
  | None => headers
  end.

(** [needle] occurs in [hay]. *)
Definition contains (needle hay : string) : Prop :=
  exists pre post, hay = pre +:+ needle +:+ post.

(** A computation that leaves the world as it found it. *)
Definition quiet {A} (m : M A) : Prop := forall w, snd (m w) = w.


(** The string [s] of the embedding holds the text of the run-time string
    [u]: its characters are the UTF-8 bytes of [u]. *)
Definition text_of (u : list Z) (s : string) : Prop :=
  UTF16.utf8_strict u = Some (Text.utf8 s).

(** The base string of the wire contract, in code units. *)
Definition units_to_sign (method path body timestamp apiKey : list Z) : list Z :=
  (method ++ UTF16.nl ++ path ++ UTF16.nl ++ body ++ UTF16.nl ++ timestamp
   ++ UTF16.nl ++ apiKey)%list.







(** What a request carries as text: no body counts as the empty text, a
    form carries none. *)
Definition carried_text (p : payload) : option string :=
  match p with
  | NoBody => Some ""
  | Text s => Some s
  | FormData _ => None
  end.

(** The header map [h] is exactly the header set of the contract for
    [apiKey], [signature], the stamp [ts] and [bearer]; in particular it
    has an [Authorization] entry exactly when there is a bearer token. *)
Definition contract_headers (h : gmap string string)
    (apiKey signature ts : string) (bearer : option string) : Prop :=
  h = expected_headers apiKey signature ts bearer
  /\ h !! "Authorization" = option_map (fun token => "Bearer " +:+ token) bearer.

(** Running [f] in [w] hands one request to the transport, addressed to
    [url]; its headers are the header set of the contract, the signature
    being [signature body] for the text [body] that the request carries. *)
Definition sends_contract {A} (f : M A) (w : World) (url ts apiKey : string)
    (signature : string -> string) (bearer : option string) : Prop :=
  exists req body,
    sent (snd (f w)) = (sent w ++ [req])%list
    /\ Http.url req = url
    /\ carried_text (Http.body req) = Some body
    /\ contract_headers (headers req) apiKey (signature body) ts bearer.

(** The session token the Python class of the access guide holds, if any. *)
Definition python_token (c : AccessGuide.PyClient) : option string :=
  match AccessGuide.jwt_token c with
  | Some t => if String.eqb t "" then None else Some t
  | None => None
  end.

(** Lines of a text, split at line feeds. *)
Definition is_lf (c : ascii) : bool := Ascii.eqb c (ascii_of_nat 10).

Fixpoint newline_free (s : string) : bool :=
  match s with
  | EmptyString => true
  | String c rest => negb (is_lf c) && newline_free rest
  end.

Fixpoint lines (s : string) : list string :=
  match s with
  | EmptyString => [""]
  | String c rest =>
      if is_lf c then "" :: lines rest
      else match lines rest with
           | l :: ls => String c l :: ls
           | [] => [String c ""]
           end
  end.

(** Line [n] of a text, counting from 0. *)
Definition line (n : nat) (s : string) : string := nth n (lines s) "".

(** The headers carry a timestamp [ts] and the signature of a base string
    that reads method, path, body, [ts] and then either nothing or the API
    key, each on a line of its own: [ts] is its fourth line. *)
Definition timestamp_agrees (secret : string) (h : gmap string string) : Prop :=
  exists ts method path body tail,
    let base := method +:+ nl +:+ path +:+ nl +:+ body +:+ nl +:+ ts +:+ tail in
    h !! "X-API-Timestamp" = Some ts
    /\ h !! "X-API-Signature" =
         Some (Text.hex (HMAC.hmac_sha256 (Text.utf8 secret) (Text.utf8 base)))
    /\ (tail = "" \/ exists apiKey, tail = nl +:+ apiKey)
    /\ line 3 base = ts.

(** Running [f] in [w] reads the clock once and sends one request, whose
    timestamp header is that reading and agrees with its signature. *)
Definition sends_signed {A} (secret : string) (f : M A) (w : World) : Prop :=
  exists req,
    sent (snd (f w)) = (sent w ++ [req])%list
    /\ ticks (snd (f w)) = S (ticks w)
    /\ timestamp_agrees secret (headers req).

(** Every request builder of the repository, run in [w], sends a request
    whose timestamp header agrees with its signature. *)
Definition all_clients_agree (w : World)
    (c : FedshiAPIClient) (n : NodeSDK.ThirdPartyAPIClient)
    (g : AccessGuide.ThirdPartyAPIClient) (k : QuickStart.FedshiGraphQLClient)
    (py : AccessGuide.PyClient) (json_dumps : value -> string)
    (user pass query method path body : string) (variables id : value) (file : File)
    : Prop :=
  sends_signed (secretKey c) (Browser.authenticate c user pass) w
  /\ sends_signed (secretKey c) (Browser.makeGraphQLRequest c query variables) w
  /\ sends_signed (secretKey c) (Browser.processCSVAndCreateShipmentPack c file) w
  /\ sends_signed (NodeSDK.secret n) (NodeSDK.makeRequest n method path variables) w
  /\ (exists h, AccessGuide.getHeaders g method path body w = (Returned h, tick w)
                /\ timestamp_agrees (AccessGuide.secretKey g) h)
  /\ sends_signed (AccessGuide.secretKey g) (AccessGuide.login g user pass) w
  /\ sends_signed (AccessGuide.secretKey g)
       (AccessGuide.makeGraphQLRequest g query variables) w
  /\ sends_signed QuickStart.secretKey (QuickStart.exportOrderShipmentReceipt_send id) w
  /\ sends_signed QuickStart.secretKey (QuickStart.uploadShipmentPack_send file) w
  /\ sends_signed (QuickStart.client_secretKey k) (QuickStart.makeRequest k query variables) w
  /\ sends_signed (QuickStart.client_secretKey k) (QuickStart.uploadShipmentPack k file) w
  /\ sends_signed "your-128-character-secret-key-here"
       (QuickStart.export_order_shipment_receipt_send json_dumps id) w
  /\ (exists h, AccessGuide.get_headers py method path body w = (Returned h, tick w)
                /\ timestamp_agrees (AccessGuide.secret_key py) h).

(** A world to run examples in: the clock shows one instant, the server
    answers every request with [resp], the page holds [app]. *)
Definition sample_world (resp : Response) (app : App) : World :=
  {| ticks := 0;
     iso := fun _ => "2024-01-15T10:30:45.000Z";
     network := fun _ _ => Some resp;
     sent := [];
     window_app := Some app;
     page := [];
     csv_of := fun _ => Returned {| shipmentIDs := ["NZQVP"; "NBFGO"]; courierID := Num 7 |} |}.

Definition sample_client : FedshiAPIClient :=
  {| apiKey := "key1"; secretKey := "secret";
     baseUrl := "https://admin-api.app.fedshi.com" |}.

Definition sample_app (token : value) : App :=
  {| fedshiClient := Some sample_client;
     fedshiJwtToken := token;
     authenticationStatus_fedshi := truthy token |}.

Definition sample_file : File :=
  {| file_name := "sample-orders.csv"; file_bytes := [] |}.

Definition byte_range (b : Z) : Prop := (0 <= b < 256)%Z.

End Spec.

(** ** The quick start guide: the receipt method and the upload function *)

Module QuickStartClient.
Import JS Http Eff.

Definition client_ExportOrderShipmentReceipt_query : string :=
  String.concat nl
    [""
     ; "      query ExportOrderShipmentReceipt($ID: FID!) {"
     ; "        ExportOrderShipmentReceipt(OrderShipmentID: $ID) {"
     ; "          Content"
     ; "          Extension"
     ; "        }"
     ; "      }"
     ; "    "].

(** [FedshiGraphQLClient.exportOrderShipmentReceipt]. *)
Definition exportOrderShipmentReceipt (this : QuickStart.FedshiGraphQLClient)
    (orderShipmentID : value) : M (option value) :=
  let query := client_ExportOrderShipmentReceipt_query in
  let variables := Obj [("ID", orderShipmentID)] in
  result <- QuickStart.makeRequest this query variables ;;
  prop result "ExportOrderShipmentReceipt".

(** The JavaScript function [uploadShipmentPack] of the guide as a whole:
    the request, then the test [result.data &&
    result.data.UploadShipmentPack]. *)
Definition uploadShipmentPack (csvFile : File) : M value :=
  response <- QuickStart.uploadShipmentPack_send csvFile ;;
  result <- json response ;;
  data <- prop (Some result) "data" ;;
  pack <- (if truthy_opt data then prop data "UploadShipmentPack" else ret data) ;;
  if truthy_opt pack then ret (default Null pack)
  else
    errors <- prop (Some result) "errors" ;;
    throw (Error ("Failed to upload shipment pack: "
                  +:+ match errors with
                      | Some errs => stringify errs
                      | None => "undefined"
                      end)).

End QuickStartClient.

(** ** Computations that also keep the processing results of the page *)

Module PageEff.
Import JS Http Eff.

(** A link the page has created and clicked. *)
Record Download := {
  href : string;
  download : string
}.

(** [this.processingResults.failed] and [.success] of the application
    object, the downloads triggered so far and the tab shown last. *)
Record Results := {
  failed : list value;
  success : list string;
  downloads : list Download;
  tab : option string
}.

(** A computation on the page that may also update the results; what was
    updated before an exception was thrown stays updated. *)
Definition B (A : Type) : Type := Results -> World -> outcome A * Results * World.

Definition retB {A} (a : A) : B A := fun r w => (Returned a, r, w).

Definition throwB {A} (e : exn) : B A := fun r w => (Thrown e, r, w).

Definition bindB {A C} (m : B A) (k : A -> B C) : B C :=
  fun r w =>
    match m r w with
    | (Returned a, r', w') => k a r' w'
    | (Thrown e, r', w') => (Thrown e, r', w')
    end.

Definition try_catchB {A} (m : B A) (handler : exn -> B A) : B A :=
  fun r w =>
    match m r w with
    | (Returned a, r', w') => (Returned a, r', w')
    | (Thrown e, r', w') => handler e r' w'
    end.

Definition liftB {A} (m : M A) : B A :=
  fun r w => let (o, w') := m w in (o, r, w').

Definition modify (f : Results -> Results) : B unit :=
  fun r w => (Returned tt, f r, w).

End PageEff.

Declare Scope batch_scope.
Delimit Scope batch_scope with batch.
Notation "x <- m ;; k" := (PageEff.bindB m (fun x => k))
  (at level 100, m at next level, right associativity) : batch_scope.
Notation "m ;;; k" := (PageEff.bindB m (fun _ => k))
  (at level 100, right associativity) : batch_scope.

(** ** Processing a file of orders in the browser tool,
    [samples/robotool/app.js]

    The page is taken to hold the elements the code looks up
    ([failedOrdersList], [successLogContent] and the tabs), so that the
    calls that fill them do not fail. *)

Module Batch.
Import JS Http Eff PageEff.

(** [new Date()] read for a local time that is only displayed. *)
Definition new_Date : M unit := fun w => (Returned tt, tick w).

(** [this.fedshiClient.exportOrderShipmentReceipt(orderId)]. *)
Definition call_exportOrderShipmentReceipt (orderId : value) : M (option value) :=
  this <- Browser.this_app ;;
  match fedshiClient this with
  | Some client => Browser.exportOrderShipmentReceipt client orderId
  | None =>
      throw (TypeError
               "Cannot read properties of null (reading 'exportOrderShipmentReceipt')")
  end.

(** [csvData] is [null] ([None]) or an array of rows, each an array of
    cells. The loop starts at the second row and pushes the first cell of
    every row where it is truthy. *)
Definition extractOrderIds (csvData : option (list (list value))) : M (list value) :=
  match csvData with
  | None => throw (Error "CSV file is empty")
  | Some rows =>
      if (length rows =? 0)%nat then throw (Error "CSV file is empty")
      else
        ret (fold_left
               (fun orderIds row =>
                  match head row with
                  | Some cell => if truthy cell then (orderIds ++ [cell])%list else orderIds
                  | None => orderIds
                  end)
               (tail rows) [])
  end.

Definition downloadPDF (base64Content : value) (filename : string) : B bool :=
  let linkSource := "data:application/pdf;base64," +:+ to_string base64Content in
  (modify (fun r => {| failed := failed r; success := success r;
                       downloads := (downloads r ++
                                     [{| href := linkSource;
                                         download := filename +:+ ".pdf" |}])%list;
                       tab := tab r |}) ;;;
   retB true)%batch.

Definition addToFailedOrders (orderId : value) : B unit :=
  modify (fun r => {| failed := (failed r ++ [orderId])%list; success := success r;
                      downloads := downloads r; tab := tab r |}).

Definition addToSuccessLog (message : string) : B unit :=
  (modify (fun r => {| failed := failed r; success := (success r ++ [message])%list;
                       downloads := downloads r; tab := tab r |}) ;;;
   liftB new_Date)%batch.

Definition showTab (tabName : string) : B unit :=
  modify (fun r => {| failed := failed r; success := success r;
                      downloads := downloads r; tab := Some tabName |}).

Definition processOrderFedshiOnly (orderId : value) : B unit :=
  (fedshiResult <- liftB (call_exportOrderShipmentReceipt orderId) ;;
   match fedshiResult with
   | Some receipt =>
       if truthy receipt && truthy_opt (get receipt "Content") then
         downloadPDF (default Null (get receipt "Content"))
                     (to_string orderId +:+ "-Fedshi") ;;;
         retB tt
       else throwB (Error "No content received from Fedshi")
   | None => throwB (Error "No content received from Fedshi")
   end)%batch.

(** The [for ... of] loop of [processFedshiFiles] with its two counters. *)
Fixpoint for_orderIds (orderIds : list value) (processedCount failedCount : Z)
    : B (Z * Z) :=
  match orderIds with
  | [] => retB (processedCount, failedCount)
  | orderId :: rest =>
      (counts <- try_catchB
                   (processOrderFedshiOnly orderId ;;;
                    addToSuccessLog ("Successfully processed Fedshi order: "
                                     +:+ to_string orderId) ;;;
                    retB (processedCount + 1, failedCount)%Z)
                   (fun error =>
                      addToFailedOrders orderId ;;;
                      retB (processedCount, failedCount + 1)%Z) ;;
       for_orderIds rest (fst counts) (snd counts))%batch
  end.

Section Reader.

(** [FileReader.readAsText]: the text of the file, or [None] when reading
    fails; and [CSV.parse]: the parsed rows, or [None] when it throws. *)
Variable readAsText : File -> option string.
Variable CSV_parse : string -> option (option (list (list value))).

Definition readCSVFile (file : File) : M (option (list (list value))) :=
  match readAsText file with
  | Some result =>
      match CSV_parse result with
      | Some csvData => ret csvData
      | None => throw (Error "Failed to parse CSV file")
      end
  | None => throw (Error "Failed to read file")
  end.

(** [file] is [fileInput.files[0]]. *)
Definition processFedshiFiles (file : option File) : B unit :=
  match file with
  | None => liftB (Browser.showMessage "Please select a CSV file first" "error")
  | Some file =>
      (liftB (Browser.showMessage "Processing Fedshi files..." "info") ;;;
       try_catchB
         (csvData <- liftB (readCSVFile file) ;;
          orderIds <- liftB (extractOrderIds csvData) ;;
          counts <- for_orderIds orderIds 0 0 ;;
          liftB (Browser.showMessage
                   ("Fedshi processing complete. Success: " +:+ decimal (fst counts)
                    +:+ ", Failed: " +:+ decimal (snd counts)) "success") ;;;
          showTab "success")
         (fun error =>
            liftB (Browser.showMessage
                     ("Error processing Fedshi files: " +:+ message_of error) "error")))%batch
  end.

End Reader.

End Batch.

(** ** Reading a shipment file in the browser tool, the [onload] handler of
    [FedshiAPIClient.parseCSVFile] in [samples/robotool/app.js] *)

Module CsvFile.
Import JS Http Eff.

(** [s.split(sep)] for a separator of one ASCII character: the pieces
    between the separators, of which there is always at least one. *)
Fixpoint split (sep : ascii) (s : string) : list string :=
  match s with
  | EmptyString => [""]
  | String c rest =>
      if Ascii.eqb c sep then "" :: split sep rest
      else match split sep rest with
           | piece :: pieces => String c piece :: pieces
           | [] => [String c ""]
           end
  end.

Definition byte (c : ascii) : Z := Z.of_N (N_of_ascii c).

(** White space and line terminators of ECMAScript, as encoded in UTF-8:
    U+0009 to U+000D and U+0020 in one byte; *)
Definition white1 (c : ascii) : bool :=
  let b := byte c in
  ((9 <=? b) && (b <=? 13) || (b =? 32))%Z.

(** U+00A0 in two bytes; *)
Definition white2 (c1 c2 : ascii) : bool :=
  ((byte c1 =? 194) && (byte c2 =? 160))%Z.

(** U+1680, U+2000 to U+200A, U+2028, U+2029, U+202F, U+205F, U+3000 and
    U+FEFF in three bytes. *)
Definition white3 (c1 c2 c3 : ascii) : bool :=
  let b1 := byte c1 in
  let b2 := byte c2 in
  let b3 := byte c3 in
  ((b1 =? 225) && (b2 =? 154) && (b3 =? 128)
   || (b1 =? 226) && (b2 =? 128)
      && ((128 <=? b3) && (b3 <=? 138) || (b3 =? 168) || (b3 =? 169) || (b3 =? 175))
   || (b1 =? 226) && (b2 =? 129) && (b3 =? 159)
   || (b1 =? 227) && (b2 =? 128) && (b3 =? 128)
   || (b1 =? 239) && (b2 =? 187) && (b3 =? 191))%Z.

(** [s.trimStart()]. *)
Fixpoint trimStart (s : string) : string :=
  match s with
  | EmptyString => ""
  | String c1 r1 =>
      if white1 c1 then trimStart r1
      else
        match r1 with
        | EmptyString => s
        | String c2 r2 =>
            if white2 c1 c2 then trimStart r2
            else
              match r2 with
              | EmptyString => s
              | String c3 r3 => if white3 c1 c2 c3 then trimStart r3 else s
              end
        end
  end.

(** [s.trimEnd()]: the text is cut where only white space follows. *)
Fixpoint trimEnd (s : string) : string :=
  match s with
  | EmptyString => ""
  | String c rest =>
      if String.eqb (trimStart s) "" then "" else String c (trimEnd rest)
  end.

(** [s.trim()]. *)
Definition trim (s : string) : string := trimEnd (trimStart s).

Section Parse.

(** [parseInt(s, 10)], a function of the language. *)
Variable parseInt : string -> value.

(** One turn of the loop over [lines]; [acc] holds [shipmentIDs] and
    [courierID]. *)
Definition row (acc : list string * value) (raw : string) : list string * value :=
  let line := trim raw in
  if String.eqb line "" then acc
  else
    let columns := split "," line in
    match columns with
    | column0 :: column1 :: _ =>
        let shipmentID := trim column0 in
        let courier := trim column1 in
        if negb (String.eqb shipmentID "") && negb (String.eqb courier "")
        then ((fst acc ++ [shipmentID])%list, parseInt courier)
        else acc
    | _ => acc
    end.

(** The handler: [csvContent] is [event.target.result]; the loop starts
    at the second line. *)
Definition onload (csvContent : string) : CsvData :=
  let lines := split (ascii_of_nat 10) csvContent in
  let result := fold_left row (tail lines) ([], Null) in
  {| shipmentIDs := fst result; courierID := snd result |}.

End Parse.

End CsvFile.

(** ** Vocabulary of the further properties *)

Module Terms.
Import JS Http Eff.

(** The test [loginResult && loginResult.Token] of [loginFedshi]. *)
Definition login_accepts (loginResult : value) : bool :=
  truthy loginResult && truthy_opt (get loginResult "Token").

(** The page's application object after [loginFedshi] saw [authenticate]
    end with [o]. *)
Definition app_after_login (app : App) (o : outcome value) : App :=
  match o with
  | Returned loginResult =>
      if login_accepts loginResult
      then {| fedshiClient := fedshiClient app;
              fedshiJwtToken := default Null (get loginResult "Token");
              authenticationStatus_fedshi := true |}
      else {| fedshiClient := fedshiClient app;
              fedshiJwtToken := fedshiJwtToken app;
              authenticationStatus_fedshi := false |}
  | Thrown _ =>
      {| fedshiClient := fedshiClient app;
         fedshiJwtToken := fedshiJwtToken app;
         authenticationStatus_fedshi := false |}
  end.

(** File operations are enabled only while a token is held. *)
Definition enabled_with_token (app : App) : Prop :=
  authenticationStatus_fedshi app = true -> truthy (fedshiJwtToken app) = true.

(** The receipt content [processOrderFedshiOnly] downloads, when the call
    for the receipt ended with [o]. *)
Definition receipt_content (o : outcome (option value)) : option value :=
  match o with
  | Returned (Some receipt) =>
      if truthy receipt && truthy_opt (get receipt "Content")
      then get receipt "Content" else None
  | _ => None
  end.

(** The results after one order of the batch was processed. *)
Definition results_after_order (orderId : value) (content : option value)
    (r : PageEff.Results) : PageEff.Results :=
  match content with
  | Some c =>
      {| PageEff.failed := PageEff.failed r;
         PageEff.success :=
           (PageEff.success r ++
            ["Successfully processed Fedshi order: " +:+ to_string orderId])%list;
         PageEff.downloads :=
           (PageEff.downloads r ++
            [{| PageEff.href := "data:application/pdf;base64," +:+ to_string c;
                PageEff.download := (to_string orderId +:+ "-Fedshi") +:+ ".pdf" |}])%list;
         PageEff.tab := PageEff.tab r |}
  | None =>
      {| PageEff.failed := (PageEff.failed r ++ [orderId])%list;
         PageEff.success := PageEff.success r;
         PageEff.downloads := PageEff.downloads r;
         PageEff.tab := PageEff.tab r |}
  end.

(** [c] is one of the characters of [s]. *)
Fixpoint occurs (c : ascii) (s : string) : bool :=
  match s with
  | EmptyString => false
  | String x rest => Ascii.eqb x c || occurs c rest
  end.

(** A visible ASCII character (33 to 126) other than the comma. *)
Definition visible (c : ascii) : bool :=
  let b := CsvFile.byte c in
  ((33 <=? b) && (b <=? 126) && negb (b =? 44))%Z.

(** A text made of such characters only. *)
Fixpoint plain (s : string) : bool :=
  match s with
  | EmptyString => true
  | String c rest => visible c && plain rest
  end.

(** The text ends with a visible character. *)
Fixpoint ends_visible (s : string) : bool :=
  match s with
  | EmptyString => false
  | String c EmptyString => visible c
  | String _ rest => ends_visible rest
  end.

(** The text of a shipment file: a header line, then one line
    [<id>,<courier>] for every row. *)
Definition csv_text (header : string) (rows : list (string * string)) : string :=
  fold_left (fun text r => text +:+ nl +:+ fst r +:+ "," +:+ snd r) rows header.

End Terms.

(** * Properties *)

(** ** Running the effects *)

Section Eff_facts.
Import JS Http Eff Spec.

Lemma bind_returned {A B} (m : M A) (k : A -> M B) w a w1 :
  m w = (Returned a, w1) -> bind m k w = k a w1.
Proof. intros H. unfold bind. now rewrite H. Qed.

Lemma bind_thrown {A B} (m : M A) (k : A -> M B) w e w1 :
  m w = (Thrown e, w1) -> bind m k w = (Thrown e, w1).
Proof. intros H. unfold bind. now rewrite H. Qed.

Lemma clock_run w : new_Date_toISOString w = (Returned (iso w (ticks w)), tick w).
Proof. reflexivity. Qed.

Lemma fetch_run r w resp :
  network w (length (sent w)) r = Some resp ->
  fetch r w = (Returned resp, record_request r w).
Proof. intros H. unfold fetch. now rewrite H. Qed.

Lemma answers_tick w resp : answers w resp -> answers (tick w) resp.
Proof. intros H r. apply H. Qed.

Lemma quiet_ret {A} (a : A) : quiet (ret a).
Proof. intros w. reflexivity. Qed.

Lemma quiet_throw {A} e : quiet (@throw A e).
Proof. intros w. reflexivity. Qed.

Lemma quiet_json r : quiet (json r).
Proof. unfold json. destruct (parsed r); [apply quiet_ret | apply quiet_throw]. Qed.

Lemma quiet_prop v k : quiet (prop v k).
Proof.
  unfold prop. destruct v as [[]|]; first [apply quiet_ret | apply quiet_throw].
Qed.

Lemma quiet_bind {A B} (m : M A) (k : A -> M B) :
  quiet m -> (forall a, quiet (k a)) -> quiet (bind m k).
Proof.
  intros Hm Hk w. unfold bind. specialize (Hm w).
  destruct (m w) as [[a|e] w1]; simpl in Hm; subst w1; [apply Hk | reflexivity].
Qed.

Lemma quiet_try_catch {A} (m : M A) (h : exn -> M A) :
  quiet m -> (forall e, quiet (h e)) -> quiet (try_catch m h).
Proof.
  intros Hm Hh w. unfold try_catch. specialize (Hm w).
  destruct (m w) as [[a|e] w1]; simpl in Hm; subst w1; [reflexivity | apply Hh].
Qed.

(** After a [fetch], a quiet continuation leaves exactly one more request
    on record. *)
Lemma fetch_then_quiet {A} r (k : Response -> M A) w :
  (forall resp, quiet (k resp)) ->
  snd (bind (fetch r) k w) = record_request r w.
Proof.
  intros Hk. unfold bind, fetch.
  destruct (network w (length (sent w)) r); [apply Hk | reflexivity].
Qed.

Lemma try_fetch_then_quiet {A} r (k : Response -> M A) (h : exn -> M A) w :
  (forall resp, quiet (k resp)) -> (forall e, quiet (h e)) ->
  snd (try_catch (bind (fetch r) k) h w) = record_request r w.
Proof.
  intros Hk Hh. unfold try_catch, bind, fetch.
  destruct (network w (length (sent w)) r) as [resp|].
  - specialize (Hk resp (record_request r w)).
    destruct (k resp (record_request r w)) as [[a|e] w1]; simpl in Hk; subst w1;
      [reflexivity | apply Hh].
  - apply Hh.
Qed.

End Eff_facts.

Create HintDb quiet.

#[local] Hint Resolve quiet_ret quiet_throw quiet_json quiet_prop : quiet.

(** Splits a goal [quiet m] along the structure of [m]. *)
Ltac quiet_tac :=
  repeat first
    [ solve [auto with quiet]
    | apply quiet_bind; [| intros ?]
    | apply quiet_try_catch; [| intros ?]
    | match goal with
      | |- Spec.quiet (if ?b then _ else _) => destruct b
      | |- Spec.quiet (match ?x with _ => _ end) => destruct x
      | |- Spec.quiet (let '(_, _) := ?x in _) => destruct x
      end ].

(** ** Strings *)

Section String_facts.
Import JS Spec.

Lemma str_app_cons (x : ascii) (a b : string) : String x a +:+ b = String x (a +:+ b).
Proof. reflexivity. Qed.

Lemma str_app_assoc (a b c : string) : (a +:+ b) +:+ c = a +:+ (b +:+ c).
Proof.
  induction a as [|x a IH]; [reflexivity|]. now rewrite !str_app_cons, IH.
Qed.

Lemma str_app_nil_r (a : string) : a +:+ "" = a.
Proof. induction a as [|x a IH]; [reflexivity|]. now rewrite str_app_cons, IH. Qed.


Lemma utf8_inj (a b : string) : Text.utf8 a = Text.utf8 b -> a = b.
Proof.
  unfold Text.utf8. revert b.
  induction a as [|x a IH]; intros [|y b] H; cbn in H; try discriminate; [reflexivity|].
  injection H as Hxy Hab. f_equal; [|now apply IH].
  apply N2Z.inj in Hxy.
  rewrite <- (ascii_N_embedding x), <- (ascii_N_embedding y). now rewrite Hxy.
Qed.

Lemma contains_refl (s : string) : contains s s.
Proof. exists "", "". now rewrite str_app_nil_r. Qed.

Lemma contains_app_r (n a b : string) : contains n b -> contains n (a +:+ b).
Proof.
  intros (pre & post & ->). exists (a +:+ pre), post. now rewrite str_app_assoc.
Qed.

Lemma contains_app_l (n a b : string) : contains n a -> contains n (a +:+ b).
Proof.
  intros (pre & post & ->). exists pre, (post +:+ b).
  now rewrite !str_app_assoc.
Qed.

Lemma contains_trans (a b c : string) : contains a b -> contains b c -> contains a c.
Proof.
  intros (p1 & q1 & ->) (p2 & q2 & ->). exists (p2 +:+ p1), (q1 +:+ q2).
  now rewrite !str_app_assoc.
Qed.

Lemma contains_empty (s : string) : contains "" s.
Proof. exists "", s. reflexivity. Qed.

Lemma contains_concat (sep x : string) (l : list string) :
  In x l -> contains x (String.concat sep l).
Proof.
  induction l as [|y l IH]; [intros []|].
  intros [-> | Hin]; cbn [String.concat]; destruct l as [|z l].
  - apply contains_refl.
  - apply contains_app_l, contains_refl.
  - destruct Hin.
  - apply contains_app_r, contains_app_r, IH, Hin.
Qed.

Lemma field_In k fs x : field k fs = Some x -> In (k, x) fs.
Proof.
  induction fs as [|[k' v] fs IH]; cbn; [discriminate|].
  destruct (String.eqb_spec k k') as [->|Hne].
  - intros [= ->]. now left.
  - intros H. right. now apply IH.
Qed.

(** The serialisation of an object shows each of its fields. *)
Lemma stringify_field k fs x :
  field k fs = Some x ->
  contains (quote k +:+ ":" +:+ stringify x) (stringify (Obj fs)).
Proof.
  intros H. apply field_In in H. cbn [stringify].
  apply contains_app_r, contains_app_l, contains_concat.
  apply (in_map (fun kv : string * value => let '(k0, x0) := kv in
                   quote k0 +:+ ":" +:+ stringify x0) _ _ H).
Qed.

(** The serialisation of an array shows its first element. *)
Lemma stringify_head e rest : contains (stringify e) (stringify (Arr (e :: rest))).
Proof.
  cbn [stringify]. apply contains_app_r, contains_app_l, contains_concat.
  now left.
Qed.

End String_facts.

(** ** The hash and the hexadecimal printer *)

Section Crypto_facts.
Import SHA256 Text.

Lemma be_bytes_length n x : length (be_bytes n x) = n.
Proof. induction n as [|n IH]; cbn [be_bytes length]; [reflexivity | now rewrite IH]. Qed.

Lemma hmac_sha256_length key msg : length (HMAC.hmac_sha256 key msg) = 32%nat.
Proof.
  unfold HMAC.hmac_sha256, regs_words. generalize (HMAC.hmac_words key msg).
  intros r. reflexivity.
Qed.

Lemma hex_digit_lower d : is_lower_hex (hex_digit d) = true.
Proof.
  unfold hex_digit.
  assert (H : (Z.to_nat (d mod 16) < 16)%nat)
    by (pose proof (Z.mod_pos_bound d 16); lia).
  revert H. generalize (Z.to_nat (d mod 16)). intros k H.
  do 16 (destruct k as [|k]; [reflexivity|]). lia.
Qed.

Lemma hex_digit_mod d : hex_digit (d mod 16) = hex_digit d.
Proof. unfold hex_digit. now rewrite Z.mod_mod. Qed.

Lemma hex_length bs : String.length (hex bs) = (2 * length bs)%nat.
Proof.
  unfold hex. induction bs as [|b bs IH]; [reflexivity|].
  cbn [flat_map hex_byte app string_of_list_ascii String.length length].
  rewrite IH. lia.
Qed.

Lemma hex_lower bs :
  Forall (fun c => is_lower_hex c = true) (list_ascii_of_string (hex bs)).
Proof.
  unfold hex. rewrite list_ascii_of_string_of_list_ascii.
  induction bs as [|b bs IH]; [constructor|].
  cbn [flat_map hex_byte app].
  constructor; [apply hex_digit_lower|].
  constructor; [apply hex_digit_lower|exact IH].
Qed.

(** One byte of a word, printed the CryptoJS way and the plain way. *)
Lemma cryptojs_byte x s :
  [hex_digit (Z.shiftr (Z.land (Z.shiftr x s) 255) 4);
   hex_digit (Z.land (Z.land (Z.shiftr x s) 255) 15)] =
  hex_byte (Z.shiftr x s mod 256).
Proof.
  unfold hex_byte.
  change 255%Z with (Z.ones 8). change 15%Z with (Z.ones 4).
  rewrite !Z.land_ones by lia. rewrite Z.shiftr_div_pow2 by lia.
  rewrite hex_digit_mod. reflexivity.
Qed.

(** Printing the eight words of a digest byte by byte, as
    [CryptoJS.enc.Hex] does, gives the hexadecimal form of its 32 bytes. *)
Lemma cryptojs_hex (r : regs) :
  CryptoJS.toString_Hex {| CryptoJS.words := regs_words r; CryptoJS.sigBytes := 32 |} =
  hex (flat_map (be_bytes 4) (regs_words r)).
Proof.
  destruct r as [a b c d e f g h].
  unfold CryptoJS.toString_Hex, hex, regs_words.
  f_equal.
  cbn -[Z.shiftr Z.land Z.modulo Z.div hex_digit hex_byte].
  rewrite <- !cryptojs_byte.
  reflexivity.
Qed.

End Crypto_facts.

(** Test vectors: FIPS 180-4 (one block, no block, two blocks) and
    RFC 2104 style keys shorter and longer than a block. *)

Example sha256_abc :
  Text.hex (SHA256.digest (Text.utf8 "abc")) =
  "ba7816bf8f01cfea414140de5dae2223b00361a396177a9cb410ff61f20015ad".
Proof. vm_compute. reflexivity. Qed.

Example sha256_empty :
  Text.hex (SHA256.digest []) =
  "e3b0c44298fc1c149afbf4c8996fb92427ae41e4649b934ca495991b7852b855".
Proof. vm_compute. reflexivity. Qed.

Example sha256_two_blocks :
  Text.hex (SHA256.digest (repeat 97%Z 100)) =
  "2816597888e4a0d3a36b82b83316ab32680eb8f00f8cd3b904d681246d285a0e".
Proof. vm_compute. reflexivity. Qed.

Example hmac_sha256_short_key :
  Text.hex (HMAC.hmac_sha256 (Text.utf8 "key")
              (Text.utf8 "The quick brown fox jumps over the lazy dog")) =
  "f7bc83f430538424b13298e6aa6fb143ef4d59a14946175997479dbc2d1a3cd8".
Proof. vm_compute. reflexivity. Qed.

Example hmac_sha256_long_key :
  Text.hex (HMAC.hmac_sha256 (repeat 107%Z 70) (Text.utf8 "msg")) =
  "869b65e96f6aff0cfcb55ed40163b7d46e124a4213fa2232d61cca5e4a21256e".
Proof. vm_compute. reflexivity. Qed.

(** ** The signers *)

Section Signers.
Import JS Eff Spec.

Lemma browser_sign c m p b t :
  Browser.generateSignature c m p b t = sign m p b t (apiKey c) (secretKey c).
Proof.
  unfold Browser.generateSignature, CryptoJS.HmacSHA256. rewrite cryptojs_hex.
  reflexivity.
Qed.

Lemma node_sign c m p b t :
  NodeSDK.generateSignature c m p b t =
  sign m p b t (NodeSDK.apiKey c) (NodeSDK.secret c).
Proof. reflexivity. Qed.

Lemma quickstart_sign c m p b t :
  QuickStart.generateSignature c m p b t =
  sign m p b t (QuickStart.client_apiKey c) (QuickStart.client_secretKey c).
Proof.
  unfold QuickStart.generateSignature, CryptoJS.HmacSHA256. rewrite cryptojs_hex.
  reflexivity.
Qed.

Lemma guide_js_sign c m p b w :
  AccessGuide.generateSignature c m p b w =
  (Returned (sign m p b (iso w (ticks w)) (AccessGuide.apiKey c) (AccessGuide.secretKey c),
             iso w (ticks w)),
   tick w).
Proof. reflexivity. Qed.

Lemma guide_python_sign c m p b w :
  AccessGuide.generate_signature c m p b w =
  (Returned (sign m p b (iso w (ticks w) +:+ "Z")
               (AccessGuide.api_key c) (AccessGuide.secret_key c),
             iso w (ticks w) +:+ "Z"),
   tick w).
Proof. reflexivity. Qed.

Lemma sign_length m p b t k s : String.length (sign m p b t k s) = 64%nat.
Proof. unfold sign. now rewrite hex_length, hmac_sha256_length. Qed.

Lemma sign_lower_hex m p b t k s :
  Forall (fun c => Text.is_lower_hex c = true) (list_ascii_of_string (sign m p b t k s)).
Proof. apply hex_lower. Qed.

(** The vector of the design document, computed independently with a
    reference HMAC implementation. *)
Example golden_vector :
  Browser.generateSignature
    {| apiKey := "key1"; secretKey := "secret"; baseUrl := "https://example.test" |}
    "GET" "/api/v1/third-party/export-order-shipment-receipt/ABC123" ""
    "2024-01-15T10:30:45Z" =
  "1c775a8ddd99240af564d8137fe79ebbcb35e5a4a32ad72e5ebc1087d5ff9c8d".
Proof. vm_compute. reflexivity. Qed.

End Signers.

(** C1. For every method, path, body, timestamp, API key and secret, both
    [generateSignature] methods (browser tool and Node.js SDK) return the
    hexadecimal form, 64 characters all among [0-9a-f], of the HMAC-SHA256
    code, keyed by the UTF-8 bytes of the secret, of the UTF-8 bytes of
    method, path, body, timestamp and API key joined by line feeds. *)
Theorem C1_signature_is_hex_hmac_sha256 :
  forall (c : Eff.FedshiAPIClient) (n : NodeSDK.ThirdPartyAPIClient)
         (method path body timestamp : string),
    let browser := Browser.generateSignature c method path body timestamp in
    let node := NodeSDK.generateSignature n method path body timestamp in
    browser =
      Text.hex (HMAC.hmac_sha256 (Text.utf8 (Eff.secretKey c))
                  (Text.utf8 (method +:+ JS.nl +:+ path +:+ JS.nl +:+ body +:+ JS.nl
                              +:+ timestamp +:+ JS.nl +:+ Eff.apiKey c)))
    /\ node =
      Text.hex (HMAC.hmac_sha256 (Text.utf8 (NodeSDK.secret n))
                  (Text.utf8 (method +:+ JS.nl +:+ path +:+ JS.nl +:+ body +:+ JS.nl
                              +:+ timestamp +:+ JS.nl +:+ NodeSDK.apiKey n)))
    /\ String.length browser = 64%nat
    /\ String.length node = 64%nat
    /\ Forall (fun ch => Text.is_lower_hex ch = true) (list_ascii_of_string browser)
    /\ Forall (fun ch => Text.is_lower_hex ch = true) (list_ascii_of_string node).
Proof.
  intros c n method path body timestamp browser node. subst browser node.
  rewrite browser_sign, node_sign.
  repeat split; try reflexivity;
    solve [apply sign_length | apply sign_lower_hex].
Qed.

(** ** Lines of the base string *)

Section Line_facts.
Import JS Spec.

Lemma newline_free_app (a b : string) :
  newline_free (a +:+ b) = newline_free a && newline_free b.
Proof.
  induction a as [|c a IH]; [reflexivity|].
  rewrite str_app_cons. cbn [newline_free]. rewrite IH. now rewrite andb_assoc.
Qed.

Lemma newline_free_concat (sep : string) (l : list string) :
  newline_free sep = true ->
  Forall (fun s => newline_free s = true) l ->
  newline_free (String.concat sep l) = true.
Proof.
  intros Hsep Hl. induction Hl as [|x l Hx Hl IH]; [reflexivity|].
  cbn [String.concat]. destruct l as [|y l]; [exact Hx|].
  rewrite !newline_free_app, Hx, Hsep, IH. reflexivity.
Qed.

Lemma uint_newline_free (d : Decimal.uint) :
  newline_free (NilEmpty.string_of_uint d) = true.
Proof. induction d; cbn; assumption || reflexivity. Qed.

Lemma decimal_newline_free (n : Z) : newline_free (decimal n) = true.
Proof.
  unfold decimal, NilZero.string_of_int.
  destruct (Z.to_int n) as [d|d]; unfold NilZero.string_of_uint;
    destruct d; cbn [newline_free is_lf]; try reflexivity;
    cbn; apply uint_newline_free.
Qed.

Lemma quote_char_newline_free (c : ascii) : newline_free (quote_char c) = true.
Proof. destruct c as [[] [] [] [] [] [] [] []]; reflexivity. Qed.

Lemma quote_newline_free (s : string) : newline_free (quote s) = true.
Proof.
  unfold quote. rewrite !newline_free_app.
  assert (H : newline_free (quote_body s) = true).
  { induction s as [|c s IH]; [reflexivity|].
    cbn [quote_body]. now rewrite newline_free_app, quote_char_newline_free, IH. }
  rewrite H. reflexivity.
Qed.

(** [JSON.stringify] escapes line feeds: its output is a single line. *)
Lemma stringify_newline_free (v : value) : newline_free (stringify v) = true.
Proof.
  induction v using value_induction.
  - reflexivity.
  - destruct b; reflexivity.
  - apply decimal_newline_free.
  - apply quote_newline_free.
  - cbn [stringify]. rewrite !newline_free_app.
    rewrite newline_free_concat; [reflexivity | reflexivity |].
    apply Forall_map. exact H.
  - cbn [stringify]. rewrite !newline_free_app.
    rewrite newline_free_concat; [reflexivity | reflexivity |].
    apply Forall_map. eapply Forall_impl; [exact H|].
    intros [k x] Hx. cbn in Hx.
    now rewrite !newline_free_app, quote_newline_free, Hx.
Qed.

Lemma lines_cons_line (a rest : string) :
  newline_free a = true -> lines (a +:+ nl +:+ rest) = a :: lines rest.
Proof.
  induction a as [|c a IH]; intros H; [reflexivity|].
  cbn [newline_free] in H. apply andb_true_iff in H as [Hc Ha].
  rewrite str_app_cons. cbn [lines].
  destruct (is_lf c); [discriminate Hc|]. now rewrite (IH Ha).
Qed.

Lemma lines_last (a : string) : newline_free a = true -> lines a = [a].
Proof.
  induction a as [|c a IH]; intros H; [reflexivity|].
  cbn [newline_free] in H. apply andb_true_iff in H as [Hc Ha].
  cbn [lines]. destruct (is_lf c); [discriminate Hc|]. now rewrite (IH Ha).
Qed.

(** The fourth line of the base string of the contract is the timestamp. *)
Lemma line3_string_to_sign m p b t k :
  newline_free m = true -> newline_free p = true ->
  newline_free b = true -> newline_free t = true ->
  line 3 (string_to_sign m p b t k) = t.
Proof.
  intros Hm Hp Hb Ht. unfold line, string_to_sign.
  now rewrite !lines_cons_line by assumption.
Qed.

(** So is the last line of a base string that stops at the timestamp. *)
Lemma line3_short_base m p b t :
  newline_free m = true -> newline_free p = true ->
  newline_free b = true -> newline_free t = true ->
  line 3 (m +:+ nl +:+ p +:+ nl +:+ b +:+ nl +:+ t) = t.
Proof.
  intros Hm Hp Hb Ht. unfold line.
  rewrite !lines_cons_line by assumption. now rewrite lines_last.
Qed.

End Line_facts.

(** ** Strings of code units and the signers on them *)

Section Units.
Import JS Eff Spec.

Lemma utf8_app (a b : string) :
  Text.utf8 (a +:+ b) = (Text.utf8 a ++ Text.utf8 b)%list.
Proof.
  unfold Text.utf8. induction a as [|x a IH]; [reflexivity|].
  rewrite str_app_cons. cbn [list_ascii_of_string map app]. now rewrite IH.
Qed.

(** Induction that follows the encoders: one code unit or one pair at a
    time. *)
Lemma units_ind (P : list Z -> Prop) :
  P [] ->
  (forall u rest,
      P rest ->
      match rest with _ :: rest' => P rest' | [] => True end ->
      P (u :: rest)) ->
  forall s, P s.
Proof.
  intros H0 Hstep.
  assert (H : forall s, P s /\ match s with _ :: rest' => P rest' | [] => True end).
  { induction s as [|u s [IH1 IH2]]; [split; [exact H0 | exact I]|].
    split; [now apply Hstep | exact IH1]. }
  intros s. apply H.
Qed.


(** On such a string Node writes the same bytes. *)
Lemma strict_lossy (s bytes : list Z) :
  UTF16.utf8_strict s = Some bytes -> UTF16.utf8_lossy s = bytes.
Proof.
  revert bytes. induction s as [|u rest IH IH'] using units_ind; intros bytes.
  - now intros [= <-].
  - cbn [UTF16.utf8_strict UTF16.utf8_lossy].
    destruct (UTF16.high_surrogate u).
    + destruct rest as [|lo rest']; [discriminate|].
      destruct (UTF16.low_surrogate lo); [|discriminate].
      destruct (UTF16.utf8_strict rest') as [tl|]; [|discriminate].
      intros [= <-]. now rewrite (IH' tl eq_refl).
    + destruct (UTF16.low_surrogate u); [discriminate|].
      destruct (UTF16.utf8_strict rest) as [tl|]; [|discriminate].
      intros [= <-]. now rewrite (IH tl eq_refl).
Qed.

Lemma strict_app (a b x y : list Z) :
  UTF16.utf8_strict a = Some x -> UTF16.utf8_strict b = Some y ->
  UTF16.utf8_strict (a ++ b) = Some (x ++ y)%list.
Proof.
  intros Ha Hb. revert x Ha.
  induction a as [|u rest IH IH'] using units_ind; intros x.
  - now intros [= <-].
  - cbn [UTF16.utf8_strict app].
    destruct (UTF16.high_surrogate u).
    + destruct rest as [|lo rest']; [discriminate|].
      cbn [app]. destruct (UTF16.low_surrogate lo); [|discriminate].
      destruct (UTF16.utf8_strict rest') as [tl|]; [|discriminate].
      intros [= <-]. rewrite (IH' tl eq_refl). cbn [option_map].
      now rewrite app_assoc.
    + destruct (UTF16.low_surrogate u); [discriminate|].
      destruct (UTF16.utf8_strict rest) as [tl|]; [|discriminate].
      intros [= <-]. rewrite (IH tl eq_refl). cbn [option_map].
      now rewrite app_assoc.
Qed.

Lemma text_of_app (u v : list Z) (s t : string) :
  text_of u s -> text_of v t -> text_of (u ++ v) (s +:+ t).
Proof. unfold text_of. intros Hu Hv. rewrite utf8_app. now apply strict_app. Qed.

Lemma text_of_nl : text_of UTF16.nl nl.
Proof. reflexivity. Qed.

(** The base string in code units holds the base string of the contract. *)
Lemma text_of_base um up ub ut uk m p b t k :
  text_of um m -> text_of up p -> text_of ub b -> text_of ut t -> text_of uk k ->
  text_of (units_to_sign um up ub ut uk) (string_to_sign m p b t k).
Proof.
  intros Hm Hp Hb Ht Hk. unfold units_to_sign, string_to_sign.
  repeat first [assumption | apply text_of_nl | apply text_of_app].
Qed.

(** A text of ASCII characters is held by its own characters. *)
Lemma text_of_ascii (s : string) :
  Forall (fun c => (N_of_ascii c < 128)%N) (list_ascii_of_string s) ->
  text_of (UTF16.of_ascii s) s.
Proof.
  unfold text_of, UTF16.of_ascii, Text.utf8.
  induction s as [|c s IH]; intros H; [reflexivity|].
  cbn [list_ascii_of_string] in H. inversion H as [|c' l Hc Hs]; subst.
  cbn [list_ascii_of_string map UTF16.utf8_strict].
  assert (Hz : (0 <= Z.of_N (N_of_ascii c) < 128)%Z) by lia.
  unfold UTF16.high_surrogate, UTF16.low_surrogate.
  replace (55296 <=? Z.of_N (N_of_ascii c))%Z with false by lia.
  replace (56320 <=? Z.of_N (N_of_ascii c))%Z with false by lia.
  cbn [andb]. rewrite (IH Hs). unfold UTF16.utf8_code_point.
  replace (Z.of_N (N_of_ascii c) <? 128)%Z with true by lia.
  reflexivity.
Qed.

(** U+00E9 and U+1F600, and a high surrogate that stands alone. *)
Example utf8_of_units :
  (UTF16.utf8_strict [233; 55357; 56832] = Some [195; 169; 240; 159; 152; 128]
   /\ UTF16.utf8_lossy [233; 55357; 56832] = [195; 169; 240; 159; 152; 128]
   /\ UTF16.utf8_strict [107; 55357] = None
   /\ UTF16.utf8_lossy [107; 55357] = [107; 239; 191; 189]
   /\ UTF16.well_formed [107; 55357] = false)%Z.
Proof. repeat split. Qed.

(** What a call of the browser signer comes to. *)
Lemma raw_browser_run c method path body timestamp w :
  RawBrowser.generateSignature c method path body timestamp w =
  (match Raw.cryptojs_key (RawBrowser.secretKey c) with
   | Thrown e => Thrown e
   | Returned key =>
       match UTF16.utf8_strict
               (units_to_sign method path body timestamp (RawBrowser.apiKey c)) with
       | Some message => Returned (Text.hex (HMAC.hmac_sha256 key message))
       | None => Thrown (URIError "URI malformed")
       end
   end, w).
Proof.
  unfold RawBrowser.generateSignature, bind, lift, ret, Raw.HmacSHA256, Raw.Utf8_parse.
  fold (units_to_sign method path body timestamp (RawBrowser.apiKey c)).
  destruct (Raw.cryptojs_key (RawBrowser.secretKey c)) as [key|e]; [|reflexivity].
  destruct (UTF16.utf8_strict _) as [message|]; [|reflexivity].
  now rewrite cryptojs_hex.
Qed.

(** What a call of the SDK signer comes to. *)
Lemma raw_node_run n method path body timestamp w :
  RawNodeSDK.generateSignature n method path body timestamp w =
  (match Raw.createHmac (RawNodeSDK.secret n) with
   | Thrown e => Thrown e
   | Returned hmac =>
       Returned (Text.hex
                   (HMAC.hmac_sha256 (NodeCrypto.hmac_key hmac)
                      (UTF16.utf8_lossy
                         (units_to_sign method path body timestamp (RawNodeSDK.apiKey n)))))
   end, w).
Proof.
  unfold RawNodeSDK.generateSignature, bind, lift, ret.
  fold (units_to_sign method path body timestamp (RawNodeSDK.apiKey n)).
  destruct (RawNodeSDK.secret n); reflexivity.
Qed.

(** On text the run-time signers return what the signers on text compute. *)
Lemma raw_browser_on_text rc (c : FedshiAPIClient) secret um up ub ut m p b t w :
  text_of (RawBrowser.apiKey rc) (apiKey c) ->
  RawBrowser.secretKey rc = Secret.Str secret -> text_of secret (secretKey c) ->
  text_of um m -> text_of up p -> text_of ub b -> text_of ut t ->
  RawBrowser.generateSignature rc um up ub ut w =
  (Returned (Browser.generateSignature c m p b t), w).
Proof.
  intros Hk Hs Hsecret Hm Hp Hb Ht.
  pose proof (text_of_base um up ub ut _ m p b t _ Hm Hp Hb Ht Hk) as Hbase.
  rewrite raw_browser_run, Hs. cbn [Raw.cryptojs_key]. unfold Raw.Utf8_parse.
  rewrite Hsecret, Hbase. now rewrite browser_sign.
Qed.

Lemma raw_node_on_text rn (n : NodeSDK.ThirdPartyAPIClient) secret um up ub ut m p b t w :
  text_of (RawNodeSDK.apiKey rn) (NodeSDK.apiKey n) ->
  RawNodeSDK.secret rn = Secret.Str secret -> text_of secret (NodeSDK.secret n) ->
  text_of um m -> text_of up p -> text_of ub b -> text_of ut t ->
  RawNodeSDK.generateSignature rn um up ub ut w =
  (Returned (NodeSDK.generateSignature n m p b t), w).
Proof.
  intros Hk Hs Hsecret Hm Hp Hb Ht.
  pose proof (text_of_base um up ub ut _ m p b t _ Hm Hp Hb Ht Hk) as Hbase.
  rewrite raw_node_run, Hs. cbn [Raw.createHmac NodeCrypto.hmac_key].
  rewrite (strict_lossy _ _ Hsecret), (strict_lossy _ _ Hbase). now rewrite node_sign.
Qed.



End Units.

(** C2. The claim holds of every signer but one: the Python example of the
    quick start guide builds its base string from method, path, body and
    timestamp only, without the final API key line, whatever the serialiser
    and the clock; on the vector of the design document it therefore signs
    differently from the browser tool. *)
Theorem C2_python_example_omits_api_key :
  (forall (json_dumps : JS.value -> string) (order_shipment_id : JS.value) (w : Eff.World),
      exists req,
        Eff.sent (snd (QuickStart.export_order_shipment_receipt_send
                         json_dumps order_shipment_id w)) = (Eff.sent w ++ [req])%list
        /\ exists body timestamp,
             Http.body req = Http.Text body
             /\ Http.headers req !! "X-API-Timestamp" = Some timestamp
             /\ Http.headers req !! "X-API-Signature" =
                  Some (Text.hex (HMAC.hmac_sha256
                                    (Text.utf8 "your-128-character-secret-key-here")
                                    (Text.utf8 ("POST" +:+ JS.nl +:+ "/graphql/third-party"
                                                +:+ JS.nl +:+ body +:+ JS.nl +:+ timestamp)))))
  /\ QuickStart.python_example_signature "secret" "GET"
       "/api/v1/third-party/export-order-shipment-receipt/ABC123" ""
       "2024-01-15T10:30:45Z" =
     "7143a67096c0d59707fc86ff2796ba088abbf4550f76b10ebe0c5e6c9958f64b"
  /\ Browser.generateSignature
       {| Eff.apiKey := "key1"; Eff.secretKey := "secret";
          Eff.baseUrl := "https://example.test" |}
       "GET" "/api/v1/third-party/export-order-shipment-receipt/ABC123" ""
       "2024-01-15T10:30:45Z" =
     "1c775a8ddd99240af564d8137fe79ebbcb35e5a4a32ad72e5ebc1087d5ff9c8d".
Proof.
  split; [|split; vm_compute; reflexivity].
  intros json_dumps order_shipment_id w.
  unfold QuickStart.export_order_shipment_receipt_send.
  rewrite (bind_returned _ _ _ _ _ (clock_run w)).
  eexists. split.
  - unfold Eff.fetch. destruct (Eff.network _ _ _); reflexivity.
  - eexists _, _. cbn [Http.body Http.headers]. split; [reflexivity|].
    split; reflexivity.
Qed.

(** C3. The signer is a function of its six inputs and of nothing else.
    Two calls of [generateSignature] (browser tool, Node.js SDK) with the
    same method, path, body and timestamp, by clients that hold the same
    API key and secret, end alike - both return the same signature or both
    raise the same error - whatever the worlds they run in: the clock, the
    network, the page and the session of the two runs may all differ, and
    so may whatever else the clients hold. Neither call changes the world
    it runs in: it reads no clock, sends no request, shows nothing. *)
Theorem C3_signer_is_pure
    (c1 c2 : RawBrowser.FedshiAPIClient) (n1 n2 : RawNodeSDK.ThirdPartyAPIClient)
    (method path body timestamp : list Z) (w1 w2 : Eff.World) :
  RawBrowser.apiKey c1 = RawBrowser.apiKey c2 ->
  RawBrowser.secretKey c1 = RawBrowser.secretKey c2 ->
  RawNodeSDK.apiKey n1 = RawNodeSDK.apiKey n2 ->
  RawNodeSDK.secret n1 = RawNodeSDK.secret n2 ->
  fst (RawBrowser.generateSignature c1 method path body timestamp w1) =
    fst (RawBrowser.generateSignature c2 method path body timestamp w2)
  /\ fst (RawNodeSDK.generateSignature n1 method path body timestamp w1) =
       fst (RawNodeSDK.generateSignature n2 method path body timestamp w2)
  /\ snd (RawBrowser.generateSignature c1 method path body timestamp w1) = w1
  /\ snd (RawBrowser.generateSignature c2 method path body timestamp w2) = w2
  /\ snd (RawNodeSDK.generateSignature n1 method path body timestamp w1) = w1
  /\ snd (RawNodeSDK.generateSignature n2 method path body timestamp w2) = w2.
Proof.
  intros Hk Hs Hk' Hs'.
  rewrite !raw_browser_run, !raw_node_run. cbn [fst snd].
  rewrite Hk, Hs, Hk', Hs'. repeat split.
Qed.

Lemma C3_witness :
  let c1 := {| RawBrowser.apiKey := UTF16.of_ascii "key1";
               RawBrowser.secretKey := Secret.Str (UTF16.of_ascii "secret");
               RawBrowser.baseUrl := UTF16.of_ascii "https://admin-api.app.fedshi.com" |} in
  let c2 := {| RawBrowser.apiKey := UTF16.of_ascii "key1";
               RawBrowser.secretKey := Secret.Str (UTF16.of_ascii "secret");
               RawBrowser.baseUrl :=
                 UTF16.of_ascii "https://admin-api.demo.fedshi.ice.global" |} in
  let n1 := {| RawNodeSDK.apiKey := UTF16.of_ascii "key1";
               RawNodeSDK.secret := Secret.Str (UTF16.of_ascii "secret");
               RawNodeSDK.baseUrl := UTF16.of_ascii "https://your-domain.com" |} in
  let n2 := {| RawNodeSDK.apiKey := UTF16.of_ascii "key1";
               RawNodeSDK.secret := Secret.Str (UTF16.of_ascii "secret");
               RawNodeSDK.baseUrl := UTF16.of_ascii "https://api.loveyourself.co.uk" |} in
  let w1 :=
    Spec.sample_world
      {| Http.status := 200; Http.statusText := "OK"; Http.text := "";
         Http.parsed := Some (JS.Obj []) |}
      (Spec.sample_app JS.Null) in
  let w2 :=
    {| Eff.ticks := 7;
       Eff.iso := fun _ => "2031-05-06T07:08:09.010Z";
       Eff.network := fun _ _ => None;
       Eff.sent := [];
       Eff.window_app := Some (Spec.sample_app (JS.Str "jwt"));
       Eff.page := [Eff.ShowMessage "Fedshi authentication successful" "success"];
       Eff.csv_of := fun _ => Eff.Thrown (JS.Error "unreadable") |} in
  let method := UTF16.of_ascii "GET" in
  let path := UTF16.of_ascii "/api/v1/third-party/export-order-shipment-receipt/ABC123" in
  let timestamp := UTF16.of_ascii "2024-01-15T10:30:45Z" in
  (fst (RawBrowser.generateSignature c1 method path [] timestamp w1) =
     Eff.Returned "1c775a8ddd99240af564d8137fe79ebbcb35e5a4a32ad72e5ebc1087d5ff9c8d"
   /\ fst (RawNodeSDK.generateSignature n1 method path [] timestamp w1) =
     Eff.Returned "1c775a8ddd99240af564d8137fe79ebbcb35e5a4a32ad72e5ebc1087d5ff9c8d")
  /\ fst (RawBrowser.generateSignature c1 method path [] timestamp w1) =
       fst (RawBrowser.generateSignature c2 method path [] timestamp w2)
  /\ fst (RawNodeSDK.generateSignature n1 method path [] timestamp w1) =
       fst (RawNodeSDK.generateSignature n2 method path [] timestamp w2)
  /\ snd (RawBrowser.generateSignature c1 method path [] timestamp w1) = w1
  /\ snd (RawBrowser.generateSignature c2 method path [] timestamp w2) = w2
  /\ snd (RawNodeSDK.generateSignature n1 method path [] timestamp w1) = w1
  /\ snd (RawNodeSDK.generateSignature n2 method path [] timestamp w2) = w2.
Proof.
  intros c1 c2 n1 n2 w1 w2 method path timestamp.
  split; [split; vm_compute; reflexivity|].
  apply (C3_signer_is_pure c1 c2 n1 n2 method path [] timestamp w1 w2); reflexivity.
Defined.



(** ** The hexadecimal form determines the bytes *)

Section Hex_injective.
Import Text Spec.

Lemma hex_char_inj (i j : nat) :
  (i < 16)%nat -> (j < 16)%nat ->
  nth i (list_ascii_of_string "0123456789abcdef") "0"%char =
  nth j (list_ascii_of_string "0123456789abcdef") "0"%char ->
  i = j.
Proof.
  intros Hi Hj.
  do 16 (destruct i as [|i];
         [do 16 (destruct j as [|j]; [first [reflexivity | discriminate]|]); lia|]).
  lia.
Qed.

Lemma hex_digit_inj (x y : Z) :
  hex_digit x = hex_digit y -> (x mod 16 = y mod 16)%Z.
Proof.
  unfold hex_digit. intros H.
  pose proof (Z.mod_pos_bound x 16). pose proof (Z.mod_pos_bound y 16).
  apply hex_char_inj in H; lia.
Qed.

Lemma hex_byte_inj (a b : Z) :
  byte_range a -> byte_range b -> hex_byte a = hex_byte b -> a = b.
Proof.
  unfold byte_range, hex_byte. intros Ha Hb [= Hhi Hlo].
  apply hex_digit_inj in Hhi, Hlo.
  assert (0 <= a / 16 < 16)%Z by (split; [apply Z.div_pos | apply Z.div_lt_upper_bound]; lia).
  assert (0 <= b / 16 < 16)%Z by (split; [apply Z.div_pos | apply Z.div_lt_upper_bound]; lia).
  rewrite !Z.mod_small in Hhi by lia.
  rewrite (Z.div_mod a 16), (Z.div_mod b 16) by lia. lia.
Qed.

Lemma hex_inj (a b : list Z) :
  Forall byte_range a -> Forall byte_range b -> hex a = hex b -> a = b.
Proof.
  unfold hex. intros Ha. revert b.
  induction Ha as [|x a Hx Ha IH]; intros b Hb H; destruct Hb as [|y b Hy Hb].
  - reflexivity.
  - discriminate H.
  - discriminate H.
  - cbn [flat_map hex_byte app string_of_list_ascii] in H.
    injection H as H1 H2 H3.
    f_equal; [|now apply IH].
    apply hex_byte_inj; [assumption.. |]. unfold hex_byte. now rewrite H1, H2.
Qed.

Lemma be_bytes_range n x : Forall byte_range (SHA256.be_bytes n x).
Proof.
  induction n as [|n IH]; cbn [SHA256.be_bytes]; constructor; [|exact IH].
  unfold byte_range. apply Z.mod_pos_bound. lia.
Qed.

Lemma hmac_sha256_range key msg : Forall byte_range (HMAC.hmac_sha256 key msg).
Proof.
  unfold HMAC.hmac_sha256. generalize (SHA256.regs_words (HMAC.hmac_words key msg)).
  intros ws. induction ws as [|x ws IH]; cbn [flat_map]; [constructor|].
  apply Forall_app. split; [apply be_bytes_range | exact IH].
Qed.

Lemma sign_eq_iff m p b t k s m' p' b' t' k' :
  sign m p b t k s = sign m' p' b' t' k' s <->
  HMAC.hmac_sha256 (utf8 s) (utf8 (string_to_sign m p b t k)) =
  HMAC.hmac_sha256 (utf8 s) (utf8 (string_to_sign m' p' b' t' k')).
Proof.
  unfold sign. split.
  - apply hex_inj; apply hmac_sha256_range.
  - now intros ->.
Qed.



End Hex_injective.



(** On the vector of the design document, one second later gives another
    signature. *)
Example one_second_later :
  Browser.generateSignature
    {| Eff.apiKey := "key1"; Eff.secretKey := "secret"; Eff.baseUrl := "https://example.test" |}
    "GET" "/api/v1/third-party/export-order-shipment-receipt/ABC123" ""
    "2024-01-15T10:30:46Z" =
  "b36af23ae88b069ae5b0bbd9a412271cab8f722a8f05d6db461916ad3497e04a".
Proof. vm_compute. reflexivity. Qed.

(** ** Counting signatures *)

Section Counting.
Import JS Eff Spec.













End Counting.


(** ** What each client puts on the wire *)

Section Requests.
Import JS Http Eff Spec.

Lemma session_token_run w :
  Browser.session_token w = (Returned (option_map fedshiJwtToken (window_app w)), w).
Proof. unfold Browser.session_token, bind, get_app, ret. now destruct (window_app w). Qed.

Lemma with_authorization_lookup tok (h : gmap string string) k :
  k <> "Authorization" -> Browser.with_authorization tok h !! k = h !! k.
Proof.
  intros Hk. unfold Browser.with_authorization.
  destruct tok as [t|]; [|reflexivity].
  destruct (truthy t); [|reflexivity].
  apply lookup_insert_ne. congruence.
Qed.

Lemma browser_authenticate_wire c user pass w :
  let ts := iso w (ticks w) in
  let body := stringify (Obj [("email", Str user); ("password", Str pass)]) in
  snd (Browser.authenticate c user pass w) =
  record_request
    {| url := baseUrl c +:+ "/api/v1/third-party/admin/login";
       verb := "POST";
       headers :=
         object [("X-API-Key", apiKey c);
                 ("X-API-Signature",
                  Browser.generateSignature c "POST" "/api/v1/third-party/admin/login" body ts);
                 ("X-API-Timestamp", ts);
                 ("Content-Type", "application/json")];
       body := Text body |}
    (tick w).
Proof.
  intros ts body. unfold Browser.authenticate.
  rewrite (bind_returned _ _ _ _ _ (clock_run w)).
  apply fetch_then_quiet. intros resp. quiet_tac.
Qed.

Lemma browser_makeGraphQLRequest_wire c q v w :
  let ts := iso w (ticks w) in
  let body := stringify (Obj [("query", Str q); ("variables", v)]) in
  snd (Browser.makeGraphQLRequest c q v w) =
  record_request
    {| url := baseUrl c +:+ "/graphql/third-party";
       verb := "POST";
       headers :=
         Browser.with_authorization (option_map fedshiJwtToken (window_app w))
           (object [("X-API-Key", apiKey c);
                    ("X-API-Signature",
                     Browser.generateSignature c "POST" "/graphql/third-party" body ts);
                    ("X-API-Timestamp", ts);
                    ("Content-Type", "application/json")]);
       body := Text body |}
    (tick w).
Proof.
  intros ts body. unfold Browser.makeGraphQLRequest.
  rewrite (bind_returned _ _ _ _ _ (clock_run w)).
  rewrite (bind_returned _ _ _ _ _ (session_token_run _)).
  apply fetch_then_quiet. intros resp. quiet_tac.
Qed.

Lemma browser_processCSV_wire c file csv w :
  csv_of w file = Returned csv ->
  shipmentIDs csv <> [] ->
  let ts := iso w (ticks w) in
  snd (Browser.processCSVAndCreateShipmentPack c file w) =
  record_request
    {| url := baseUrl c +:+ "/graphql/third-party";
       verb := "POST";
       headers :=
         Browser.with_authorization (option_map fedshiJwtToken (window_app w))
           (object [("Content-Type", "application/json");
                    ("X-API-Key", apiKey c);
                    ("X-API-Signature",
                     Browser.generateSignature c "POST" "/graphql/third-party"
                       (shipment_pack_body csv) ts);
                    ("X-API-Timestamp", ts)]);
       body := Text (shipment_pack_body csv) |}
    (tick w).
Proof.
  intros Hcsv Hne ts. unfold Browser.processCSVAndCreateShipmentPack.
  rewrite (bind_returned _ _ w csv w) by (unfold parseCSVFile; now rewrite Hcsv).
  destruct (shipmentIDs csv) as [|i ids] eqn:Hids; [contradiction|].
  cbn [length Nat.eqb]. rewrite <- Hids.
  rewrite (bind_returned _ _ _ _ _ (clock_run w)).
  rewrite (bind_returned _ _ _ _ _ (session_token_run _)).
  apply try_fetch_then_quiet; intros; quiet_tac.
Qed.

Lemma browser_processCSV_empty c file csv w :
  csv_of w file = Returned csv -> shipmentIDs csv = [] ->
  snd (Browser.processCSVAndCreateShipmentPack c file w) = w.
Proof.
  intros Hcsv Hids. unfold Browser.processCSVAndCreateShipmentPack.
  rewrite (bind_returned _ _ w csv w) by (unfold parseCSVFile; now rewrite Hcsv).
  now rewrite Hids.
Qed.

Lemma browser_processCSV_unreadable c file e w :
  csv_of w file = Thrown e ->
  snd (Browser.processCSVAndCreateShipmentPack c file w) = w.
Proof.
  intros Hcsv. unfold Browser.processCSVAndCreateShipmentPack.
  now rewrite (bind_thrown _ _ w e w) by (unfold parseCSVFile; now rewrite Hcsv).
Qed.

Lemma node_makeRequest_wire c method path body w :
  let ts := iso w (ticks w) in
  let bodyString := if truthy body then stringify body else "" in
  snd (NodeSDK.makeRequest c method path body w) =
  record_request
    {| url := NodeSDK.baseUrl c +:+ path;
       verb := method;
       headers :=
         object [("X-API-Key", NodeSDK.apiKey c);
                 ("X-API-Signature",
                  NodeSDK.generateSignature c method path bodyString ts);
                 ("X-API-Timestamp", ts);
                 ("Content-Type", "application/json")];
       body := if String.eqb bodyString "" then NoBody else Text bodyString |}
    (tick w).
Proof.
  intros ts bodyString. unfold NodeSDK.makeRequest.
  rewrite (bind_returned _ _ _ _ _ (clock_run w)).
  apply fetch_then_quiet. intros resp. quiet_tac.
Qed.

Lemma quickstart_export_wire id w :
  let ts := iso w (ticks w) in
  let body := stringify (Obj [("query", Str QuickStart.ExportOrderShipmentReceipt_query);
                              ("variables", Obj [("ID", id)])]) in
  snd (QuickStart.exportOrderShipmentReceipt_send id w) =
  record_request
    {| url := QuickStart.baseUrl;
       verb := "POST";
       headers :=
         object [("X-API-Key", QuickStart.apiKey);
                 ("X-API-Signature",
                  sign "POST" "/graphql/third-party" body ts
                    QuickStart.apiKey QuickStart.secretKey);
                 ("X-API-Timestamp", ts);
                 ("Content-Type", "application/json")];
       body := Text body |}
    (tick w).
Proof.
  intros ts body. unfold QuickStart.exportOrderShipmentReceipt_send.
  rewrite (bind_returned _ _ _ _ _ (clock_run w)).
  unfold CryptoJS.HmacSHA256. rewrite cryptojs_hex.
  unfold fetch. destruct (network _ _ _); reflexivity.
Qed.

Lemma quickstart_upload_function_wire file w :
  let ts := iso w (ticks w) in
  let ops := stringify (Obj [("query", Str QuickStart.UploadCSV_query);
                             ("variables", Obj [("file", Null)])]) in
  snd (QuickStart.uploadShipmentPack_send file w) =
  record_request
    {| url := QuickStart.baseUrl;
       verb := "POST";
       headers :=
         object [("X-API-Key", QuickStart.apiKey);
                 ("X-API-Signature",
                  sign "POST" "/graphql/third-party" ops ts
                    QuickStart.apiKey QuickStart.secretKey);
                 ("X-API-Timestamp", ts)];
       body := FormData [("operations", Field ops);
                         ("map", Field (stringify (Obj [("0", Arr [Str "variables.file"])])));
                         ("0", Blob file)] |}
    (tick w).
Proof.
  intros ts ops. unfold QuickStart.uploadShipmentPack_send.
  rewrite (bind_returned _ _ _ _ _ (clock_run w)).
  unfold CryptoJS.HmacSHA256. rewrite cryptojs_hex.
  unfold fetch. destruct (network _ _ _); reflexivity.
Qed.

Lemma quiet_data_or_errors result : quiet (QuickStart.data_or_errors result).
Proof. unfold QuickStart.data_or_errors. quiet_tac. Qed.

Lemma quickstart_makeRequest_wire c q v w :
  let ts := iso w (ticks w) in
  let body := stringify (Obj [("query", Str q); ("variables", v)]) in
  snd (QuickStart.makeRequest c q v w) =
  record_request
    {| url := QuickStart.client_baseUrl c;
       verb := "POST";
       headers :=
         object [("X-API-Key", QuickStart.client_apiKey c);
                 ("X-API-Signature",
                  QuickStart.generateSignature c "POST" "/graphql/third-party" body ts);
                 ("X-API-Timestamp", ts);
                 ("Content-Type", "application/json")];
       body := Text body |}
    (tick w).
Proof.
  intros ts body. unfold QuickStart.makeRequest.
  rewrite (bind_returned _ _ _ _ _ (clock_run w)).
  apply fetch_then_quiet. intros resp.
  apply quiet_bind; [apply quiet_json | intros; apply quiet_data_or_errors].
Qed.

Lemma quickstart_upload_wire c file w :
  let ts := iso w (ticks w) in
  let ops := stringify (Obj [("query", Str QuickStart.client_UploadCSV_query);
                             ("variables", Obj [("file", Null)])]) in
  snd (QuickStart.uploadShipmentPack c file w) =
  record_request
    {| url := QuickStart.client_baseUrl c;
       verb := "POST";
       headers :=
         object [("X-API-Key", QuickStart.client_apiKey c);
                 ("X-API-Signature",
                  QuickStart.generateSignature c "POST" "/graphql/third-party" ops ts);
                 ("X-API-Timestamp", ts)];
       body := FormData [("operations", Field ops);
                         ("map", Field (stringify (Obj [("0", Arr [Str "variables.file"])])));
                         ("0", Blob file)] |}
    (tick w).
Proof.
  intros ts ops. unfold QuickStart.uploadShipmentPack.
  rewrite (bind_returned _ _ _ _ _ (clock_run w)).
  apply fetch_then_quiet. intros resp.
  apply quiet_bind; [apply quiet_json | intros].
  apply quiet_bind; [apply quiet_data_or_errors | intros; apply quiet_prop].
Qed.

Lemma python_example_wire (json_dumps : value -> string) id w :
  let ts := iso w (ticks w) +:+ "Z" in
  let body := json_dumps (Obj [("query", Str QuickStart.python_query);
                               ("variables", Obj [("ID", id)])]) in
  snd (QuickStart.export_order_shipment_receipt_send json_dumps id w) =
  record_request
    {| url := "https://admin-api.app.fedshi.com/graphql/third-party";
       verb := "POST";
       headers :=
         object [("X-API-Key", "your-api-key-here");
                 ("X-API-Signature",
                  QuickStart.python_example_signature "your-128-character-secret-key-here"
                    "POST" "/graphql/third-party" body ts);
                 ("X-API-Timestamp", ts);
                 ("Content-Type", "application/json")];
       body := Text body |}
    (tick w).
Proof.
  intros ts body. unfold QuickStart.export_order_shipment_receipt_send.
  rewrite (bind_returned _ _ _ _ _ (clock_run w)).
  unfold fetch. destruct (network _ _ _); reflexivity.
Qed.

Lemma guide_getHeaders_run c method path body w :
  AccessGuide.getHeaders c method path body w =
  (Returned (guide_headers c method path body (iso w (ticks w))), tick w).
Proof.
  unfold AccessGuide.getHeaders.
  rewrite (bind_returned _ _ _ _ _ (guide_js_sign c method path body w)).
  unfold ret, guide_headers, guide_token, truthy_opt.
  destruct (AccessGuide.jwtToken c) as [t|]; [|reflexivity].
  destruct (truthy t); reflexivity.
Qed.

Lemma guide_makeGraphQLRequest_wire c q v w :
  let ts := iso w (ticks w) in
  let body := stringify (if truthy v
                         then Obj [("query", Str q); ("variables", v)]
                         else Obj [("query", Str q)]) in
  snd (AccessGuide.makeGraphQLRequest c q v w) =
  record_request
    {| url := AccessGuide.baseUrl c +:+ "/graphql/third-party";
       verb := "POST";
       headers := guide_headers c "POST" "/graphql/third-party" body ts;
       body := Text body |}
    (tick w).
Proof.
  intros ts body. unfold AccessGuide.makeGraphQLRequest.
  rewrite (bind_returned _ _ _ _ _ (guide_getHeaders_run _ _ _ _ _)).
  apply fetch_then_quiet. intros resp. quiet_tac.
Qed.

Lemma guide_login_wire c email password w :
  let ts := iso w (ticks w) in
  let body := stringify (Obj [("Email", Str email); ("Password", Str password)]) in
  snd (AccessGuide.login c email password w) =
  record_request
    {| url := AccessGuide.baseUrl c +:+ "/api/v1/third-party/admin/login";
       verb := "POST";
       headers := guide_headers c "POST" "/api/v1/third-party/admin/login" body ts;
       body := Text body |}
    (tick w).
Proof.
  intros ts body. unfold AccessGuide.login.
  rewrite (bind_returned _ _ _ _ _ (guide_getHeaders_run _ _ _ _ _)).
  apply fetch_then_quiet. intros resp. quiet_tac.
Qed.

End Requests.

(** C6. In both multipart uploads of the quick start guide (the function
    [uploadShipmentPack] and the method of [FedshiGraphQLClient]) the one
    request sent carries a form whose [operations] field is the serialised
    GraphQL envelope, its signature header is the signature of exactly that
    text (so it does not depend on the file), and its header map has no
    [Content-Type] entry. *)
Theorem C6_multipart_signs_operations_envelope :
  forall (c : QuickStart.FedshiGraphQLClient) (file : Http.File) (w : Eff.World),
    let ts := Eff.iso w (Eff.ticks w) in
    let envelope query :=
      JS.stringify (JS.Obj [("query", JS.Str query);
                            ("variables", JS.Obj [("file", JS.Null)])]) in
    (exists req rest,
        Eff.sent (snd (QuickStart.uploadShipmentPack c file w)) = (Eff.sent w ++ [req])%list
        /\ Http.body req =
             Http.FormData
               (("operations", Http.Field (envelope QuickStart.client_UploadCSV_query)) :: rest)
        /\ In ("0", Http.Blob file) rest
        /\ Http.headers req !! "X-API-Signature" =
             Some (QuickStart.generateSignature c "POST" "/graphql/third-party"
                     (envelope QuickStart.client_UploadCSV_query) ts)
        /\ Http.headers req !! "Content-Type" = None)
    /\ (exists req rest,
        Eff.sent (snd (QuickStart.uploadShipmentPack_send file w)) = (Eff.sent w ++ [req])%list
        /\ Http.body req =
             Http.FormData
               (("operations", Http.Field (envelope QuickStart.UploadCSV_query)) :: rest)
        /\ In ("0", Http.Blob file) rest
        /\ Http.headers req !! "X-API-Signature" =
             Some (Spec.sign "POST" "/graphql/third-party"
                     (envelope QuickStart.UploadCSV_query) ts
                     QuickStart.apiKey QuickStart.secretKey)
        /\ Http.headers req !! "Content-Type" = None).
Proof.
  intros c file w ts envelope. split.
  - rewrite quickstart_upload_wire. eexists _, _.
    split; [reflexivity|]. cbn [Http.body Http.headers].
    split; [reflexivity|]. split; [right; left; reflexivity|].
    split; reflexivity.
  - rewrite quickstart_upload_function_wire. eexists _, _.
    split; [reflexivity|]. cbn [Http.body Http.headers].
    split; [reflexivity|]. split; [right; left; reflexivity|].
    split; reflexivity.
Qed.

Section Header_facts.
Import JS Http Eff Spec.

Lemma required_headers k s t :
  object [("X-API-Key", k); ("X-API-Signature", s); ("X-API-Timestamp", t);
          ("Content-Type", "application/json")] =
  expected_headers k s t None.
Proof. reflexivity. Qed.

Lemma browser_headers tok k s t :
  Browser.with_authorization tok
    (object [("X-API-Key", k); ("X-API-Signature", s); ("X-API-Timestamp", t);
             ("Content-Type", "application/json")]) =
  expected_headers k s t
    (match tok with
     | Some v => if truthy v then Some (to_string v) else None
     | None => None
     end).
Proof.
  unfold Browser.with_authorization. destruct tok as [v|]; [|reflexivity].
  destruct (truthy v); reflexivity.
Qed.

Lemma browser_headers_content_type_first tok k s t :
  Browser.with_authorization tok
    (object [("Content-Type", "application/json"); ("X-API-Key", k);
             ("X-API-Signature", s); ("X-API-Timestamp", t)]) =
  expected_headers k s t
    (match tok with
     | Some v => if truthy v then Some (to_string v) else None
     | None => None
     end).
Proof.
  unfold Browser.with_authorization. destruct tok as [v|]; [|reflexivity].
  destruct (truthy v); reflexivity.
Qed.

Lemma held_token_bearer w :
  match option_map fedshiJwtToken (window_app w) with
  | Some v => if truthy v then Some (to_string v) else None
  | None => None
  end = option_map to_string (held_token w).
Proof.
  unfold held_token. destruct (window_app w) as [app|]; [|reflexivity].
  cbn [option_map]. destruct (truthy (fedshiJwtToken app)); reflexivity.
Qed.

Lemma guide_headers_expected g m p b ts :
  guide_headers g m p b ts =
  expected_headers (AccessGuide.apiKey g)
    (sign m p b ts (AccessGuide.apiKey g) (AccessGuide.secretKey g))
    ts (option_map to_string (guide_token g)).
Proof. unfold guide_headers. destruct (guide_token g); reflexivity. Qed.

Lemma expected_headers_authorization k s t bearer :
  expected_headers k s t bearer !! "Authorization" =
  option_map (fun token => "Bearer " +:+ token) bearer.
Proof.
  unfold expected_headers. destruct bearer as [token|]; [|reflexivity].
  apply lookup_insert_eq.
Qed.

End Header_facts.

Section Contract_headers.
Import JS Http Eff Spec.

Lemma contract_headers_intro k s t bearer :
  contract_headers (expected_headers k s t bearer) k s t bearer.
Proof. split; [reflexivity | apply expected_headers_authorization]. Qed.

Lemma sends_contract_intro {A} (f : M A) w r url ts k
    (signature : string -> string) bearer text :
  snd (f w) = record_request r (tick w) ->
  Http.url r = url ->
  carried_text (Http.body r) = Some text ->
  headers r = expected_headers k (signature text) ts bearer ->
  sends_contract f w url ts k signature bearer.
Proof.
  intros Hw Hurl Htext Hh. exists r, text. rewrite Hw, Hh.
  split; [reflexivity|]. split; [exact Hurl|]. split; [exact Htext|].
  apply contract_headers_intro.
Qed.

(** What the SDK hands to [fetch] as body is the text it signed. *)
Lemma node_carried_text (bodyString : string) :
  carried_text (if String.eqb bodyString "" then NoBody else Text bodyString) =
  Some bodyString.
Proof. now destruct (String.eqb_spec bodyString "") as [->|]. Qed.

Lemma python_get_headers_run py method path body w :
  AccessGuide.get_headers py method path body w =
  (Returned
     (expected_headers (AccessGuide.api_key py)
        (sign method path body (iso w (ticks w) +:+ "Z")
           (AccessGuide.api_key py) (AccessGuide.secret_key py))
        (iso w (ticks w) +:+ "Z") (python_token py)),
   tick w).
Proof.
  unfold AccessGuide.get_headers.
  rewrite (bind_returned _ _ _ _ _ (guide_python_sign py method path body w)).
  unfold ret, python_token.
  destruct (AccessGuide.jwt_token py) as [t|]; [|reflexivity].
  destruct (String.eqb t ""); reflexivity.
Qed.

Lemma python_login_wire json_dumps py email password w :
  let ts := iso w (ticks w) +:+ "Z" in
  let body := json_dumps (Obj [("Email", Str email); ("Password", Str password)]) in
  snd (AccessGuidePython.login_send json_dumps py email password w) =
  record_request
    {| url := AccessGuide.base_url py +:+ "/api/v1/third-party/admin/login";
       verb := "POST";
       headers :=
         expected_headers (AccessGuide.api_key py)
           (sign "POST" "/api/v1/third-party/admin/login" body ts
              (AccessGuide.api_key py) (AccessGuide.secret_key py))
           ts (python_token py);
       body := Text body |}
    (tick w).
Proof.
  intros ts body. unfold AccessGuidePython.login_send.
  rewrite (bind_returned _ _ _ _ _ (python_get_headers_run _ _ _ _ _)).
  unfold fetch. destruct (network _ _ _); reflexivity.
Qed.

Lemma python_graphql_wire json_dumps py q v w :
  let ts := iso w (ticks w) +:+ "Z" in
  let body := json_dumps (if AccessGuidePython.bool_of v
                          then Obj [("query", Str q); ("variables", v)]
                          else Obj [("query", Str q)]) in
  snd (AccessGuidePython.make_graphql_request_send json_dumps py q v w) =
  record_request
    {| url := AccessGuide.base_url py +:+ "/graphql/third-party";
       verb := "POST";
       headers :=
         expected_headers (AccessGuide.api_key py)
           (sign "POST" "/graphql/third-party" body ts
              (AccessGuide.api_key py) (AccessGuide.secret_key py))
           ts (python_token py);
       body := Text body |}
    (tick w).
Proof.
  intros ts body. unfold AccessGuidePython.make_graphql_request_send.
  rewrite (bind_returned _ _ _ _ _ (python_get_headers_run _ _ _ _ _)).
  unfold fetch. destruct (network _ _ _); reflexivity.
Qed.

End Contract_headers.

(** C7, as stated, fails at two calls. With a session token held, the
    login request of the browser tool ([authenticate]) carries no
    [Authorization] entry; and the client class of the quick start guide
    sends to its base URL as it stands, not to the base URL followed by the
    path it signs. *)
Lemma C7_login_request_carries_no_token :
  let resp := {| Http.status := 200; Http.statusText := "OK"; Http.text := "";
                 Http.parsed := Some (JS.Obj [("Token", JS.Str "jwt2")]) |} in
  let w := Spec.sample_world resp (Spec.sample_app (JS.Str "jwt")) in
  let k := {| QuickStart.client_apiKey := "key1"; QuickStart.client_secretKey := "secret";
              QuickStart.client_baseUrl :=
                "https://admin-api.app.fedshi.com/graphql/third-party" |} in
  Spec.held_token w = Some (JS.Str "jwt")
  /\ (exists req,
        Eff.sent (snd (Browser.authenticate Spec.sample_client
                         "admin@example.com" "admin_password" w)) = [req]
        /\ Http.headers req !! "X-API-Key" = Some "key1"
        /\ Http.headers req !! "Authorization" = None)
  /\ (exists req,
        Eff.sent (snd (QuickStart.makeRequest k "query { Home { Total } }"
                         (JS.Obj []) w)) = [req]
        /\ Http.url req = "https://admin-api.app.fedshi.com/graphql/third-party"
        /\ Http.url req <> QuickStart.client_baseUrl k +:+ "/graphql/third-party").
Proof.
  intros resp w k. split; [reflexivity|]. split.
  - rewrite browser_authenticate_wire. eexists. split; [reflexivity|].
    cbn [Http.headers]. rewrite required_headers. split; [reflexivity|].
    apply expected_headers_authorization.
  - rewrite quickstart_makeRequest_wire. eexists. split; [reflexivity|].
    cbn [Http.url QuickStart.client_baseUrl]. split; [reflexivity | discriminate].
Qed.

(** C7, amended. Every signed JSON call hands one request to the transport
    whose header map is exactly the four headers of the contract: the API
    key, the signature of the text the request carries, the timestamp read
    from the clock, and the JSON content type. [Authorization: Bearer] is
    added exactly when a session token is held by the GraphQL calls of the
    browser tool and by the clients of the access guide (their login
    included); the login request of the browser tool never has it, nor do
    the SDK and the examples of the quick start guide, which keep no
    session. The request goes to the base URL followed by the path, except
    in the quick start guide, whose base URL is the address of the endpoint
    and is used as it stands. The Python example signs without the API
    key line. The remaining methods send through one of these calls. *)
Theorem C7_json_calls_send_contract_headers :
  forall (c : Eff.FedshiAPIClient) (n : NodeSDK.ThirdPartyAPIClient)
         (k : QuickStart.FedshiGraphQLClient)
         (g : AccessGuide.ThirdPartyAPIClient) (py : AccessGuide.PyClient)
         (json_dumps : JS.value -> string)
         (query method path body user pass : string) (variables id : JS.value)
         (file : Http.File) (w : Eff.World),
    let ts := Eff.iso w (Eff.ticks w) in
    let tsz := ts +:+ "Z" in
    let login := "/api/v1/third-party/admin/login" in
    let graphql := "/graphql/third-party" in
    let held := option_map JS.to_string (Spec.held_token w) in
    let guide := option_map JS.to_string (Spec.guide_token g) in
    Spec.sends_contract (Browser.authenticate c user pass) w
      (Eff.baseUrl c +:+ login) ts (Eff.apiKey c)
      (fun text => Spec.sign "POST" login text ts (Eff.apiKey c) (Eff.secretKey c))
      None
    /\ Spec.sends_contract (Browser.makeGraphQLRequest c query variables) w
         (Eff.baseUrl c +:+ graphql) ts (Eff.apiKey c)
         (fun text => Spec.sign "POST" graphql text ts (Eff.apiKey c) (Eff.secretKey c))
         held
    /\ match Eff.csv_of w file with
       | Eff.Returned csv =>
           if (length (Eff.shipmentIDs csv) =? 0)%nat
           then Eff.sent (snd (Browser.processCSVAndCreateShipmentPack c file w)) =
                Eff.sent w
           else
             Spec.sends_contract (Browser.processCSVAndCreateShipmentPack c file) w
               (Eff.baseUrl c +:+ graphql) ts (Eff.apiKey c)
               (fun text =>
                  Spec.sign "POST" graphql text ts (Eff.apiKey c) (Eff.secretKey c))
               held
       | Eff.Thrown _ =>
           Eff.sent (snd (Browser.processCSVAndCreateShipmentPack c file w)) = Eff.sent w
       end
    /\ Spec.sends_contract (NodeSDK.makeRequest n method path variables) w
         (NodeSDK.baseUrl n +:+ path) ts (NodeSDK.apiKey n)
         (fun text => Spec.sign method path text ts (NodeSDK.apiKey n) (NodeSDK.secret n))
         None
    /\ Spec.sends_contract (QuickStart.exportOrderShipmentReceipt_send id) w
         QuickStart.baseUrl ts QuickStart.apiKey
         (fun text =>
            Spec.sign "POST" graphql text ts QuickStart.apiKey QuickStart.secretKey)
         None
    /\ Spec.sends_contract (QuickStart.makeRequest k query variables) w
         (QuickStart.client_baseUrl k) ts (QuickStart.client_apiKey k)
         (fun text =>
            Spec.sign "POST" graphql text ts
              (QuickStart.client_apiKey k) (QuickStart.client_secretKey k))
         None
    /\ Spec.sends_contract
         (QuickStart.export_order_shipment_receipt_send json_dumps id) w
         "https://admin-api.app.fedshi.com/graphql/third-party" tsz "your-api-key-here"
         (fun text =>
            QuickStart.python_example_signature "your-128-character-secret-key-here"
              "POST" graphql text tsz)
         None
    /\ (exists h,
          fst (AccessGuide.getHeaders g method path body w) = Eff.Returned h
          /\ Spec.contract_headers h (AccessGuide.apiKey g)
               (Spec.sign method path body ts
                  (AccessGuide.apiKey g) (AccessGuide.secretKey g))
               ts guide)
    /\ Spec.sends_contract (AccessGuide.login g user pass) w
         (AccessGuide.baseUrl g +:+ login) ts (AccessGuide.apiKey g)
         (fun text =>
            Spec.sign "POST" login text ts (AccessGuide.apiKey g) (AccessGuide.secretKey g))
         guide
    /\ Spec.sends_contract (AccessGuide.makeGraphQLRequest g query variables) w
         (AccessGuide.baseUrl g +:+ graphql) ts (AccessGuide.apiKey g)
         (fun text =>
            Spec.sign "POST" graphql text ts
              (AccessGuide.apiKey g) (AccessGuide.secretKey g))
         guide
    /\ (exists h,
          fst (AccessGuide.get_headers py method path body w) = Eff.Returned h
          /\ Spec.contract_headers h (AccessGuide.api_key py)
               (Spec.sign method path body tsz
                  (AccessGuide.api_key py) (AccessGuide.secret_key py))
               tsz (Spec.python_token py))
    /\ Spec.sends_contract (AccessGuidePython.login_send json_dumps py user pass) w
         (AccessGuide.base_url py +:+ login) tsz (AccessGuide.api_key py)
         (fun text =>
            Spec.sign "POST" login text tsz
              (AccessGuide.api_key py) (AccessGuide.secret_key py))
         (Spec.python_token py)
    /\ Spec.sends_contract
         (AccessGuidePython.make_graphql_request_send json_dumps py query variables) w
         (AccessGuide.base_url py +:+ graphql) tsz (AccessGuide.api_key py)
         (fun text =>
            Spec.sign "POST" graphql text tsz
              (AccessGuide.api_key py) (AccessGuide.secret_key py))
         (Spec.python_token py)
    /\ QuickStart.baseUrl = "https://admin-api.app.fedshi.com" +:+ graphql.
Proof.
  intros c n k g py json_dumps query method path body user pass variables id file w
         ts tsz login graphql held guide.
  repeat match goal with |- _ /\ _ => split end.
  - eapply sends_contract_intro;
      [apply browser_authenticate_wire | reflexivity | reflexivity |].
    cbn [Http.headers]. now rewrite browser_sign, required_headers.
  - eapply sends_contract_intro;
      [apply browser_makeGraphQLRequest_wire | reflexivity | reflexivity |].
    cbn [Http.headers]. now rewrite browser_headers, browser_sign, held_token_bearer.
  - destruct (Eff.csv_of w file) as [csv|ex] eqn:Hcsv.
    + destruct (Eff.shipmentIDs csv) as [|i ids] eqn:Hids; cbn [length Nat.eqb].
      * now rewrite (browser_processCSV_empty c file csv w Hcsv Hids).
      * assert (Hne : Eff.shipmentIDs csv <> []) by (rewrite Hids; discriminate).
        eapply sends_contract_intro;
          [apply (browser_processCSV_wire c file csv w Hcsv Hne)
          | reflexivity | reflexivity |].
        cbn [Http.headers].
        now rewrite browser_headers_content_type_first, browser_sign, held_token_bearer.
    + now rewrite (browser_processCSV_unreadable c file ex w Hcsv).
  - eapply sends_contract_intro;
      [apply node_makeRequest_wire | reflexivity | apply node_carried_text |].
    cbn [Http.headers]. now rewrite node_sign, required_headers.
  - eapply sends_contract_intro;
      [apply quickstart_export_wire | reflexivity | reflexivity |].
    cbn [Http.headers]. now rewrite required_headers.
  - eapply sends_contract_intro;
      [apply quickstart_makeRequest_wire | reflexivity | reflexivity |].
    cbn [Http.headers]. now rewrite quickstart_sign, required_headers.
  - eapply sends_contract_intro;
      [apply python_example_wire | reflexivity | reflexivity |].
    cbn [Http.headers]. now rewrite required_headers.
  - rewrite guide_getHeaders_run. eexists. split; [reflexivity|].
    rewrite guide_headers_expected. apply contract_headers_intro.
  - eapply sends_contract_intro;
      [apply guide_login_wire | reflexivity | reflexivity |].
    cbn [Http.headers]. apply guide_headers_expected.
  - eapply sends_contract_intro;
      [apply guide_makeGraphQLRequest_wire | reflexivity | reflexivity |].
    cbn [Http.headers]. apply guide_headers_expected.
  - rewrite python_get_headers_run. eexists. split; [reflexivity|].
    apply contract_headers_intro.
  - eapply sends_contract_intro;
      [apply python_login_wire | reflexivity | reflexivity | reflexivity].
  - eapply sends_contract_intro;
      [apply python_graphql_wire | reflexivity | reflexivity | reflexivity].
  - reflexivity.
Qed.

Section Agreement.
Import JS Http Eff Spec.

Lemma agrees_with_sign secret (h : gmap string string) ts m p b k :
  h !! "X-API-Timestamp" = Some ts ->
  h !! "X-API-Signature" = Some (sign m p b ts k secret) ->
  newline_free m = true -> newline_free p = true ->
  newline_free b = true -> newline_free ts = true ->
  timestamp_agrees secret h.
Proof.
  intros Hts Hsig Hm Hp Hb Ht. exists ts, m, p, b, (nl +:+ k).
  split; [exact Hts|]. split; [exact Hsig|].
  split; [right; now exists k|]. now apply line3_string_to_sign.
Qed.

Lemma agrees_required secret k k' m p b ts :
  newline_free m = true -> newline_free p = true ->
  newline_free b = true -> newline_free ts = true ->
  timestamp_agrees secret
    (object [("X-API-Key", k); ("X-API-Signature", sign m p b ts k' secret);
             ("X-API-Timestamp", ts); ("Content-Type", "application/json")]).
Proof. intros. now apply (agrees_with_sign _ _ ts m p b k'). Qed.

Lemma agrees_content_type_first secret k k' m p b ts :
  newline_free m = true -> newline_free p = true ->
  newline_free b = true -> newline_free ts = true ->
  timestamp_agrees secret
    (object [("Content-Type", "application/json"); ("X-API-Key", k);
             ("X-API-Signature", sign m p b ts k' secret); ("X-API-Timestamp", ts)]).
Proof. intros. now apply (agrees_with_sign _ _ ts m p b k'). Qed.

Lemma agrees_multipart secret k k' m p b ts :
  newline_free m = true -> newline_free p = true ->
  newline_free b = true -> newline_free ts = true ->
  timestamp_agrees secret
    (object [("X-API-Key", k); ("X-API-Signature", sign m p b ts k' secret);
             ("X-API-Timestamp", ts)]).
Proof. intros. now apply (agrees_with_sign _ _ ts m p b k'). Qed.

Lemma agrees_with_authorization secret tok h :
  timestamp_agrees secret h -> timestamp_agrees secret (Browser.with_authorization tok h).
Proof.
  intros (ts & m & p & b & tail & Hts & Hsig & Htail & Hline).
  exists ts, m, p, b, tail.
  rewrite !with_authorization_lookup by discriminate. auto.
Qed.

Lemma agrees_python_example secret k m p b ts :
  newline_free m = true -> newline_free p = true ->
  newline_free b = true -> newline_free ts = true ->
  timestamp_agrees secret
    (object [("X-API-Key", k);
             ("X-API-Signature", QuickStart.python_example_signature secret m p b ts);
             ("X-API-Timestamp", ts); ("Content-Type", "application/json")]).
Proof.
  intros. exists ts, m, p, b, "". cbv zeta. rewrite str_app_nil_r.
  split; [reflexivity|]. split; [reflexivity|].
  split; [now left|]. now apply line3_short_base.
Qed.

Lemma agrees_python_headers (py : AccessGuide.PyClient) m p b ts :
  newline_free m = true -> newline_free p = true ->
  newline_free b = true -> newline_free ts = true ->
  timestamp_agrees (AccessGuide.secret_key py)
    (let headers :=
       object [("X-API-Key", AccessGuide.api_key py);
               ("X-API-Signature",
                sign m p b ts (AccessGuide.api_key py) (AccessGuide.secret_key py));
               ("X-API-Timestamp", ts); ("Content-Type", "application/json")] in
     match AccessGuide.jwt_token py with
     | Some t => if String.eqb t "" then headers
                 else <["Authorization" := "Bearer " +:+ t]> headers
     | None => headers
     end).
Proof.
  intros. apply (agrees_with_sign _ _ ts m p b (AccessGuide.api_key py)); try assumption;
    destruct (AccessGuide.jwt_token py) as [t|]; try reflexivity;
    destruct (String.eqb t ""); reflexivity.
Qed.

Lemma sends_signed_intro {A} secret (f : M A) w r :
  snd (f w) = record_request r (tick w) ->
  timestamp_agrees secret (headers r) ->
  sends_signed secret f w.
Proof. intros Hw Hr. exists r. rewrite Hw. now repeat split. Qed.

Lemma guide_headers_agree g m p b ts :
  newline_free m = true -> newline_free p = true ->
  newline_free b = true -> newline_free ts = true ->
  timestamp_agrees (AccessGuide.secretKey g) (guide_headers g m p b ts).
Proof.
  intros Hm Hp Hb Ht.
  apply (agrees_with_sign _ _ ts m p b (AccessGuide.apiKey g)); try assumption;
    unfold guide_headers; destruct (guide_token g); reflexivity.
Qed.

End Agreement.

(** C10. In every request a client of the repository sends, the timestamp
    in [X-API-Timestamp] is the fourth line of the base string whose
    signature is in [X-API-Signature]: each call reads the clock once and
    uses that one reading in both places. Stated for a clock reading,
    method, path and body free of line feeds, as timestamps, HTTP verbs,
    paths and serialised JSON are. *)
Theorem C10_header_timestamp_is_signed_timestamp
    (w : Eff.World)
    (c : Eff.FedshiAPIClient) (n : NodeSDK.ThirdPartyAPIClient)
    (g : AccessGuide.ThirdPartyAPIClient) (k : QuickStart.FedshiGraphQLClient)
    (py : AccessGuide.PyClient) (json_dumps : JS.value -> string)
    (user pass query method path body : string) (variables id : JS.value)
    (file : Http.File) (csv : Eff.CsvData) :
  Spec.newline_free (Eff.iso w (Eff.ticks w)) = true ->
  Spec.newline_free method = true ->
  Spec.newline_free path = true ->
  Spec.newline_free body = true ->
  (forall v, Spec.newline_free (json_dumps v) = true) ->
  Eff.csv_of w file = Eff.Returned csv ->
  Eff.shipmentIDs csv <> [] ->
  Spec.all_clients_agree w c n g k py json_dumps
    user pass query method path body variables id file.
Proof.
  intros Hts Hm Hp Hb Hdumps Hcsv Hids. unfold Spec.all_clients_agree.
  assert (Hz : Spec.newline_free (Eff.iso w (Eff.ticks w) +:+ "Z") = true)
    by now rewrite newline_free_app, Hts.
  assert (Hnode : Spec.newline_free
                    (if JS.truthy variables then JS.stringify variables else "") = true)
    by (destruct (JS.truthy variables); [apply stringify_newline_free | reflexivity]).
  pose proof stringify_newline_free as Hjson.
  repeat match goal with |- _ /\ _ => split end.
  - eapply sends_signed_intro; [apply browser_authenticate_wire|].
    cbn [Http.headers]. rewrite browser_sign. now apply agrees_required.
  - eapply sends_signed_intro; [apply browser_makeGraphQLRequest_wire|].
    cbn [Http.headers]. rewrite browser_sign.
    now apply agrees_with_authorization, agrees_required.
  - eapply sends_signed_intro; [apply (browser_processCSV_wire c file csv w Hcsv Hids)|].
    cbn [Http.headers]. rewrite browser_sign.
    apply agrees_with_authorization, agrees_content_type_first; auto.
    apply Hjson.
  - eapply sends_signed_intro; [apply node_makeRequest_wire|].
    cbn [Http.headers]. rewrite node_sign. now apply agrees_required.
  - eexists. split; [apply guide_getHeaders_run|]. now apply guide_headers_agree.
  - eapply sends_signed_intro; [apply guide_login_wire|].
    cbn [Http.headers]. now apply guide_headers_agree.
  - eapply sends_signed_intro; [apply guide_makeGraphQLRequest_wire|].
    cbn [Http.headers]. now apply guide_headers_agree.
  - eapply sends_signed_intro; [apply quickstart_export_wire|].
    cbn [Http.headers]. now apply agrees_required.
  - eapply sends_signed_intro; [apply quickstart_upload_function_wire|].
    cbn [Http.headers]. now apply agrees_multipart.
  - eapply sends_signed_intro; [apply quickstart_makeRequest_wire|].
    cbn [Http.headers]. rewrite quickstart_sign. now apply agrees_required.
  - eapply sends_signed_intro; [apply quickstart_upload_wire|].
    cbn [Http.headers]. rewrite quickstart_sign. now apply agrees_multipart.
  - eapply sends_signed_intro; [apply python_example_wire|].
    cbn [Http.headers]. now apply agrees_python_example.
  - eexists. split.
    + unfold AccessGuide.get_headers.
      rewrite (bind_returned _ _ _ _ _ (guide_python_sign py method path body w)).
      reflexivity.
    + now apply agrees_python_headers.
Qed.

Lemma C10_witness :
  let w := Spec.sample_world
             {| Http.status := 200; Http.statusText := "OK"; Http.text := "{}";
                Http.parsed := Some (JS.Obj []) |}
             (Spec.sample_app (JS.Str "jwt")) in
  let n := {| NodeSDK.apiKey := "key1"; NodeSDK.secret := "secret";
              NodeSDK.baseUrl := "https://api.loveyourself.co.uk" |} in
  let g := {| AccessGuide.apiKey := "key1"; AccessGuide.secretKey := "secret";
              AccessGuide.baseUrl := "https://admin-api.app.fedshi.com";
              AccessGuide.jwtToken := Some (JS.Str "jwt") |} in
  let k := {| QuickStart.client_apiKey := "key1"; QuickStart.client_secretKey := "secret";
              QuickStart.client_baseUrl := QuickStart.baseUrl |} in
  let py := {| AccessGuide.api_key := "key1"; AccessGuide.secret_key := "secret";
               AccessGuide.base_url := "https://admin-api.app.fedshi.com";
               AccessGuide.jwt_token := None |} in
  Spec.newline_free (Eff.iso w (Eff.ticks w)) = true
  /\ Spec.newline_free "GET" = true
  /\ Spec.newline_free "/api/v1/third-party/usage-stats" = true
  /\ Spec.newline_free "" = true
  /\ Spec.all_clients_agree w Spec.sample_client n g k py JS.stringify
       "admin@example.com" "admin_password" "query { Home { Total } }"
       "GET" "/api/v1/third-party/usage-stats" "" JS.Null (JS.Str "NZQVP")
       Spec.sample_file.
Proof.
  intros w n g k py.
  split; [reflexivity|]. split; [reflexivity|].
  split; [reflexivity|]. split; [reflexivity|].
  apply (C10_header_timestamp_is_signed_timestamp w Spec.sample_client n g k py
           JS.stringify "admin@example.com" "admin_password" "query { Home { Total } }"
           "GET" "/api/v1/third-party/usage-stats" "" JS.Null (JS.Str "NZQVP")
           Spec.sample_file
           {| Eff.shipmentIDs := ["NZQVP"; "NBFGO"]; Eff.courierID := JS.Num 7 |}).
  - reflexivity.
  - reflexivity.
  - reflexivity.
  - reflexivity.
  - exact stringify_newline_free.
  - reflexivity.
  - discriminate.
Defined.

(** ** Outcomes of the calls *)

Section Outcomes.
Import JS Http Eff Spec.

Lemma try_catch_thrown {A} (m : M A) (h : exn -> M A) w e w1 :
  m w = (Thrown e, w1) -> try_catch m h w = h e w1.
Proof. intros H. unfold try_catch. now rewrite H. Qed.

Lemma this_app_run w app :
  window_app w = Some app -> Browser.this_app w = (Returned app, w).
Proof. intros H. unfold Browser.this_app, bind, get_app. now rewrite H. Qed.

Lemma status_200_ok resp : status resp = 200%Z -> ok resp = true.
Proof. intros H. unfold ok. now rewrite H. Qed.

Lemma json_run resp v w : parsed resp = Some v -> json resp w = (Returned v, w).
Proof. intros H. unfold json. now rewrite H. Qed.

Lemma prop_run v k x w : get v k = Some x -> prop (Some v) k w = (Returned (Some x), w).
Proof. intros H. destruct v; try discriminate H. cbn [prop]. unfold ret. now rewrite H. Qed.

(** A failed login call of the browser client. *)
Lemma browser_authenticate_rejected c user pass w resp :
  answers w resp -> ok resp = false ->
  exists r,
    Browser.authenticate c user pass w =
    (Thrown (Error ("Authentication failed: " +:+ decimal (status resp))),
     record_request r (tick w)).
Proof.
  intros Hans Hok. eexists. unfold Browser.authenticate.
  rewrite (bind_returned _ _ _ _ _ (clock_run w)).
  erewrite bind_returned by (apply fetch_run, Hans).
  rewrite Hok. reflexivity.
Qed.

(** The GraphQL call of the browser client on an answer that lists errors. *)
Lemma browser_graphql_errors c q v w resp result errs :
  answers w resp -> ok resp = true ->
  parsed resp = Some result ->
  get result "errors" = Some errs -> truthy errs = true ->
  fst (Browser.makeGraphQLRequest c q v w) =
  Thrown (Error ("GraphQL Error: " +:+ stringify errs)).
Proof.
  intros Hans Hok Hparsed Herrors Htruthy. unfold Browser.makeGraphQLRequest.
  rewrite (bind_returned _ _ _ _ _ (clock_run w)).
  rewrite (bind_returned _ _ _ _ _ (session_token_run _)).
  erewrite bind_returned by (apply fetch_run, Hans).
  rewrite Hok. cbn [negb].
  erewrite bind_returned by (apply json_run, Hparsed).
  erewrite bind_returned by (apply prop_run, Herrors).
  cbv beta iota. now rewrite Htruthy.
Qed.

(** The same for the client class of the quick start guide, which does not
    look at the status. *)
Lemma quickstart_graphql_errors c q v w resp result errs :
  answers w resp ->
  parsed resp = Some result ->
  get result "errors" = Some errs -> truthy errs = true ->
  fst (QuickStart.makeRequest c q v w) =
  Thrown (Error ("GraphQL Error: " +:+ stringify errs)).
Proof.
  intros Hans Hparsed Herrors Htruthy. unfold QuickStart.makeRequest.
  rewrite (bind_returned _ _ _ _ _ (clock_run w)).
  erewrite bind_returned by (apply fetch_run, Hans).
  erewrite bind_returned by (apply json_run, Hparsed).
  unfold QuickStart.data_or_errors.
  erewrite bind_returned by (apply prop_run, Herrors).
  cbv beta iota. now rewrite Htruthy.
Qed.

(** The shipment pack call on an answer whose errors start with [e]. *)
Lemma browser_shipment_pack_errors c file csv w resp result e rest :
  csv_of w file = Returned csv -> shipmentIDs csv <> [] ->
  answers w resp ->
  parsed resp = Some result ->
  get result "errors" = Some (Arr (e :: rest)) ->
  fst (Browser.processCSVAndCreateShipmentPack c file w) =
  match e with
  | Null => Thrown (TypeError "Cannot read properties of null (reading 'message')")
  | _ =>
      Thrown (Error (match get e "message" with
                     | Some m => if truthy m then to_string m else "Unknown GraphQL error"
                     | None => "Unknown GraphQL error"
                     end))
  end.
Proof.
  intros Hcsv Hne Hans Hparsed Herrors. unfold Browser.processCSVAndCreateShipmentPack.
  rewrite (bind_returned _ _ w csv w) by (unfold parseCSVFile; now rewrite Hcsv).
  destruct (shipmentIDs csv) as [|i ids] eqn:Hids; [contradiction|].
  cbn [length Nat.eqb]. rewrite <- Hids.
  rewrite (bind_returned _ _ _ _ _ (clock_run w)).
  rewrite (bind_returned _ _ _ _ _ (session_token_run _)).
  unfold try_catch.
  erewrite bind_returned by (apply fetch_run, Hans).
  erewrite bind_returned by (apply json_run, Hparsed).
  erewrite bind_returned by (apply prop_run, Herrors).
  cbv beta iota. cbn [truthy_opt truthy first head].
  rewrite (bind_returned _ _ _ (Some e) _ eq_refl).
  destruct e; cbn [prop get]; unfold bind, ret, throw; cbn [fst truthy_opt];
    try reflexivity.
  destruct (field "message" fields) as [m|]; cbn [fst truthy_opt]; [|reflexivity].
  destruct (truthy m); reflexivity.
Qed.

End Outcomes.

Section Login.
Import JS Http Eff Spec.

Lemma eqb_empty_false (s : string) : s <> "" -> String.eqb s "" = false.
Proof. intros H. now apply String.eqb_neq. Qed.

Lemma emit_run e w : emit e w = (Returned tt, show e w).
Proof. reflexivity. Qed.

(** A rejected login in the browser tool: what [loginFedshi] returns and
    the page state it leaves. *)
Lemma loginFedshi_rejected w app c user pass resp :
  window_app w = Some app -> fedshiClient app = Some c ->
  user <> "" -> pass <> "" ->
  answers w resp -> ok resp = false ->
  exists w',
    Browser.loginFedshi user pass w = (Returned tt, w')
    /\ window_app w' =
       Some {| fedshiClient := fedshiClient app;
               fedshiJwtToken := fedshiJwtToken app;
               authenticationStatus_fedshi := false |}.
Proof.
  intros Happ Hclient Huser Hpass Hans Hok.
  set (w1 := show (UpdateStatus "fedshiAuthStatus" "Authenticating..." "info") w).
  assert (Hans1 : answers w1 resp) by (intros r; apply Hans).
  destruct (browser_authenticate_rejected c user pass w1 resp Hans1 Hok) as [r Hr].
  set (w2 := record_request r (tick w1)) in Hr.
  assert (Hcall : Browser.call_authenticate user pass w1 =
                  (Thrown (Error ("Authentication failed: " +:+ decimal (status resp))), w2)).
  { unfold Browser.call_authenticate.
    rewrite (bind_returned _ _ _ _ _ (this_app_run w1 app Happ)).
    now rewrite Hclient. }
  eexists. split.
  - unfold Browser.loginFedshi.
    rewrite (bind_returned _ _ _ _ _ (this_app_run w app Happ)).
    rewrite (eqb_empty_false user Huser), (eqb_empty_false pass Hpass). cbn [orb].
    unfold Browser.updateStatus at 1.
    rewrite (bind_returned _ _ _ _ _ (emit_run _ w)). fold w1.
    erewrite (bind_returned (try_catch _ _)).
    2:{ erewrite try_catch_thrown by (erewrite bind_thrown by exact Hcall; reflexivity).
        unfold Browser.set_authenticationStatus_fedshi.
        erewrite (bind_returned (bind Browser.this_app _)).
        2:{ rewrite (bind_returned _ _ _ _ _ (this_app_run w2 app Happ)). reflexivity. }
        unfold Browser.updateStatus, Browser.showMessage.
        rewrite (bind_returned _ _ _ _ _ (emit_run _ _)).
        apply emit_run. }
    unfold Browser.updateAuthenticationStatus.
    erewrite (bind_returned Browser.this_app) by (apply this_app_run; reflexivity).
    apply emit_run.
  - reflexivity.
Qed.

Lemma guide_login_rejected g email password w resp :
  answers w resp -> ok resp = false ->
  fst (AccessGuide.login g email password w) =
  Thrown (Error ("Login failed: " +:+ decimal (status resp) +:+ " - " +:+ text resp)).
Proof.
  intros Hans Hok. unfold AccessGuide.login.
  rewrite (bind_returned _ _ _ _ _ (guide_getHeaders_run _ _ _ _ _)).
  erewrite bind_returned by (apply fetch_run, Hans).
  now rewrite Hok.
Qed.

End Login.

(** C5. When the login request is answered with a status outside 200-299
    (401 for one), the login call of the browser client raises
    [Authentication failed: <status>], the page's [loginFedshi] completes,
    and the session token on the page is the one that was there before:
    the stored one if there was one, [null] if there was none. The login of
    the client class of the access guide raises [Login failed: ...] and so
    returns no client with a new token. *)
Theorem C5_rejected_login_keeps_token
    (w : Eff.World) (app : Eff.App) (c : Eff.FedshiAPIClient)
    (user pass : string) (resp : Http.Response)
    (g : AccessGuide.ThirdPartyAPIClient) :
  Eff.window_app w = Some app ->
  Eff.fedshiClient app = Some c ->
  user <> "" -> pass <> "" ->
  Spec.answers w resp ->
  Http.ok resp = false ->
  fst (Browser.authenticate c user pass w) =
    Eff.Thrown (JS.Error ("Authentication failed: " +:+ JS.decimal (Http.status resp)))
  /\ fst (Browser.loginFedshi user pass w) = Eff.Returned tt
  /\ option_map Eff.fedshiJwtToken (Eff.window_app (snd (Browser.loginFedshi user pass w))) =
     Some (Eff.fedshiJwtToken app)
  /\ fst (AccessGuide.login g user pass w) =
     Eff.Thrown (JS.Error ("Login failed: " +:+ JS.decimal (Http.status resp) +:+ " - "
                           +:+ Http.text resp)).
Proof.
  intros Happ Hclient Huser Hpass Hans Hok.
  destruct (browser_authenticate_rejected c user pass w resp Hans Hok) as [r Hr].
  destruct (loginFedshi_rejected w app c user pass resp Happ Hclient Huser Hpass Hans Hok)
    as (w' & Hrun & Hwin).
  split; [now rewrite Hr|]. rewrite Hrun. split; [reflexivity|].
  split; [cbn [snd]; now rewrite Hwin|]. now apply guide_login_rejected.
Qed.

Lemma C5_witness :
  let resp := {| Http.status := 401; Http.statusText := "Unauthorized";
                 Http.text := "invalid credentials"; Http.parsed := None |} in
  let w := Spec.sample_world resp (Spec.sample_app (JS.Str "jwt")) in
  let g := {| AccessGuide.apiKey := "key1"; AccessGuide.secretKey := "secret";
              AccessGuide.baseUrl := "https://admin-api.app.fedshi.com";
              AccessGuide.jwtToken := Some (JS.Str "jwt") |} in
  Spec.answers w resp
  /\ Http.ok resp = false
  /\ fst (Browser.authenticate Spec.sample_client "admin@example.com" "wrong" w) =
     Eff.Thrown (JS.Error "Authentication failed: 401")
  /\ fst (Browser.loginFedshi "admin@example.com" "wrong" w) = Eff.Returned tt
  /\ option_map Eff.fedshiJwtToken
       (Eff.window_app (snd (Browser.loginFedshi "admin@example.com" "wrong" w))) =
     Some (JS.Str "jwt")
  /\ fst (AccessGuide.login g "admin@example.com" "wrong" w) =
     Eff.Thrown (JS.Error "Login failed: 401 - invalid credentials").
Proof.
  intros resp w g.
  assert (Hans : Spec.answers w resp) by (intros r; reflexivity).
  split; [exact Hans|]. split; [reflexivity|].
  apply (C5_rejected_login_keeps_token w (Spec.sample_app (JS.Str "jwt"))
           Spec.sample_client "admin@example.com" "wrong" resp g);
    [reflexivity | reflexivity | discriminate | discriminate | exact Hans | reflexivity].
Defined.

(** * Further properties of the clients *)

(** ** The base string as a record of five fields *)

Section Base_string.
Import JS Spec.

Lemma line_split_inj (a a' r r' : string) :
  newline_free a = true -> newline_free a' = true ->
  a +:+ nl +:+ r = a' +:+ nl +:+ r' -> a = a' /\ r = r'.
Proof.
  revert a'. induction a as [|c a IH]; intros [|c' a'] Ha Ha' H.
  - cbn in H. injection H as H. now split.
  - rewrite str_app_cons in H. cbn in H. injection H as Hc _.
    cbn [newline_free] in Ha'. apply andb_true_iff in Ha' as [Hc' _].
    subst c'. discriminate Hc'.
  - rewrite str_app_cons in H. cbn in H. injection H as Hc _.
    cbn [newline_free] in Ha. apply andb_true_iff in Ha as [Hc' _].
    subst c. discriminate Hc'.
  - rewrite !str_app_cons in H. injection H as Hc H.
    cbn [newline_free] in Ha, Ha'.
    apply andb_true_iff in Ha as [_ Ha]. apply andb_true_iff in Ha' as [_ Ha'].
    destruct (IH a' Ha Ha' H) as [-> ->]. now subst.
Qed.

Lemma string_to_sign_inj m p b t k m' p' b' t' k' :
  newline_free m = true -> newline_free p = true ->
  newline_free b = true -> newline_free t = true ->
  newline_free m' = true -> newline_free p' = true ->
  newline_free b' = true -> newline_free t' = true ->
  string_to_sign m p b t k = string_to_sign m' p' b' t' k' ->
  m = m' /\ p = p' /\ b = b' /\ t = t' /\ k = k'.
Proof.
  unfold string_to_sign. intros Hm Hp Hb Ht Hm' Hp' Hb' Ht' H.
  apply line_split_inj in H as [-> H]; [|assumption..].
  apply line_split_inj in H as [-> H]; [|assumption..].
  apply line_split_inj in H as [-> H]; [|assumption..].
  apply line_split_inj in H as [-> H]; [|assumption..].
  now subst.
Qed.

End Base_string.

(** X1. For methods, paths, bodies and timestamps without line feeds, the
    base string determines all five fields: two requests that differ in
    any of method, path, body, timestamp or API key are signed over
    different byte strings, and their signatures (under one secret) are
    equal exactly when HMAC-SHA256 collides on these two messages. *)
Theorem X1_base_string_determines_fields
    (secret m p b t k m' p' b' t' k' : string) :
  Spec.newline_free m = true -> Spec.newline_free p = true ->
  Spec.newline_free b = true -> Spec.newline_free t = true ->
  Spec.newline_free m' = true -> Spec.newline_free p' = true ->
  Spec.newline_free b' = true -> Spec.newline_free t' = true ->
  (m, p, b, t, k) <> (m', p', b', t', k') ->
  let c := {| Eff.apiKey := k; Eff.secretKey := secret; Eff.baseUrl := "" |} in
  let c' := {| Eff.apiKey := k'; Eff.secretKey := secret; Eff.baseUrl := "" |} in
  Text.utf8 (Spec.string_to_sign m p b t k) <> Text.utf8 (Spec.string_to_sign m' p' b' t' k')
  /\ (Browser.generateSignature c m p b t = Browser.generateSignature c' m' p' b' t'
      <-> HMAC.hmac_sha256 (Text.utf8 secret) (Text.utf8 (Spec.string_to_sign m p b t k)) =
          HMAC.hmac_sha256 (Text.utf8 secret) (Text.utf8 (Spec.string_to_sign m' p' b' t' k'))).
Proof.
  intros Hm Hp Hb Ht Hm' Hp' Hb' Ht' Hne c c'. split.
  - intros H. apply utf8_inj in H.
    apply string_to_sign_inj in H as (-> & -> & -> & -> & ->); try assumption.
    now apply Hne.
  - rewrite !browser_sign. apply sign_eq_iff.
Qed.

Lemma X1_witness :
  let c := {| Eff.apiKey := "key1"; Eff.secretKey := "secret"; Eff.baseUrl := "" |} in
  Spec.newline_free "GET" = true
  /\ ("GET", "/api/v1/third-party/usage-stats", "", "2024-01-15T10:30:45Z", "key1") <>
     ("POST", "/api/v1/third-party/usage-stats", "", "2024-01-15T10:30:45Z", "key1")
  /\ Text.utf8 (Spec.string_to_sign "GET" "/api/v1/third-party/usage-stats" ""
                  "2024-01-15T10:30:45Z" "key1") <>
     Text.utf8 (Spec.string_to_sign "POST" "/api/v1/third-party/usage-stats" ""
                  "2024-01-15T10:30:45Z" "key1").
Proof.
  intros c. split; [reflexivity|]. split; [discriminate|].
  apply (X1_base_string_determines_fields "secret"
           "GET" "/api/v1/third-party/usage-stats" "" "2024-01-15T10:30:45Z" "key1"
           "POST" "/api/v1/third-party/usage-stats" "" "2024-01-15T10:30:45Z" "key1");
    first [reflexivity | discriminate].
Defined.

(** X2. The signer does not mark where one field ends: a line moved from
    the front of the body to the end of the path (or from the front of the
    path to the end of the method) leaves the signature as it was, in the
    browser tool and in the SDK. *)
Theorem X2_signature_ignores_field_boundaries :
  forall (c : Eff.FedshiAPIClient) (n : NodeSDK.ThirdPartyAPIClient)
         (method path x body timestamp : string),
    Browser.generateSignature c method (path +:+ JS.nl +:+ x) body timestamp =
      Browser.generateSignature c method path (x +:+ JS.nl +:+ body) timestamp
    /\ Browser.generateSignature c (method +:+ JS.nl +:+ x) path body timestamp =
         Browser.generateSignature c method (x +:+ JS.nl +:+ path) body timestamp
    /\ NodeSDK.generateSignature n method (path +:+ JS.nl +:+ x) body timestamp =
         NodeSDK.generateSignature n method path (x +:+ JS.nl +:+ body) timestamp.
Proof.
  intros c n method path x body timestamp.
  rewrite !browser_sign, !node_sign. unfold Spec.sign, Spec.string_to_sign.
  now rewrite !str_app_assoc.
Qed.

(** ** Outcomes of the GraphQL calls *)

Section More_outcomes.
Import JS Http Eff Spec.

Lemma prop_undefined_run v k w :
  v <> Null -> get v k = None -> prop (Some v) k w = (Returned None, w).
Proof.
  intros Hv H. destruct v; try contradiction; cbn [prop]; unfold ret; now rewrite H.
Qed.

Lemma prop_get_run v k w :
  v <> Null -> prop (Some v) k w = (Returned (get v k), w).
Proof. intros Hv. destruct v; try contradiction; reflexivity. Qed.

(** The GraphQL call of the browser client on an answer outside 200-299. *)
Lemma browser_graphql_rejected c q v w resp :
  answers w resp -> ok resp = false ->
  fst (Browser.makeGraphQLRequest c q v w) =
  Thrown (Error ("GraphQL request failed: " +:+ decimal (status resp))).
Proof.
  intros Hans Hok. unfold Browser.makeGraphQLRequest.
  rewrite (bind_returned _ _ _ _ _ (clock_run w)).
  rewrite (bind_returned _ _ _ _ _ (session_token_run _)).
  erewrite bind_returned by (apply fetch_run, Hans).
  now rewrite Hok.
Qed.

(** The same call on an accepted answer without (truthy) errors. *)
Lemma browser_graphql_data c q v w resp result :
  answers w resp -> ok resp = true ->
  parsed resp = Some result -> result <> Null ->
  truthy_opt (get result "errors") = false ->
  fst (Browser.makeGraphQLRequest c q v w) = Returned (get result "data").
Proof.
  intros Hans Hok Hparsed Hnull Herrors. unfold Browser.makeGraphQLRequest.
  rewrite (bind_returned _ _ _ _ _ (clock_run w)).
  rewrite (bind_returned _ _ _ _ _ (session_token_run _)).
  erewrite bind_returned by (apply fetch_run, Hans).
  rewrite Hok. cbn [negb].
  erewrite bind_returned by (apply json_run, Hparsed).
  erewrite bind_returned by (apply prop_get_run, Hnull).
  destruct (get result "errors") as [errs|]; cbn [truthy_opt] in Herrors.
  - rewrite Herrors. now rewrite prop_get_run.
  - now rewrite prop_get_run.
Qed.

(** The shipment pack call and the quick start client never read the
    status: their outcome on an answer without errors. *)
Lemma browser_shipment_pack_data c file csv w resp result data :
  csv_of w file = Returned csv -> shipmentIDs csv <> [] ->
  answers w resp ->
  parsed resp = Some result -> result <> Null ->
  truthy_opt (get result "errors") = false ->
  get result "data" = Some data -> data <> Null ->
  fst (Browser.processCSVAndCreateShipmentPack c file w) =
  Returned (get data "AddShipmentPackV2").
Proof.
  intros Hcsv Hne Hans Hparsed Hnull Herrors Hdata Hdnull.
  unfold Browser.processCSVAndCreateShipmentPack.
  rewrite (bind_returned _ _ w csv w) by (unfold parseCSVFile; now rewrite Hcsv).
  destruct (shipmentIDs csv) as [|i ids] eqn:Hids; [contradiction|].
  cbn [length Nat.eqb]. rewrite <- Hids.
  rewrite (bind_returned _ _ _ _ _ (clock_run w)).
  rewrite (bind_returned _ _ _ _ _ (session_token_run _)).
  unfold try_catch.
  erewrite bind_returned by (apply fetch_run, Hans).
  erewrite bind_returned by (apply json_run, Hparsed).
  erewrite bind_returned by (apply prop_get_run, Hnull).
  rewrite Herrors.
  erewrite bind_returned by (apply prop_run, Hdata).
  now rewrite prop_get_run.
Qed.

Lemma quickstart_graphql_data c q v w resp result :
  answers w resp ->
  parsed resp = Some result -> result <> Null ->
  truthy_opt (get result "errors") = false ->
  fst (QuickStart.makeRequest c q v w) = Returned (get result "data").
Proof.
  intros Hans Hparsed Hnull Herrors. unfold QuickStart.makeRequest.
  rewrite (bind_returned _ _ _ _ _ (clock_run w)).
  erewrite bind_returned by (apply fetch_run, Hans).
  erewrite bind_returned by (apply json_run, Hparsed).
  unfold QuickStart.data_or_errors.
  erewrite bind_returned by (apply prop_get_run, Hnull).
  destruct (get result "errors") as [errs|]; cbn [truthy_opt] in Herrors.
  - rewrite Herrors. now rewrite prop_get_run.
  - now rewrite prop_get_run.
Qed.

(** The shipment pack call on an accepted answer with an empty error
    list. *)
Lemma browser_shipment_pack_no_first_error c file csv w resp result :
  csv_of w file = Returned csv -> shipmentIDs csv <> [] ->
  answers w resp ->
  parsed resp = Some result ->
  get result "errors" = Some (Arr []) ->
  fst (Browser.processCSVAndCreateShipmentPack c file w) =
  Thrown (TypeError "Cannot read properties of undefined (reading 'message')").
Proof.
  intros Hcsv Hne Hans Hparsed Herrors.
  unfold Browser.processCSVAndCreateShipmentPack.
  rewrite (bind_returned _ _ w csv w) by (unfold parseCSVFile; now rewrite Hcsv).
  destruct (shipmentIDs csv) as [|i ids] eqn:Hids; [contradiction|].
  cbn [length Nat.eqb]. rewrite <- Hids.
  rewrite (bind_returned _ _ _ _ _ (clock_run w)).
  rewrite (bind_returned _ _ _ _ _ (session_token_run _)).
  unfold try_catch.
  erewrite bind_returned by (apply fetch_run, Hans).
  erewrite bind_returned by (apply json_run, Hparsed).
  erewrite bind_returned by (apply prop_run, Herrors).
  reflexivity.
Qed.

End More_outcomes.

(** X3. The generic GraphQL call of the browser tool rejects every answer
    whose status is outside 200-299 with [GraphQL request failed:
    <status>], whatever its body holds; the shipment pack call and the
    quick start client never read the status, so the same answer, if its
    body carries data and no errors, is returned by them as a success. *)
Theorem X3_status_is_checked_by_the_generic_call_only
    (c : Eff.FedshiAPIClient) (k : QuickStart.FedshiGraphQLClient)
    (query : string) (variables : JS.value)
    (file : Http.File) (csv : Eff.CsvData) (w : Eff.World)
    (resp : Http.Response) (result data : JS.value) :
  Spec.answers w resp ->
  Http.ok resp = false ->
  Http.parsed resp = Some result ->
  JS.get result "errors" = None ->
  JS.get result "data" = Some data ->
  data <> JS.Null ->
  Eff.csv_of w file = Eff.Returned csv ->
  Eff.shipmentIDs csv <> [] ->
  fst (Browser.makeGraphQLRequest c query variables w) =
    Eff.Thrown (JS.Error ("GraphQL request failed: " +:+ JS.decimal (Http.status resp)))
  /\ fst (Browser.processCSVAndCreateShipmentPack c file w) =
       Eff.Returned (JS.get data "AddShipmentPackV2")
  /\ fst (QuickStart.makeRequest k query variables w) = Eff.Returned (Some data).
Proof.
  intros Hans Hok Hparsed Herrors Hdata Hdnull Hcsv Hids.
  assert (Hnull : result <> JS.Null) by (intros ->; discriminate Hdata).
  split; [now apply browser_graphql_rejected|]. split.
  - apply (browser_shipment_pack_data c file csv w resp result data); try assumption.
    now rewrite Herrors.
  - rewrite <- Hdata.
    apply (quickstart_graphql_data k query variables w resp result); try assumption.
    now rewrite Herrors.
Qed.

Lemma X3_witness :
  let pack := JS.Obj [("ID", JS.Str "SP1")] in
  let result := JS.Obj [("data", JS.Obj [("AddShipmentPackV2", pack)])] in
  let resp := {| Http.status := 500; Http.statusText := "Internal Server Error";
                 Http.text := ""; Http.parsed := Some result |} in
  let w := Spec.sample_world resp (Spec.sample_app JS.Null) in
  let k := {| QuickStart.client_apiKey := "key1"; QuickStart.client_secretKey := "secret";
              QuickStart.client_baseUrl := QuickStart.baseUrl |} in
  Spec.answers w resp
  /\ Http.ok resp = false
  /\ fst (Browser.makeGraphQLRequest Spec.sample_client "query { Home { Total } }"
            (JS.Obj []) w) =
     Eff.Thrown (JS.Error "GraphQL request failed: 500")
  /\ fst (Browser.processCSVAndCreateShipmentPack Spec.sample_client Spec.sample_file w) =
     Eff.Returned (Some pack)
  /\ fst (QuickStart.makeRequest k "query { Home { Total } }" (JS.Obj []) w) =
     Eff.Returned (Some (JS.Obj [("AddShipmentPackV2", pack)])).
Proof.
  intros pack result resp w k.
  assert (Hans : Spec.answers w resp) by (intros r; reflexivity).
  split; [exact Hans|]. split; [reflexivity|].
  apply (X3_status_is_checked_by_the_generic_call_only Spec.sample_client k
           "query { Home { Total } }" (JS.Obj []) Spec.sample_file
           {| Eff.shipmentIDs := ["NZQVP"; "NBFGO"]; Eff.courierID := JS.Num 7 |}
           w resp result (JS.Obj [("AddShipmentPackV2", pack)]));
    first [exact Hans | reflexivity | discriminate].
Defined.

(** X4. An accepted answer whose body has an [errors] field that is an
    empty array still fails the call: the generic call of the browser tool
    and the quick start client raise [GraphQL Error: []], and the shipment
    pack call raises a [TypeError] for reading the message of a first error
    that is not there. *)
Theorem X4_empty_error_list_still_fails
    (c : Eff.FedshiAPIClient) (k : QuickStart.FedshiGraphQLClient)
    (query : string) (variables : JS.value)
    (file : Http.File) (csv : Eff.CsvData) (w : Eff.World)
    (resp : Http.Response) (result : JS.value) :
  Spec.answers w resp ->
  Http.ok resp = true ->
  Http.parsed resp = Some result ->
  JS.get result "errors" = Some (JS.Arr []) ->
  Eff.csv_of w file = Eff.Returned csv ->
  Eff.shipmentIDs csv <> [] ->
  fst (Browser.makeGraphQLRequest c query variables w) =
    Eff.Thrown (JS.Error "GraphQL Error: []")
  /\ fst (QuickStart.makeRequest k query variables w) =
       Eff.Thrown (JS.Error "GraphQL Error: []")
  /\ fst (Browser.processCSVAndCreateShipmentPack c file w) =
       Eff.Thrown (JS.TypeError "Cannot read properties of undefined (reading 'message')").
Proof.
  intros Hans Hok Hparsed Herrors Hcsv Hids. split; [|split].
  - now apply (browser_graphql_errors c query variables w resp result (JS.Arr [])).
  - now apply (quickstart_graphql_errors k query variables w resp result (JS.Arr [])).
  - now apply (browser_shipment_pack_no_first_error c file csv w resp result).
Qed.

Lemma X4_witness :
  let result := JS.Obj [("data", JS.Null); ("errors", JS.Arr [])] in
  let resp := {| Http.status := 200; Http.statusText := "OK";
                 Http.text := ""; Http.parsed := Some result |} in
  let w := Spec.sample_world resp (Spec.sample_app JS.Null) in
  let k := {| QuickStart.client_apiKey := "key1"; QuickStart.client_secretKey := "secret";
              QuickStart.client_baseUrl := QuickStart.baseUrl |} in
  Spec.answers w resp
  /\ Http.ok resp = true
  /\ fst (Browser.makeGraphQLRequest Spec.sample_client "query { Home { Total } }"
            (JS.Obj []) w) = Eff.Thrown (JS.Error "GraphQL Error: []")
  /\ fst (QuickStart.makeRequest k "query { Home { Total } }" (JS.Obj []) w) =
     Eff.Thrown (JS.Error "GraphQL Error: []")
  /\ fst (Browser.processCSVAndCreateShipmentPack Spec.sample_client Spec.sample_file w) =
     Eff.Thrown (JS.TypeError "Cannot read properties of undefined (reading 'message')").
Proof.
  intros result resp w k.
  assert (Hans : Spec.answers w resp) by (intros r; reflexivity).
  split; [exact Hans|]. split; [reflexivity|].
  apply (X4_empty_error_list_still_fails Spec.sample_client k
           "query { Home { Total } }" (JS.Obj []) Spec.sample_file
           {| Eff.shipmentIDs := ["NZQVP"; "NBFGO"]; Eff.courierID := JS.Num 7 |}
           w resp result);
    first [exact Hans | reflexivity | discriminate].
Defined.

(** ** The login of the browser tool, path by path *)

Section Login_paths.
Import JS Http Eff Spec Terms.

Lemma browser_authenticate_world c user pass w :
  exists r, snd (Browser.authenticate c user pass w) = record_request r (tick w).
Proof. eexists. apply browser_authenticate_wire. Qed.

(** [loginFedshi] once the outcome of [authenticate] is known. *)
Lemma loginFedshi_after_authenticate w app c user pass o w2 :
  window_app w = Some app -> fedshiClient app = Some c ->
  user <> "" -> pass <> "" ->
  Browser.authenticate c user pass
    (show (UpdateStatus "fedshiAuthStatus" "Authenticating..." "info") w) = (o, w2) ->
  exists w',
    Browser.loginFedshi user pass w = (Returned tt, w')
    /\ window_app w' = Some (app_after_login app o)
    /\ sent w' = sent w2
    /\ ticks w' = ticks w2
    /\ last (page w') =
       Some (FileOperationsEnabled (authenticationStatus_fedshi (app_after_login app o))).
Proof.
  intros Happ Hclient Huser Hpass Hauth.
  assert (Hw2 : window_app w2 = Some app).
  { destruct (browser_authenticate_world c user pass
                (show (UpdateStatus "fedshiAuthStatus" "Authenticating..." "info") w))
      as [r Hr].
    rewrite Hauth in Hr. cbn [snd] in Hr. now rewrite Hr. }
  assert (Hcall : Browser.call_authenticate user pass
      (show (UpdateStatus "fedshiAuthStatus" "Authenticating..." "info") w) = (o, w2)).
  { unfold Browser.call_authenticate.
    rewrite (bind_returned _ _ _ _ _
               (this_app_run (show (UpdateStatus "fedshiAuthStatus" "Authenticating..." "info") w)
                  app Happ)).
    now rewrite Hclient. }
  unfold Browser.loginFedshi.
  rewrite (bind_returned _ _ _ _ _ (this_app_run w app Happ)).
  rewrite (eqb_empty_false user Huser), (eqb_empty_false pass Hpass). cbn [orb].
  unfold Browser.updateStatus at 1.
  rewrite (bind_returned _ _ _ _ _ (emit_run _ w)).
  unfold try_catch. unfold bind at 1 2. rewrite Hcall.
  destruct o as [loginResult|e].
  - fold (login_accepts loginResult). cbn [app_after_login].
    destruct (login_accepts loginResult);
      unfold Browser.set_fedshiJwtToken, Browser.set_authenticationStatus_fedshi,
        Browser.updateStatus, Browser.showMessage, Browser.updateAuthenticationStatus,
        Browser.this_app, bind, ret, throw, get_app, set_app, emit;
      rewrite Hw2; cbn; eexists; (split; [reflexivity|]); cbn;
      rewrite ?last_snoc; repeat split; reflexivity.
  - cbn [app_after_login].
    unfold Browser.set_fedshiJwtToken, Browser.set_authenticationStatus_fedshi,
      Browser.updateStatus, Browser.showMessage, Browser.updateAuthenticationStatus,
      Browser.this_app, bind, ret, throw, get_app, set_app, emit.
    rewrite Hw2. cbn. eexists. split; [reflexivity|]. cbn.
    rewrite ?last_snoc. repeat split; reflexivity.
Qed.


Lemma loginFedshi_empty_credentials w app user pass :
  window_app w = Some app ->
  String.eqb user "" || String.eqb pass "" = true ->
  Browser.loginFedshi user pass w =
  (Returned tt, show (ShowMessage "Please enter both Fedshi email and password" "error") w).
Proof.
  intros Happ Hempty. unfold Browser.loginFedshi.
  rewrite (bind_returned _ _ _ _ _ (this_app_run w app Happ)).
  now rewrite Hempty.
Qed.

Lemma loginFedshi_without_client w app user pass :
  window_app w = Some app -> fedshiClient app = None ->
  String.eqb user "" || String.eqb pass "" = false ->
  exists w',
    Browser.loginFedshi user pass w = (Returned tt, w')
    /\ window_app w' = Some {| fedshiClient := None;
                               fedshiJwtToken := fedshiJwtToken app;
                               authenticationStatus_fedshi := false |}
    /\ sent w' = sent w.
Proof.
  intros Happ Hclient Hfull. unfold Browser.loginFedshi.
  rewrite (bind_returned _ _ _ _ _ (this_app_run w app Happ)).
  rewrite Hfull.
  unfold Browser.call_authenticate, Browser.set_authenticationStatus_fedshi,
    Browser.updateStatus, Browser.showMessage, Browser.updateAuthenticationStatus,
    Browser.this_app, try_catch, bind, ret, throw, get_app, set_app, emit.
  cbn. repeat (first [rewrite Happ | rewrite Hclient]; cbn).
  eexists. split; [reflexivity|]. split; reflexivity.
Qed.

Lemma full_credentials user pass :
  String.eqb user "" || String.eqb pass "" = false -> user <> "" /\ pass <> "".
Proof.
  intros H. apply orb_false_elim in H as [Hu Hp].
  split; intros ->; discriminate.
Qed.

Lemma browser_authenticate_accepted c user pass w resp loginResult :
  answers w resp -> ok resp = true -> parsed resp = Some loginResult ->
  exists r,
    Browser.authenticate c user pass w = (Returned loginResult, record_request r (tick w)).
Proof.
  intros Hans Hok Hparsed. eexists. unfold Browser.authenticate.
  rewrite (bind_returned _ _ _ _ _ (clock_run w)).
  erewrite bind_returned by (apply fetch_run, Hans).
  rewrite Hok. cbn [negb]. now apply json_run.
Qed.

Lemma app_after_login_invariant app o :
  fedshiClient (app_after_login app o) = fedshiClient app
  /\ enabled_with_token (app_after_login app o)
  /\ (fedshiJwtToken (app_after_login app o) = fedshiJwtToken app
      \/ truthy (fedshiJwtToken (app_after_login app o)) = true).
Proof.
  destruct o as [loginResult|e]; cbn [app_after_login].
  - destruct (login_accepts loginResult) eqn:Hacc; cbn.
    + unfold login_accepts in Hacc. apply andb_prop in Hacc as [_ Htok].
      destruct (get loginResult "Token") as [t|]; [|discriminate Htok].
      cbn in Htok. cbn.
      split; [reflexivity|]. split; [intros _; exact Htok|right; exact Htok].
    + split; [reflexivity|]. split; [intros H; discriminate H|now left].
  - cbn. split; [reflexivity|]. split; [intros H; discriminate H|now left].
Qed.

Lemma held_token_window w w' :
  window_app w' = window_app w -> held_token w' = held_token w.
Proof. intros H. unfold held_token. now rewrite H. Qed.

End Login_paths.

(** X5. [loginFedshi] (app.js, 92-124) never raises, whatever the inputs,
    the server or the network do: every failure ends in a message on the
    page. It leaves the configured client as it was, the session token is
    afterwards either the one held before or a new truthy one, and file
    operations are enabled only while a truthy token is held: this is
    preserved by every login attempt. At most one request is sent. *)
Theorem X5_login_never_raises_and_keeps_token_invariant
    (w : Eff.World) (app : Eff.App) (user pass : string) :
  Eff.window_app w = Some app ->
  Terms.enabled_with_token app ->
  exists w' app',
    Browser.loginFedshi user pass w = (Eff.Returned tt, w')
    /\ Eff.window_app w' = Some app'
    /\ Eff.fedshiClient app' = Eff.fedshiClient app
    /\ Terms.enabled_with_token app'
    /\ (Eff.fedshiJwtToken app' = Eff.fedshiJwtToken app
        \/ JS.truthy (Eff.fedshiJwtToken app') = true)
    /\ (length (Eff.sent w') <= S (length (Eff.sent w)))%nat.
Proof.
  intros Happ Hinv.
  destruct (String.eqb user "" || String.eqb pass "") eqn:Hcred.
  - exists (Eff.show (Eff.ShowMessage "Please enter both Fedshi email and password" "error") w),
      app.
    split; [now apply (loginFedshi_empty_credentials w app)|].
    split; [exact Happ|]. split; [reflexivity|]. split; [exact Hinv|].
    split; [now left|]. cbn. lia.
  - destruct (Eff.fedshiClient app) as [c|] eqn:Hclient.
    + destruct (full_credentials user pass Hcred) as [Huser Hpass].
      destruct (Browser.authenticate c user pass
                  (Eff.show (Eff.UpdateStatus "fedshiAuthStatus" "Authenticating..." "info") w))
        as [o w2] eqn:Hauth.
      destruct (loginFedshi_after_authenticate w app c user pass o w2
                  Happ Hclient Huser Hpass Hauth) as (w' & Hrun & Hwin & Hsent & _).
      destruct (app_after_login_invariant app o) as (Hc & Hi & Ht).
      exists w', (Terms.app_after_login app o).
      split; [exact Hrun|]. split; [exact Hwin|].
      split; [now rewrite Hc|]. split; [exact Hi|]. split; [exact Ht|].
      rewrite Hsent.
      destruct (browser_authenticate_world c user pass
                  (Eff.show (Eff.UpdateStatus "fedshiAuthStatus" "Authenticating..." "info") w))
        as [r Hr].
      rewrite Hauth in Hr. cbn [snd] in Hr. rewrite Hr. cbn.
      rewrite length_app. cbn. lia.
    + destruct (loginFedshi_without_client w app user pass Happ Hclient Hcred)
        as (w' & Hrun & Hwin & Hsent).
      eexists w', _. split; [exact Hrun|]. split; [exact Hwin|].
      cbn. split; [reflexivity|]. split; [intros H; discriminate H|].
      split; [now left|]. rewrite Hsent. lia.
Qed.

Lemma X5_witness :
  let resp := {| Http.status := 200; Http.statusText := "OK"; Http.text := "";
                 Http.parsed := Some (JS.Obj [("Token", JS.Str "jwt2")]) |} in
  let w := Spec.sample_world resp (Spec.sample_app JS.Null) in
  exists w' app',
    Browser.loginFedshi "admin@example.com" "pw" w = (Eff.Returned tt, w')
    /\ Eff.window_app w' = Some app'
    /\ Eff.fedshiClient app' = Some Spec.sample_client
    /\ Terms.enabled_with_token app'
    /\ (Eff.fedshiJwtToken app' = JS.Null \/ JS.truthy (Eff.fedshiJwtToken app') = true)
    /\ (length (Eff.sent w') <= 1)%nat.
Proof.
  intros resp w.
  apply (X5_login_never_raises_and_keeps_token_invariant w (Spec.sample_app JS.Null)
           "admin@example.com" "pw").
  - reflexivity.
  - intros H. discriminate H.
Defined.

(** X6. What [loginFedshi] sends (app.js, 92-124 and 520-547): nothing when
    a credential field is empty or no client is configured; otherwise
    exactly one POST to [/api/v1/third-party/admin/login] under the base
    URL of the client, whose body is the JSON object with the members
    [email] and [password] in this order, signed over that body and the
    clock reading that is also the timestamp header, and without an
    [Authorization] header even when the page holds a token. *)
Theorem X6_login_sends_one_signed_request_or_none
    (w : Eff.World) (app : Eff.App) (user pass : string) :
  Eff.window_app w = Some app ->
  Eff.sent (snd (Browser.loginFedshi user pass w)) =
  (Eff.sent w ++
   match Eff.fedshiClient app with
   | Some c =>
       if String.eqb user "" || String.eqb pass "" then []
       else
         let ts := Eff.iso w (Eff.ticks w) in
         let body := JS.stringify (JS.Obj [("email", JS.Str user); ("password", JS.Str pass)]) in
         [ {| Http.url := Eff.baseUrl c +:+ "/api/v1/third-party/admin/login";
              Http.verb := "POST";
              Http.headers :=
                Eff.object
                  [("X-API-Key", Eff.apiKey c);
                   ("X-API-Signature",
                    Spec.sign "POST" "/api/v1/third-party/admin/login" body ts
                      (Eff.apiKey c) (Eff.secretKey c));
                   ("X-API-Timestamp", ts);
                   ("Content-Type", "application/json")];
              Http.body := Http.Text body |} ]
   | None => []
   end)%list.
Proof.
  intros Happ.
  destruct (String.eqb user "" || String.eqb pass "") eqn:Hcred.
  - rewrite (loginFedshi_empty_credentials w app user pass Happ Hcred). cbn [snd].
    destruct (Eff.fedshiClient app); cbn; now rewrite app_nil_r.
  - destruct (Eff.fedshiClient app) as [c|] eqn:Hclient.
    + destruct (full_credentials user pass Hcred) as [Huser Hpass].
      destruct (Browser.authenticate c user pass
                  (Eff.show (Eff.UpdateStatus "fedshiAuthStatus" "Authenticating..." "info") w))
        as [o w2] eqn:Hauth.
      destruct (loginFedshi_after_authenticate w app c user pass o w2
                  Happ Hclient Huser Hpass Hauth) as (w' & Hrun & _ & Hsent & _).
      rewrite Hrun. cbn [snd]. rewrite Hsent.
      pose proof (browser_authenticate_wire c user pass
                    (Eff.show (Eff.UpdateStatus "fedshiAuthStatus" "Authenticating..." "info") w))
        as Hwire.
      cbv zeta in Hwire. rewrite Hauth in Hwire. cbn [snd] in Hwire. rewrite Hwire.
      cbv zeta. rewrite browser_sign. reflexivity.
    + destruct (loginFedshi_without_client w app user pass Happ Hclient Hcred)
        as (w' & Hrun & _ & Hsent).
      rewrite Hrun. cbn [snd]. rewrite Hsent. now rewrite app_nil_r.
Qed.

Lemma X6_witness :
  let resp := {| Http.status := 401; Http.statusText := "Unauthorized";
                 Http.text := ""; Http.parsed := None |} in
  let w := Spec.sample_world resp (Spec.sample_app (JS.Str "jwt")) in
  Eff.sent (snd (Browser.loginFedshi "admin@example.com" "" w)) = [].
Proof.
  intros resp w.
  apply (X6_login_sends_one_signed_request_or_none w (Spec.sample_app (JS.Str "jwt"))
           "admin@example.com" "").
  reflexivity.
Defined.

Section Login_accepted.
Import JS Http Eff Spec Terms.

Lemma answers_show w e resp : answers w resp -> answers (show e w) resp.
Proof. intros H r. apply H. Qed.

(** The login of the browser tool on an answer in 200-299 with a body. *)
Lemma loginFedshi_answered w app c user pass resp loginResult :
  window_app w = Some app -> fedshiClient app = Some c ->
  user <> "" -> pass <> "" ->
  answers w resp -> ok resp = true -> parsed resp = Some loginResult ->
  exists w',
    Browser.loginFedshi user pass w = (Returned tt, w')
    /\ window_app w' = Some (app_after_login app (Returned loginResult))
    /\ last (page w') = Some (FileOperationsEnabled (login_accepts loginResult)).
Proof.
  intros Happ Hclient Huser Hpass Hans Hok Hparsed.
  destruct (browser_authenticate_accepted c user pass _ resp loginResult
              (answers_show w (UpdateStatus "fedshiAuthStatus" "Authenticating..." "info")
                 resp Hans) Hok Hparsed) as [r Hr].
  destruct (loginFedshi_after_authenticate w app c user pass _ _
              Happ Hclient Huser Hpass Hr) as (w' & Hrun & Hwin & _ & _ & Hlast).
  exists w'. split; [exact Hrun|]. split; [exact Hwin|].
  rewrite Hlast. cbn [app_after_login].
  now destruct (login_accepts loginResult).
Qed.

Lemma held_token_after_login w w' app loginResult :
  window_app w = Some app ->
  window_app w' = Some (app_after_login app (Returned loginResult)) ->
  held_token w' =
  if login_accepts loginResult then get loginResult "Token" else held_token w.
Proof.
  intros Happ Hwin. unfold held_token. rewrite Hwin, Happ. cbn [app_after_login].
  destruct (login_accepts loginResult) eqn:Hacc; cbn; [|reflexivity].
  unfold login_accepts in Hacc. apply andb_prop in Hacc as [_ Htok].
  destruct (get loginResult "Token") as [t|]; [|discriminate Htok].
  cbn in Htok. cbn. now rewrite Htok.
Qed.

Lemma browser_graphql_bearer c q v w :
  exists req,
    sent (snd (Browser.makeGraphQLRequest c q v w)) = (sent w ++ [req])%list
    /\ url req = baseUrl c +:+ "/graphql/third-party"
    /\ headers req !! "Authorization" =
       option_map (fun t => "Bearer " +:+ to_string t) (held_token w).
Proof.
  rewrite browser_makeGraphQLRequest_wire. eexists. split; [reflexivity|].
  split; [reflexivity|]. cbn [headers].
  rewrite browser_headers, expected_headers_authorization, held_token_bearer.
  now destruct (held_token w).
Qed.

Lemma guide_login_accepted g email password w resp result d :
  answers w resp -> ok resp = true -> parsed resp = Some result ->
  get result "data" = Some d -> d <> Null ->
  fst (AccessGuide.login g email password w) =
  Returned (result, {| AccessGuide.apiKey := AccessGuide.apiKey g;
                       AccessGuide.secretKey := AccessGuide.secretKey g;
                       AccessGuide.baseUrl := AccessGuide.baseUrl g;
                       AccessGuide.jwtToken := get d "Token" |}).
Proof.
  intros Hans Hok Hparsed Hdata Hd. unfold AccessGuide.login.
  rewrite (bind_returned _ _ _ _ _ (guide_getHeaders_run _ _ _ _ _)).
  erewrite bind_returned by (apply fetch_run, Hans).
  rewrite Hok.
  erewrite bind_returned by (apply json_run, Hparsed).
  erewrite bind_returned by (apply prop_run, Hdata).
  erewrite bind_returned by (apply prop_get_run, Hd).
  reflexivity.
Qed.

End Login_accepted.

(** X7. A login of the browser tool that the server answers in 200-299
    (app.js, 92-124, 520-547, 549-573): the page then holds the [Token]
    member of the answer when that member is truthy, and otherwise still
    the token it held before, while file operations are switched on or off
    by the same test alone. Whatever token the page holds afterwards is the
    bearer token of the next GraphQL call, so a token kept from an earlier
    login is still sent after a login that was answered without a token. *)
Theorem X7_login_token_is_bearer_of_next_call
    (w : Eff.World) (app : Eff.App) (c : Eff.FedshiAPIClient)
    (user pass : string) (resp : Http.Response) (loginResult : JS.value) :
  Eff.window_app w = Some app ->
  Eff.fedshiClient app = Some c ->
  user <> "" -> pass <> "" ->
  Spec.answers w resp ->
  Http.ok resp = true ->
  Http.parsed resp = Some loginResult ->
  exists w',
    Browser.loginFedshi user pass w = (Eff.Returned tt, w')
    /\ Spec.held_token w' =
       (if Terms.login_accepts loginResult then JS.get loginResult "Token"
        else Spec.held_token w)
    /\ last (Eff.page w') =
       Some (Eff.FileOperationsEnabled (Terms.login_accepts loginResult))
    /\ forall (query : string) (variables : JS.value),
       exists req,
         Eff.sent (snd (Browser.makeGraphQLRequest c query variables w')) =
           (Eff.sent w' ++ [req])%list
         /\ Http.url req = Eff.baseUrl c +:+ "/graphql/third-party"
         /\ Http.headers req !! "Authorization" =
            option_map (fun t => "Bearer " +:+ JS.to_string t) (Spec.held_token w').
Proof.
  intros Happ Hclient Huser Hpass Hans Hok Hparsed.
  destruct (loginFedshi_answered w app c user pass resp loginResult
              Happ Hclient Huser Hpass Hans Hok Hparsed) as (w' & Hrun & Hwin & Hlast).
  exists w'. split; [exact Hrun|].
  split; [now apply (held_token_after_login w w' app)|].
  split; [exact Hlast|].
  intros query variables. apply browser_graphql_bearer.
Qed.

Lemma X7_witness :
  let resp := {| Http.status := 200; Http.statusText := "OK"; Http.text := "";
                 Http.parsed := Some (JS.Obj [("Token", JS.Str "jwt2")]) |} in
  let w := Spec.sample_world resp (Spec.sample_app (JS.Str "jwt1")) in
  Spec.answers w resp
  /\ exists w',
    Browser.loginFedshi "admin@example.com" "pw" w = (Eff.Returned tt, w')
    /\ Spec.held_token w' = Some (JS.Str "jwt2")
    /\ last (Eff.page w') = Some (Eff.FileOperationsEnabled true)
    /\ forall (query : string) (variables : JS.value),
       exists req,
         Eff.sent (snd (Browser.makeGraphQLRequest Spec.sample_client query variables w')) =
           (Eff.sent w' ++ [req])%list
         /\ Http.url req = "https://admin-api.app.fedshi.com" +:+ "/graphql/third-party"
         /\ Http.headers req !! "Authorization" =
            option_map (fun t => "Bearer " +:+ JS.to_string t) (Spec.held_token w').
Proof.
  intros resp w.
  assert (Hans : Spec.answers w resp) by (intros r; reflexivity).
  split; [exact Hans|].
  apply (X7_login_token_is_bearer_of_next_call w (Spec.sample_app (JS.Str "jwt1"))
           Spec.sample_client "admin@example.com" "pw" resp
           (JS.Obj [("Token", JS.Str "jwt2")]));
    first [exact Hans | reflexivity | discriminate].
Defined.

(** X8. The two login clients of the repository read the token from
    different places (app.js, 104-115; access guide, JavaScript class,
    [login]): on an accepted answer whose body carries the token as
    [data.Token] and has no top-level [Token], the client class of the
    access guide stores that token, while the browser tool reports
    "authentication failed", keeps the token it had and leaves file
    operations switched off. *)
Theorem X8_login_clients_read_different_members
    (w : Eff.World) (app : Eff.App) (c : Eff.FedshiAPIClient)
    (g : AccessGuide.ThirdPartyAPIClient)
    (user pass : string) (resp : Http.Response) (result d : JS.value) :
  Eff.window_app w = Some app ->
  Eff.fedshiClient app = Some c ->
  user <> "" -> pass <> "" ->
  Spec.answers w resp ->
  Http.ok resp = true ->
  Http.parsed resp = Some result ->
  JS.get result "data" = Some d -> d <> JS.Null ->
  JS.get result "Token" = None ->
  fst (AccessGuide.login g user pass w) =
    Eff.Returned (result, {| AccessGuide.apiKey := AccessGuide.apiKey g;
                             AccessGuide.secretKey := AccessGuide.secretKey g;
                             AccessGuide.baseUrl := AccessGuide.baseUrl g;
                             AccessGuide.jwtToken := JS.get d "Token" |})
  /\ exists w',
       Browser.loginFedshi user pass w = (Eff.Returned tt, w')
       /\ Eff.window_app w' =
          Some {| Eff.fedshiClient := Some c;
                  Eff.fedshiJwtToken := Eff.fedshiJwtToken app;
                  Eff.authenticationStatus_fedshi := false |}
       /\ last (Eff.page w') = Some (Eff.FileOperationsEnabled false).
Proof.
  intros Happ Hclient Huser Hpass Hans Hok Hparsed Hdata Hd Htoken.
  split; [now apply (guide_login_accepted g user pass w resp result d)|].
  destruct (loginFedshi_answered w app c user pass resp result
              Happ Hclient Huser Hpass Hans Hok Hparsed) as (w' & Hrun & Hwin & Hlast).
  assert (Hacc : Terms.login_accepts result = false).
  { unfold Terms.login_accepts. rewrite Htoken. cbn. apply andb_false_r. }
  exists w'. split; [exact Hrun|].
  rewrite Hwin, Hlast, Hacc. cbn [Terms.app_after_login]. rewrite Hacc, Hclient.
  split; reflexivity.
Qed.

Lemma X8_witness :
  let result := JS.Obj [("data", JS.Obj [("Token", JS.Str "jwt2")])] in
  let resp := {| Http.status := 200; Http.statusText := "OK"; Http.text := "";
                 Http.parsed := Some result |} in
  let w := Spec.sample_world resp (Spec.sample_app JS.Null) in
  let g := {| AccessGuide.apiKey := "key1"; AccessGuide.secretKey := "secret";
              AccessGuide.baseUrl := "https://admin-api.app.fedshi.com";
              AccessGuide.jwtToken := Some JS.Null |} in
  Spec.answers w resp
  /\ fst (AccessGuide.login g "admin@example.com" "pw" w) =
       Eff.Returned (result, {| AccessGuide.apiKey := "key1";
                                AccessGuide.secretKey := "secret";
                                AccessGuide.baseUrl := "https://admin-api.app.fedshi.com";
                                AccessGuide.jwtToken := Some (JS.Str "jwt2") |})
  /\ exists w',
       Browser.loginFedshi "admin@example.com" "pw" w = (Eff.Returned tt, w')
       /\ Eff.window_app w' =
          Some {| Eff.fedshiClient := Some Spec.sample_client;
                  Eff.fedshiJwtToken := JS.Null;
                  Eff.authenticationStatus_fedshi := false |}
       /\ last (Eff.page w') = Some (Eff.FileOperationsEnabled false).
Proof.
  intros result resp w g.
  assert (Hans : Spec.answers w resp) by (intros r; reflexivity).
  split; [exact Hans|].
  apply (X8_login_clients_read_different_members w (Spec.sample_app JS.Null)
           Spec.sample_client g "admin@example.com" "pw" resp result
           (JS.Obj [("Token", JS.Str "jwt2")]));
    first [exact Hans | reflexivity | discriminate].
Defined.

(** ** Processing a file of orders *)

Section Batch_facts.
Import JS Http Eff Spec Terms PageEff.

Lemma bindB_returned {A C} (m : B A) (k : A -> B C) r w a r1 w1 :
  m r w = (Returned a, r1, w1) -> bindB m k r w = k a r1 w1.
Proof. intros H. unfold bindB. now rewrite H. Qed.

Lemma bindB_thrown {A C} (m : B A) (k : A -> B C) r w e r1 w1 :
  m r w = (Thrown e, r1, w1) -> bindB m k r w = (Thrown e, r1, w1).
Proof. intros H. unfold bindB. now rewrite H. Qed.

Lemma liftB_run {A} (m : M A) r w o w1 :
  m w = (o, w1) -> liftB m r w = (o, r, w1).
Proof. intros H. unfold liftB. now rewrite H. Qed.

(** What the call for a receipt leaves behind: one request when a client
    is configured, nothing otherwise. *)
Lemma call_export_world orderId w app :
  window_app w = Some app ->
  exists req,
    snd (Batch.call_exportOrderShipmentReceipt orderId w) =
    match fedshiClient app with
    | Some c => record_request req (tick w)
    | None => w
    end
    /\ url req = match fedshiClient app with
                 | Some c => baseUrl c +:+ "/graphql/third-party"
                 | None => ""
                 end.
Proof.
  intros Happ. unfold Batch.call_exportOrderShipmentReceipt.
  rewrite (bind_returned _ _ _ _ _ (this_app_run w app Happ)).
  destruct (fedshiClient app) as [c|].
  - unfold Browser.exportOrderShipmentReceipt.
    pose proof (browser_makeGraphQLRequest_wire c Browser.exportOrderShipmentReceipt_query
                  (Obj [("ID", orderId)]) w) as Hwire.
    cbv zeta in Hwire.
    match type of Hwire with _ = record_request ?r _ => exists r end.
    split; [|reflexivity].
    unfold bind.
    destruct (Browser.makeGraphQLRequest c Browser.exportOrderShipmentReceipt_query
                (Obj [("ID", orderId)]) w) as [[result|e] w1]; cbn [snd] in *.
    + rewrite quiet_prop. exact Hwire.
    + exact Hwire.
  - exists {| url := ""; verb := ""; headers := ∅; body := Text "" |}.
    split; reflexivity.
Qed.

(** One turn of the loop, once the outcome of the call is known. *)
Lemma order_step orderId p f r w o w1 :
  Batch.call_exportOrderShipmentReceipt orderId w = (o, w1) ->
  try_catchB
    (bindB (Batch.processOrderFedshiOnly orderId) (fun _ =>
     bindB (Batch.addToSuccessLog ("Successfully processed Fedshi order: "
                                   +:+ to_string orderId)) (fun _ =>
     retB (p + 1, f)%Z)))
    (fun _ => bindB (Batch.addToFailedOrders orderId) (fun _ => retB (p, f + 1)%Z))
    r w =
  match receipt_content o with
  | Some c => (Returned (p + 1, f)%Z, results_after_order orderId (Some c) r, tick w1)
  | None => (Returned (p, f + 1)%Z, results_after_order orderId None r, w1)
  end.
Proof.
  intros Hcall.
  unfold try_catchB, Batch.processOrderFedshiOnly, bindB at 1 2.
  rewrite (liftB_run _ r w _ _ Hcall).
  destruct o as [[receipt|]|e]; cbn [receipt_content]; try reflexivity.
  destruct (truthy receipt && truthy_opt (get receipt "Content")) eqn:Hc.
  - apply andb_prop in Hc as [_ Hc].
    destruct (get receipt "Content") as [c|]; [|discriminate Hc].
    reflexivity.
  - reflexivity.
Qed.


Lemma call_export_facts orderId w app o w1 :
  window_app w = Some app ->
  Batch.call_exportOrderShipmentReceipt orderId w = (o, w1) ->
  window_app w1 = Some app
  /\ page w1 = page w
  /\ exists reqs,
       sent w1 = (sent w ++ reqs)%list
       /\ length reqs = match fedshiClient app with Some _ => 1 | None => 0 end%nat.
Proof.
  intros Happ Hcall.
  destruct (call_export_world orderId w app Happ) as (req & Hw & _).
  rewrite Hcall in Hw. cbn [snd] in Hw. subst w1.
  destruct (fedshiClient app).
  - split; [exact Happ|]. split; [reflexivity|]. exists [req]. split; reflexivity.
  - split; [exact Happ|]. split; [reflexivity|]. exists []. split; [|reflexivity].
    now rewrite app_nil_r.
Qed.

(** The loop: every order identifier ends in exactly one of the two
    lists, in the order of the file, and costs one request. *)
Lemma for_orderIds_run app orderIds :
  forall p f r w,
    window_app w = Some app ->
    exists r' w' done bad reqs,
      Batch.for_orderIds orderIds p f r w =
        (Returned (p + Z.of_nat (length done), f + Z.of_nat (length bad))%Z, r', w')
      /\ Permutation orderIds (done ++ bad)
      /\ sublist done orderIds /\ sublist bad orderIds
      /\ success r' =
         (success r ++
          map (fun orderId => "Successfully processed Fedshi order: " +:+ to_string orderId)
              done)%list
      /\ map download (downloads r') =
         (map download (downloads r) ++
          map (fun orderId => (to_string orderId +:+ "-Fedshi") +:+ ".pdf") done)%list
      /\ failed r' = (failed r ++ bad)%list
      /\ tab r' = tab r
      /\ window_app w' = Some app
      /\ page w' = page w
      /\ sent w' = (sent w ++ reqs)%list
      /\ length reqs = match fedshiClient app with Some _ => length orderIds | None => 0 end%nat.
Proof.
  induction orderIds as [|orderId rest IH]; intros p f r w Happ.
  - exists r, w, [], [], []. cbn. rewrite !Z.add_0_r, !app_nil_r.
    repeat (split; [first [reflexivity | constructor]|]).
    now destruct (fedshiClient app).
  - destruct (Batch.call_exportOrderShipmentReceipt orderId w) as [o w1] eqn:Hcall.
    destruct (call_export_facts orderId w app o w1 Happ Hcall)
      as (Happ1 & Hpage1 & reqs1 & Hsent1 & Hlen1).
    pose proof (order_step orderId p f r w o w1 Hcall) as Hstep.
    cbn [Batch.for_orderIds].
    destruct (receipt_content o) as [c|] eqn:Hc;
      rewrite (bindB_returned _ _ _ _ _ _ _ Hstep); cbn [fst snd].
    +
      destruct (IH (p + 1)%Z f (results_after_order orderId (Some c) r) (tick w1) Happ1)
        as (r' & w' & done & bad & reqs & Hrun & Hperm & Hdone & Hbad & Hsucc & Hdown
            & Hfail & Htab & Hwin & Hpage & Hsent & Hlen).
      exists r', w', (orderId :: done), bad, (reqs1 ++ reqs)%list.
      split.
      { rewrite Hrun.
        replace (p + Z.of_nat (length (orderId :: done)))%Z
          with (p + 1 + Z.of_nat (length done))%Z by (cbn [length]; lia).
        reflexivity. }
      split. { cbn. now constructor. }
      split. { now constructor. }
      split. { now constructor. }
      split. { rewrite Hsucc. cbn. now rewrite <- app_assoc. }
      split. { rewrite Hdown. cbn. rewrite map_app. cbn. now rewrite <- app_assoc. }
      split. { exact Hfail. }
      split. { exact Htab. }
      split. { exact Hwin. }
      split. { now rewrite Hpage. }
      split. { rewrite Hsent. cbn. rewrite Hsent1. now rewrite <- app_assoc. }
      rewrite length_app, Hlen, Hlen1. destruct (fedshiClient app); reflexivity.
    + destruct (IH p (f + 1)%Z (results_after_order orderId None r) w1 Happ1)
        as (r' & w' & done & bad & reqs & Hrun & Hperm & Hdone & Hbad & Hsucc & Hdown
            & Hfail & Htab & Hwin & Hpage & Hsent & Hlen).
      exists r', w', done, (orderId :: bad), (reqs1 ++ reqs)%list.
      split.
      { rewrite Hrun.
        replace (f + Z.of_nat (length (orderId :: bad)))%Z
          with (f + 1 + Z.of_nat (length bad))%Z by (cbn [length]; lia).
        reflexivity. }
      split. { apply Permutation_cons_app. exact Hperm. }
      split. { now constructor. }
      split. { now constructor. }
      split. { exact Hsucc. }
      split. { exact Hdown. }
      split. { rewrite Hfail. cbn. now rewrite <- app_assoc. }
      split. { exact Htab. }
      split. { exact Hwin. }
      split. { now rewrite Hpage. }
      split. { rewrite Hsent, Hsent1. now rewrite <- app_assoc. }
      rewrite length_app, Hlen, Hlen1. destruct (fedshiClient app); reflexivity.
Qed.

Lemma for_orderIds_downloads orderIds :
  forall p f r w o r' w',
    Batch.for_orderIds orderIds p f r w = (o, r', w') ->
    prefix (downloads r) (downloads r').
Proof.
  induction orderIds as [|orderId rest IH]; intros p f r w o r' w' Hrun.
  - cbn in Hrun. injection Hrun as _ <- _. reflexivity.
  - destruct (Batch.call_exportOrderShipmentReceipt orderId w) as [o1 w1] eqn:Hcall.
    pose proof (order_step orderId p f r w o1 w1 Hcall) as Hstep.
    cbn [Batch.for_orderIds] in Hrun.
    destruct (receipt_content o1) as [c|];
      rewrite (bindB_returned _ _ _ _ _ _ _ Hstep) in Hrun;
      apply IH in Hrun; cbn in Hrun.
    + etransitivity; [|exact Hrun]. now apply prefix_app_r.
    + exact Hrun.
Qed.

End Batch_facts.

Section Batch_runs.
Import JS Http Eff Spec Terms PageEff.

Variable readAsText : File -> option string.
Variable CSV_parse : string -> option (option (list (list value))).

Lemma extractOrderIds_world csvData w w0 :
  Batch.extractOrderIds csvData w = (fst (Batch.extractOrderIds csvData w0), w).
Proof.
  unfold Batch.extractOrderIds. destruct csvData as [rows|]; [|reflexivity].
  now destruct (length rows =? 0)%nat.
Qed.

Lemma readCSVFile_world file w w0 :
  Batch.readCSVFile readAsText CSV_parse file w =
  (fst (Batch.readCSVFile readAsText CSV_parse file w0), w).
Proof.
  unfold Batch.readCSVFile. destruct (readAsText file) as [text|]; [|reflexivity].
  now destruct (CSV_parse text).
Qed.

Lemma listing_world file w w0 :
  bind (Batch.readCSVFile readAsText CSV_parse file) Batch.extractOrderIds w =
  (fst (bind (Batch.readCSVFile readAsText CSV_parse file) Batch.extractOrderIds w0), w).
Proof.
  unfold bind. rewrite (readCSVFile_world file w w0).
  rewrite (surjective_pairing (Batch.readCSVFile readAsText CSV_parse file w0)) at 2.
  rewrite (readCSVFile_world file w0 w0). cbn [fst snd].
  destruct (fst (Batch.readCSVFile readAsText CSV_parse file w0)) as [csvData|e];
    [|reflexivity].
  rewrite (extractOrderIds_world csvData w w0).
  now rewrite (extractOrderIds_world csvData w0 w0).
Qed.

(** [processFedshiFiles] on a file, once it is known what the reading and
    the listing of the order identifiers give. *)
Lemma processFedshiFiles_listed file r w orderIds :
  fst (bind (Batch.readCSVFile readAsText CSV_parse file) Batch.extractOrderIds w) =
    Returned orderIds ->
  Batch.processFedshiFiles readAsText CSV_parse (Some file) r w =
  match Batch.for_orderIds orderIds 0 0 r
          (show (ShowMessage "Processing Fedshi files..." "info") w) with
  | (Returned counts, r', w') =>
      (Returned tt,
       {| failed := failed r'; success := success r'; downloads := downloads r';
          tab := Some "success" |},
       show (ShowMessage ("Fedshi processing complete. Success: " +:+ decimal (fst counts)
                          +:+ ", Failed: " +:+ decimal (snd counts)) "success") w')
  | (Thrown e, r', w') =>
      (Returned tt, r',
       show (ShowMessage ("Error processing Fedshi files: " +:+ message_of e) "error") w')
  end.
Proof.
  intros Hlist.
  set (w1 := show (ShowMessage "Processing Fedshi files..." "info") w).
  pose proof (listing_world file w1 w) as Hw1. rewrite Hlist in Hw1.
  unfold bind in Hw1.
  unfold Batch.processFedshiFiles, Browser.showMessage, emit.
  unfold bindB at 1, liftB at 1. fold w1.
  unfold try_catchB, bindB at 1, liftB at 1.
  destruct (Batch.readCSVFile readAsText CSV_parse file w1) as [[csvData|e] w2];
    [|discriminate Hw1].
  unfold bindB at 1, liftB at 1. rewrite Hw1.
  unfold bindB at 1.
  destruct (Batch.for_orderIds orderIds 0 0 r w1) as [[[counts|e] r'] w'];
    reflexivity.
Qed.

Lemma processFedshiFiles_unlisted file r w e :
  fst (bind (Batch.readCSVFile readAsText CSV_parse file) Batch.extractOrderIds w) =
    Thrown e ->
  Batch.processFedshiFiles readAsText CSV_parse (Some file) r w =
  (Returned tt, r,
   show (ShowMessage ("Error processing Fedshi files: " +:+ message_of e) "error")
     (show (ShowMessage "Processing Fedshi files..." "info") w)).
Proof.
  intros Hlist.
  set (w1 := show (ShowMessage "Processing Fedshi files..." "info") w).
  pose proof (listing_world file w1 w) as Hw1. rewrite Hlist in Hw1.
  unfold bind in Hw1.
  unfold Batch.processFedshiFiles, Browser.showMessage, emit.
  unfold bindB at 1, liftB at 1. fold w1.
  unfold try_catchB, bindB at 1, liftB at 1.
  destruct (Batch.readCSVFile readAsText CSV_parse file w1) as [[csvData|e1] w2].
  - unfold bindB at 1, liftB at 1. rewrite Hw1. reflexivity.
  - injection Hw1 as -> ->. reflexivity.
Qed.

End Batch_runs.

(** X9. Processing a file of orders in the browser tool (app.js, 161-198,
    with 360-368, 411-420, 425-443): when the file can be read and lists
    the order identifiers [orderIds], [processFedshiFiles] returns, and
    every identifier ends in exactly one of two groups, each in the order
    of the file: for an order of the first group a success line is logged
    and a file named after the order, [<id>-Fedshi.pdf], is offered for
    download; the orders of the second group are appended to the failed
    list. One request is sent per order (none without a configured
    client), the closing message reports the sizes of the two groups, and
    the success tab is shown. *)
Theorem X9_batch_accounts_for_every_order
    (readAsText : Http.File -> option string)
    (CSV_parse : string -> option (option (list (list JS.value))))
    (file : Http.File) (orderIds : list JS.value)
    (r : PageEff.Results) (w : Eff.World) (app : Eff.App) :
  Eff.window_app w = Some app ->
  fst (Eff.bind (Batch.readCSVFile readAsText CSV_parse file) Batch.extractOrderIds w) =
    Eff.Returned orderIds ->
  exists r' w' done bad reqs,
    Batch.processFedshiFiles readAsText CSV_parse (Some file) r w = (Eff.Returned tt, r', w')
    /\ Permutation orderIds (done ++ bad)
    /\ sublist done orderIds /\ sublist bad orderIds
    /\ PageEff.success r' =
       (PageEff.success r ++
        map (fun orderId => "Successfully processed Fedshi order: " +:+ JS.to_string orderId)
            done)%list
    /\ map PageEff.download (PageEff.downloads r') =
       (map PageEff.download (PageEff.downloads r) ++
        map (fun orderId => (JS.to_string orderId +:+ "-Fedshi") +:+ ".pdf") done)%list
    /\ PageEff.failed r' = (PageEff.failed r ++ bad)%list
    /\ PageEff.tab r' = Some "success"
    /\ Eff.page w' =
       (Eff.page w ++
        [Eff.ShowMessage "Processing Fedshi files..." "info";
         Eff.ShowMessage
           ("Fedshi processing complete. Success: "
            +:+ JS.decimal (Z.of_nat (length done))
            +:+ ", Failed: " +:+ JS.decimal (Z.of_nat (length bad))) "success"])%list
    /\ Eff.sent w' = (Eff.sent w ++ reqs)%list
    /\ length reqs = match Eff.fedshiClient app with
                     | Some _ => length orderIds
                     | None => 0%nat
                     end.
Proof.
  intros Happ Hlist.
  rewrite (processFedshiFiles_listed readAsText CSV_parse file r w orderIds Hlist).
  destruct (for_orderIds_run app orderIds 0 0 r
              (Eff.show (Eff.ShowMessage "Processing Fedshi files..." "info") w) Happ)
    as (r' & w' & done & bad & reqs & Hrun & Hperm & Hdone & Hbad & Hsucc & Hdown
        & Hfail & Htab & Hwin & Hpage & Hsent & Hlen).
  rewrite Hrun. cbn [fst snd].
  eexists _, _, done, bad, reqs. split; [reflexivity|].
  split; [exact Hperm|]. split; [exact Hdone|]. split; [exact Hbad|].
  cbn [PageEff.success PageEff.downloads PageEff.failed PageEff.tab].
  split; [exact Hsucc|]. split; [exact Hdown|]. split; [exact Hfail|].
  split; [reflexivity|].
  split. { cbn [Eff.page Eff.show]. rewrite Hpage. cbn. now rewrite <- app_assoc. }
  split; [exact Hsent|exact Hlen].
Qed.

Lemma X9_witness :
  let readAsText := fun _ : Http.File => Some "id" in
  let CSV_parse :=
    fun _ : string => Some (Some [[JS.Str "OrderShipmentID"]; [JS.Str "NZQVP"]; []]) in
  let resp := {| Http.status := 500; Http.statusText := "Internal Server Error";
                 Http.text := ""; Http.parsed := None |} in
  let w := Spec.sample_world resp (Spec.sample_app (JS.Str "jwt")) in
  let r := {| PageEff.failed := []; PageEff.success := []; PageEff.downloads := [];
              PageEff.tab := None |} in
  exists r' w' done bad reqs,
    Batch.processFedshiFiles readAsText CSV_parse (Some Spec.sample_file) r w =
      (Eff.Returned tt, r', w')
    /\ Permutation [JS.Str "NZQVP"] (done ++ bad)
    /\ sublist done [JS.Str "NZQVP"] /\ sublist bad [JS.Str "NZQVP"]
    /\ PageEff.success r' =
       (PageEff.success r ++
        map (fun orderId => "Successfully processed Fedshi order: " +:+ JS.to_string orderId)
            done)%list
    /\ map PageEff.download (PageEff.downloads r') =
       (map PageEff.download (PageEff.downloads r) ++
        map (fun orderId => (JS.to_string orderId +:+ "-Fedshi") +:+ ".pdf") done)%list
    /\ PageEff.failed r' = (PageEff.failed r ++ bad)%list
    /\ PageEff.tab r' = Some "success"
    /\ Eff.page w' =
       (Eff.page w ++
        [Eff.ShowMessage "Processing Fedshi files..." "info";
         Eff.ShowMessage
           ("Fedshi processing complete. Success: "
            +:+ JS.decimal (Z.of_nat (length done))
            +:+ ", Failed: " +:+ JS.decimal (Z.of_nat (length bad))) "success"])%list
    /\ Eff.sent w' = (Eff.sent w ++ reqs)%list
    /\ length reqs = 1%nat.
Proof.
  intros readAsText CSV_parse resp w r.
  apply (X9_batch_accounts_for_every_order readAsText CSV_parse Spec.sample_file
           [JS.Str "NZQVP"] r w (Spec.sample_app (JS.Str "jwt")));
    reflexivity.
Defined.

(** X10. [processFedshiFiles] (app.js, 161-198) never raises, whatever the
    file, the server and the network do. It only ever appends to the
    failed list, the success log, the downloads and the requests sent, and
    it leaves the application object of the page, and so the session token
    and the login state, as they were. *)
Theorem X10_batch_never_raises_and_only_appends
    (readAsText : Http.File -> option string)
    (CSV_parse : string -> option (option (list (list JS.value))))
    (file : option Http.File)
    (r : PageEff.Results) (w : Eff.World) (app : Eff.App) :
  Eff.window_app w = Some app ->
  exists r' w',
    Batch.processFedshiFiles readAsText CSV_parse file r w = (Eff.Returned tt, r', w')
    /\ prefix (PageEff.failed r) (PageEff.failed r')
    /\ prefix (PageEff.success r) (PageEff.success r')
    /\ prefix (PageEff.downloads r) (PageEff.downloads r')
    /\ prefix (Eff.sent w) (Eff.sent w')
    /\ prefix (Eff.page w) (Eff.page w')
    /\ Eff.window_app w' = Some app.
Proof.
  intros Happ. destruct file as [file|].
  - destruct (fst (Eff.bind (Batch.readCSVFile readAsText CSV_parse file)
                     Batch.extractOrderIds w)) as [orderIds|e] eqn:Hlist.
    + rewrite (processFedshiFiles_listed readAsText CSV_parse file r w orderIds Hlist).
      destruct (for_orderIds_run app orderIds 0 0 r
                  (Eff.show (Eff.ShowMessage "Processing Fedshi files..." "info") w) Happ)
        as (r' & w' & done & bad & reqs & Hrun & _ & _ & _ & Hsucc & Hdown
            & Hfail & _ & Hwin & Hpage & Hsent & _).
      rewrite Hrun. eexists _, _. split; [reflexivity|].
      cbn [PageEff.success PageEff.downloads PageEff.failed Eff.sent Eff.page
           Eff.window_app Eff.show].
      split; [rewrite Hfail; now apply prefix_app_r|].
      split; [rewrite Hsucc; now apply prefix_app_r|].
      split. { apply (for_orderIds_downloads orderIds 0 0 r _ _ _ _ Hrun). }
      split; [rewrite Hsent; now apply prefix_app_r|].
      split; [|exact Hwin].
      rewrite Hpage. cbn. rewrite <- app_assoc. now apply prefix_app_r.
    + rewrite (processFedshiFiles_unlisted readAsText CSV_parse file r w e Hlist).
      eexists _, _. split; [reflexivity|]. cbn.
      repeat (split; [reflexivity|]).
      split; [|exact Happ]. rewrite <- app_assoc. now apply prefix_app_r.
  - eexists _, _. split; [reflexivity|]. cbn.
    repeat (split; [reflexivity|]).
    split; [|exact Happ]. now apply prefix_app_r.
Qed.

Lemma X10_witness :
  let readAsText := fun _ : Http.File => @None string in
  let CSV_parse := fun _ : string => @None (option (list (list JS.value))) in
  let resp := {| Http.status := 200; Http.statusText := "OK";
                 Http.text := ""; Http.parsed := None |} in
  let w := Spec.sample_world resp (Spec.sample_app (JS.Str "jwt")) in
  let r := {| PageEff.failed := []; PageEff.success := []; PageEff.downloads := [];
              PageEff.tab := None |} in
  exists r' w',
    Batch.processFedshiFiles readAsText CSV_parse (Some Spec.sample_file) r w =
      (Eff.Returned tt, r', w')
    /\ prefix (PageEff.failed r) (PageEff.failed r')
    /\ prefix (PageEff.success r) (PageEff.success r')
    /\ prefix (PageEff.downloads r) (PageEff.downloads r')
    /\ prefix (Eff.sent w) (Eff.sent w')
    /\ prefix (Eff.page w) (Eff.page w')
    /\ Eff.window_app w' = Some (Spec.sample_app (JS.Str "jwt")).
Proof.
  intros readAsText CSV_parse resp w r.
  apply (X10_batch_never_raises_and_only_appends readAsText CSV_parse
           (Some Spec.sample_file) r w (Spec.sample_app (JS.Str "jwt"))).
  reflexivity.
Defined.

Section Order_facts.
Import JS Http Eff Spec Terms PageEff.

(** The loop of [extractOrderIds] seen as a selection of first cells. *)
Lemma extract_loop rows : forall acc,
  fold_left
    (fun orderIds (row : list value) =>
       match head row with
       | Some cell => if truthy cell then (orderIds ++ [cell])%list else orderIds
       | None => orderIds
       end) rows acc =
  (acc ++ omap (fun row : list value =>
                  match head row with
                  | Some cell => if truthy cell then Some cell else None
                  | None => None
                  end) rows)%list.
Proof.
  induction rows as [|row rest IH]; intros acc; cbn.
  - now rewrite app_nil_r.
  - rewrite IH. destruct (head row) as [cell|]; [|reflexivity].
    destruct (truthy cell); [|reflexivity]. now rewrite <- app_assoc.
Qed.

Lemma extractOrderIds_rows header body w :
  Batch.extractOrderIds (Some (header :: body)) w =
  (Returned (omap (fun row : list value =>
                     match head row with
                     | Some cell => if truthy cell then Some cell else None
                     | None => None
                     end) body), w).
Proof.
  unfold Batch.extractOrderIds. cbn [length Nat.eqb tail]. now rewrite extract_loop.
Qed.

Lemma selected_cells_truthy body :
  Forall (fun cell => truthy cell = true)
    (omap (fun row : list value =>
             match head row with
             | Some cell => if truthy cell then Some cell else None
             | None => None
             end) body).
Proof.
  induction body as [|row rest IH]; cbn; [constructor|].
  destruct (head row) as [cell|]; [|exact IH].
  destruct (truthy cell) eqn:Hc; [|exact IH]. cbn. now constructor.
Qed.

Lemma selected_cells_sublist body :
  sublist
    (omap (fun row : list value =>
             match head row with
             | Some cell => if truthy cell then Some cell else None
             | None => None
             end) body)
    (omap head body).
Proof.
  induction body as [|row rest IH]; cbn; [constructor|].
  destruct (head row) as [cell|]; cbn; [|exact IH].
  destruct (truthy cell); cbn; now constructor.
Qed.

Lemma selected_cells_filter body :
  omap (fun row : list value =>
          match head row with
          | Some cell => if truthy cell then Some cell else None
          | None => None
          end) body =
  omap head (List.filter (fun row => truthy_opt (head row)) body).
Proof.
  induction body as [|row rest IH]; cbn; [reflexivity|].
  destruct (head row) as [cell|] eqn:Hrow; cbn; [|exact IH].
  destruct (truthy cell); cbn; [|exact IH]. now rewrite Hrow, IH.
Qed.

(** One order, once the answer to its request is known. *)
Lemma processOrderFedshiOnly_answered orderId r w app c resp result data :
  window_app w = Some app -> fedshiClient app = Some c ->
  answers w resp -> ok resp = true ->
  parsed resp = Some result -> result <> Null ->
  truthy_opt (get result "errors") = false ->
  get result "data" = Some data -> data <> Null ->
  exists req,
    Batch.processOrderFedshiOnly orderId r w =
    match receipt_content (Returned (get data "ExportOrderShipmentReceipt")) with
    | Some content =>
        (Returned tt,
         {| failed := failed r; success := success r;
            downloads :=
              (downloads r ++
               [{| href := "data:application/pdf;base64," +:+ to_string content;
                   download := (to_string orderId +:+ "-Fedshi") +:+ ".pdf" |}])%list;
            tab := tab r |},
         record_request req (tick w))
    | None =>
        (Thrown (Error "No content received from Fedshi"), r, record_request req (tick w))
    end.
Proof.
  intros Happ Hclient Hans Hok Hparsed Hnull Herrors Hdata Hdnull.
  destruct (call_export_world orderId w app Happ) as (req & Hw & _).
  rewrite Hclient in Hw. exists req.
  assert (Hcall : Batch.call_exportOrderShipmentReceipt orderId w =
                  (Returned (get data "ExportOrderShipmentReceipt"),
                   record_request req (tick w))).
  { rewrite (surjective_pairing (Batch.call_exportOrderShipmentReceipt orderId w)).
    rewrite Hw. f_equal.
    unfold Batch.call_exportOrderShipmentReceipt.
    rewrite (bind_returned _ _ _ _ _ (this_app_run w app Happ)). rewrite Hclient.
    unfold Browser.exportOrderShipmentReceipt.
    pose proof (browser_graphql_data c Browser.exportOrderShipmentReceipt_query
                  (Obj [("ID", orderId)]) w resp result Hans Hok Hparsed Hnull Herrors)
      as Hfst.
    unfold bind.
    destruct (Browser.makeGraphQLRequest c Browser.exportOrderShipmentReceipt_query
                (Obj [("ID", orderId)]) w) as [o w1].
    cbn [fst] in Hfst. subst o. rewrite Hdata.
    now rewrite prop_get_run. }
  unfold Batch.processOrderFedshiOnly, bindB at 1.
  rewrite (liftB_run _ r w _ _ Hcall). cbn [receipt_content].
  destruct (get data "ExportOrderShipmentReceipt") as [receipt|]; [|reflexivity].
  destruct (truthy receipt && truthy_opt (get receipt "Content")) eqn:Hc; [|reflexivity].
  apply andb_prop in Hc as [_ Hc].
  destruct (get receipt "Content") as [content|]; [|discriminate Hc].
  reflexivity.
Qed.

End Order_facts.

(** X11. A file that lists no orders at all (app.js, 172-174, 194-197,
    373-387, 392-395): when the file cannot be read, when the CSV library
    rejects its text, or when the parse is [null] or has no rows,
    [processFedshiFiles] shows the reason after "Error processing Fedshi
    files: " and does nothing else: no request is sent, no result is
    recorded and the tab is not changed. *)
Theorem X11_unlisted_file_is_reported_and_nothing_is_sent
    (readAsText : Http.File -> option string)
    (CSV_parse : string -> option (option (list (list JS.value))))
    (file : Http.File) (r : PageEff.Results) (w : Eff.World) :
  (readAsText file = None
   \/ exists text, readAsText file = Some text
                   /\ (CSV_parse text = None \/ CSV_parse text = Some None
                       \/ CSV_parse text = Some (Some []))) ->
  let reason :=
    match readAsText file with
    | None => "Failed to read file"
    | Some text => match CSV_parse text with
                   | None => "Failed to parse CSV file"
                   | Some _ => "CSV file is empty"
                   end
    end in
  Batch.processFedshiFiles readAsText CSV_parse (Some file) r w =
  (Eff.Returned tt, r,
   Eff.show (Eff.ShowMessage ("Error processing Fedshi files: " +:+ reason) "error")
     (Eff.show (Eff.ShowMessage "Processing Fedshi files..." "info") w)).
Proof.
  intros Hfile reason.
  assert (Hlist : fst (Eff.bind (Batch.readCSVFile readAsText CSV_parse file)
                         Batch.extractOrderIds w) = Eff.Thrown (JS.Error reason)).
  { unfold Eff.bind, Batch.readCSVFile, reason.
    destruct Hfile as [Hread|(text & Hread & [Hparse|[Hparse|Hparse]])];
      rewrite Hread; try rewrite Hparse; reflexivity. }
  now rewrite (processFedshiFiles_unlisted readAsText CSV_parse file r w _ Hlist).
Qed.

Lemma X11_witness :
  let readAsText := fun _ : Http.File => Some "OrderShipmentID" in
  let CSV_parse := fun _ : string => Some (Some (@nil (list JS.value))) in
  let resp := {| Http.status := 200; Http.statusText := "OK";
                 Http.text := ""; Http.parsed := None |} in
  let w := Spec.sample_world resp (Spec.sample_app (JS.Str "jwt")) in
  let r := {| PageEff.failed := []; PageEff.success := []; PageEff.downloads := [];
              PageEff.tab := None |} in
  Batch.processFedshiFiles readAsText CSV_parse (Some Spec.sample_file) r w =
  (Eff.Returned tt, r,
   Eff.show (Eff.ShowMessage ("Error processing Fedshi files: " +:+ "CSV file is empty")
               "error")
     (Eff.show (Eff.ShowMessage "Processing Fedshi files..." "info") w)).
Proof.
  intros readAsText CSV_parse resp w r.
  apply (X11_unlisted_file_is_reported_and_nothing_is_sent readAsText CSV_parse
           Spec.sample_file r w).
  right. exists "OrderShipmentID". split; [reflexivity|]. right. right. reflexivity.
Defined.

(** X12. One order of the batch (app.js, 360-368, 411-420, 588-600): when
    the server answers the request for the receipt in 200-299 with a body
    that has no [errors] and a [data] object, the order is downloaded
    exactly when [data.ExportOrderShipmentReceipt] is truthy and has a
    truthy [Content]. The link clicked is then the data URL
    [data:application/pdf;base64,<Content>] under the name
    [<orderId>-Fedshi.pdf]; otherwise "No content received from Fedshi" is
    raised and nothing is downloaded. Either way one request was sent. *)
Theorem X12_order_is_downloaded_iff_receipt_has_content
    (orderId : JS.value) (r : PageEff.Results) (w : Eff.World) (app : Eff.App)
    (c : Eff.FedshiAPIClient) (resp : Http.Response) (result data : JS.value) :
  Eff.window_app w = Some app ->
  Eff.fedshiClient app = Some c ->
  Spec.answers w resp ->
  Http.ok resp = true ->
  Http.parsed resp = Some result -> result <> JS.Null ->
  JS.truthy_opt (JS.get result "errors") = false ->
  JS.get result "data" = Some data -> data <> JS.Null ->
  exists req,
    Batch.processOrderFedshiOnly orderId r w =
    match Terms.receipt_content (Eff.Returned (JS.get data "ExportOrderShipmentReceipt")) with
    | Some content =>
        (Eff.Returned tt,
         {| PageEff.failed := PageEff.failed r;
            PageEff.success := PageEff.success r;
            PageEff.downloads :=
              (PageEff.downloads r ++
               [{| PageEff.href := "data:application/pdf;base64," +:+ JS.to_string content;
                   PageEff.download := (JS.to_string orderId +:+ "-Fedshi") +:+ ".pdf" |}])%list;
            PageEff.tab := PageEff.tab r |},
         Eff.record_request req (Eff.tick w))
    | None =>
        (Eff.Thrown (JS.Error "No content received from Fedshi"), r,
         Eff.record_request req (Eff.tick w))
    end.
Proof.
  intros Happ Hclient Hans Hok Hparsed Hnull Herrors Hdata Hdnull.
  now apply (processOrderFedshiOnly_answered orderId r w app c resp result data).
Qed.

Lemma X12_witness :
  let receipt := JS.Obj [("Content", JS.Str "JVBERi0="); ("Extension", JS.Str "pdf")] in
  let data := JS.Obj [("ExportOrderShipmentReceipt", receipt)] in
  let result := JS.Obj [("data", data)] in
  let resp := {| Http.status := 200; Http.statusText := "OK"; Http.text := "";
                 Http.parsed := Some result |} in
  let w := Spec.sample_world resp (Spec.sample_app (JS.Str "jwt")) in
  let r := {| PageEff.failed := []; PageEff.success := []; PageEff.downloads := [];
              PageEff.tab := None |} in
  Spec.answers w resp
  /\ exists req,
    Batch.processOrderFedshiOnly (JS.Str "NZQVP") r w =
    (Eff.Returned tt,
     {| PageEff.failed := [];
        PageEff.success := [];
        PageEff.downloads :=
          [{| PageEff.href := "data:application/pdf;base64," +:+ "JVBERi0=";
              PageEff.download := ("NZQVP" +:+ "-Fedshi") +:+ ".pdf" |}];
        PageEff.tab := None |},
     Eff.record_request req (Eff.tick w)).
Proof.
  intros receipt data result resp w r.
  assert (Hans : Spec.answers w resp) by (intros q; reflexivity).
  split; [exact Hans|].
  apply (X12_order_is_downloaded_iff_receipt_has_content (JS.Str "NZQVP") r w
           (Spec.sample_app (JS.Str "jwt")) Spec.sample_client resp result data);
    first [exact Hans | reflexivity | discriminate].
Defined.

(** X13. [extractOrderIds] (app.js, 392-406) on a parse with at least one
    row: it returns, the first row (the header) plays no part in the
    result, and the identifiers returned are exactly the first cells of
    the later rows that start with a truthy cell, in the order of the
    rows; so rows that are empty or start with an empty cell are skipped
    without notice, and every identifier returned is truthy. *)
Theorem X13_order_ids_are_first_cells_below_header :
  forall (header : list JS.value) (body : list (list JS.value)) (w : Eff.World),
  exists orderIds,
    (forall header', Batch.extractOrderIds (Some (header' :: body)) w =
                     (Eff.Returned orderIds, w))
    /\ Batch.extractOrderIds (Some (header :: body)) w = (Eff.Returned orderIds, w)
    /\ orderIds = omap head (List.filter (fun row => JS.truthy_opt (head row)) body)
    /\ Forall (fun cell => JS.truthy cell = true) orderIds
    /\ sublist orderIds (omap head body).
Proof.
  intros header body w. eexists. split; [|split].
  - intros header'. apply extractOrderIds_rows.
  - apply extractOrderIds_rows.
  - split; [apply selected_cells_filter|].
    split; [apply selected_cells_truthy|apply selected_cells_sublist].
Qed.

(** ** The SDK and the client classes of the guides *)

Section Client_outcomes.
Import JS Http Eff Spec Terms.

Lemma decimal_nonempty (n : Z) : decimal n <> "".
Proof.
  unfold decimal, NilZero.string_of_int.
  destruct (Z.to_int n) as [d|d]; [|discriminate].
  unfold NilZero.string_of_uint. destruct d; discriminate.
Qed.

(** [JSON.stringify] never yields the empty string. *)
Lemma stringify_nonempty (v : value) : String.eqb (stringify v) "" = false.
Proof.
  apply String.eqb_neq.
  destruct v as [|[]|n|s|items|fields]; try discriminate.
  apply decimal_nonempty.
Qed.

(** The SDK on an answer outside 200-299. *)
Lemma node_makeRequest_rejected n method path body w resp :
  answers w resp -> ok resp = false ->
  fst (NodeSDK.makeRequest n method path body w) =
  match parsed resp with
  | Some Null => Thrown (TypeError "Cannot read properties of null (reading 'error')")
  | Some errorData =>
      Thrown (Error ("API request failed: " +:+ decimal (status resp) +:+ " "
                     +:+ statusText resp +:+ " - "
                     +:+ match get errorData "error" with
                         | Some e => if truthy e then to_string e else "Unknown error"
                         | None => "Unknown error"
                         end))
  | None =>
      Thrown (Error ("API request failed: " +:+ decimal (status resp) +:+ " "
                     +:+ statusText resp +:+ " - " +:+ "Unknown error"))
  end.
Proof.
  intros Hans Hok. unfold NodeSDK.makeRequest.
  rewrite (bind_returned _ _ _ _ _ (clock_run w)).
  erewrite bind_returned by (apply fetch_run, Hans).
  rewrite Hok. cbn [negb].
  unfold json. destruct (parsed resp) as [errorData|].
  - rewrite (bind_returned _ _ _ errorData _ eq_refl).
    destruct errorData as [|b|k|s|items|fields]; try reflexivity.
    cbn [prop get]. unfold ret.
    rewrite (bind_returned _ _ _ (field "error" fields) _ eq_refl).
    destruct (field "error" fields) as [e|]; [|reflexivity].
    cbn [truthy_opt]. now destruct (truthy e).
  - rewrite (bind_returned _ _ _ (Obj []) _ eq_refl). reflexivity.
Qed.

Lemma node_makeRequest_accepted n method path body w resp :
  answers w resp -> ok resp = true ->
  fst (NodeSDK.makeRequest n method path body w) =
  match parsed resp with
  | Some result => Returned result
  | None => Thrown (SyntaxError "Unexpected token in JSON")
  end.
Proof.
  intros Hans Hok. unfold NodeSDK.makeRequest.
  rewrite (bind_returned _ _ _ _ _ (clock_run w)).
  erewrite bind_returned by (apply fetch_run, Hans).
  rewrite Hok. cbn [negb]. unfold json. now destruct (parsed resp).
Qed.

Lemma node_body_sent body :
  (if String.eqb (if truthy body then stringify body else "") ""
   then NoBody else Text (if truthy body then stringify body else "")) =
  if truthy body then Text (stringify body) else NoBody.
Proof. destruct (truthy body); [|reflexivity]. now rewrite stringify_nonempty. Qed.

Lemma guide_makeGraphQLRequest_outcome g q v w resp :
  answers w resp ->
  fst (AccessGuide.makeGraphQLRequest g q v w) =
  if ok resp then
    match parsed resp with
    | Some result => Returned result
    | None => Thrown (SyntaxError "Unexpected token in JSON")
    end
  else Thrown (Error ("GraphQL request failed: " +:+ decimal (status resp) +:+ " - "
                      +:+ text resp)).
Proof.
  intros Hans. unfold AccessGuide.makeGraphQLRequest.
  rewrite (bind_returned _ _ _ _ _ (guide_getHeaders_run _ _ _ _ _)).
  erewrite bind_returned by (apply fetch_run, Hans).
  destruct (ok resp); [|reflexivity].
  unfold json. now destruct (parsed resp).
Qed.

Lemma guide_headers_authorization g m p b ts :
  guide_headers g m p b ts !! "Authorization" =
  option_map (fun t => "Bearer " +:+ to_string t) (guide_token g).
Proof.
  rewrite guide_headers_expected, expected_headers_authorization.
  now destruct (guide_token g).
Qed.

End Client_outcomes.

(** X14. The Node.js SDK (part_001, 45-72) on an answer outside 200-299
    never returns: it raises [API request failed: <status> <statusText> -
    <reason>], where the reason is the [error] member of the JSON body when
    that member is truthy and "Unknown error" otherwise, also when the body
    is not JSON at all. A body that is the JSON value [null] makes it raise
    a [TypeError] instead, since the [error] member is read from it. *)
Theorem X14_sdk_rejected_answer_always_raises
    (n : NodeSDK.ThirdPartyAPIClient) (method path : string) (body : JS.value)
    (w : Eff.World) (resp : Http.Response) :
  Spec.answers w resp ->
  Http.ok resp = false ->
  fst (NodeSDK.makeRequest n method path body w) =
  match Http.parsed resp with
  | Some JS.Null =>
      Eff.Thrown (JS.TypeError "Cannot read properties of null (reading 'error')")
  | Some errorData =>
      Eff.Thrown
        (JS.Error ("API request failed: " +:+ JS.decimal (Http.status resp) +:+ " "
                   +:+ Http.statusText resp +:+ " - "
                   +:+ match JS.get errorData "error" with
                       | Some e => if JS.truthy e then JS.to_string e else "Unknown error"
                       | None => "Unknown error"
                       end))
  | None =>
      Eff.Thrown
        (JS.Error ("API request failed: " +:+ JS.decimal (Http.status resp) +:+ " "
                   +:+ Http.statusText resp +:+ " - " +:+ "Unknown error"))
  end.
Proof. intros Hans Hok. now apply node_makeRequest_rejected. Qed.

Lemma X14_witness :
  let resp := {| Http.status := 429; Http.statusText := "Too Many Requests";
                 Http.text := "";
                 Http.parsed := Some (JS.Obj [("error", JS.Str "Rate limit exceeded")]) |} in
  let w := Spec.sample_world resp (Spec.sample_app JS.Null) in
  let n := {| NodeSDK.apiKey := "key1"; NodeSDK.secret := "secret";
              NodeSDK.baseUrl := "https://api.example.com" |} in
  Spec.answers w resp
  /\ fst (NodeSDK.makeRequest n "GET" "/api/v1/third-party/usage-stats" JS.Null w) =
     Eff.Thrown (JS.Error "API request failed: 429 Too Many Requests - Rate limit exceeded").
Proof.
  intros resp w n.
  assert (Hans : Spec.answers w resp) by (intros r; reflexivity).
  split; [exact Hans|].
  apply (X14_sdk_rejected_answer_always_raises n "GET" "/api/v1/third-party/usage-stats"
           JS.Null w resp Hans).
  reflexivity.
Defined.

(** X15. What the Node.js SDK puts on the wire (part_001, 45-63, 79-91):
    a falsy body ([null], [0], [false], the empty string) is sent as no
    body at all and signed as the empty string, every other body is sent as
    its JSON text and signed as that text; [exportOrderShipmentReceipt]
    and [getUsageStats] are bodyless GET requests, the first to the path
    that ends with the identifier exactly as it was given. *)
Theorem X15_sdk_body_is_json_or_absent :
  forall (n : NodeSDK.ThirdPartyAPIClient) (method path orderShipmentID : string)
         (body : JS.value) (w : Eff.World),
    let ts := Eff.iso w (Eff.ticks w) in
    let request m p payload signed :=
      {| Http.url := NodeSDK.baseUrl n +:+ p;
         Http.verb := m;
         Http.headers :=
           Spec.expected_headers (NodeSDK.apiKey n)
             (Spec.sign m p signed ts (NodeSDK.apiKey n) (NodeSDK.secret n)) ts None;
         Http.body := payload |} in
    Eff.sent (snd (NodeSDK.makeRequest n method path body w)) =
      (Eff.sent w ++
       [if JS.truthy body
        then request method path (Http.Text (JS.stringify body)) (JS.stringify body)
        else request method path Http.NoBody ""])%list
    /\ Eff.sent (snd (NodeSDK.exportOrderShipmentReceipt n orderShipmentID w)) =
       (Eff.sent w ++
        [request "GET"
           ("/api/v1/third-party/export-order-shipment-receipt/" +:+ orderShipmentID)
           Http.NoBody ""])%list
    /\ Eff.sent (snd (NodeSDK.getUsageStats n w)) =
       (Eff.sent w ++
        [request "GET" "/api/v1/third-party/usage-stats" Http.NoBody ""])%list.
Proof.
  intros n method path orderShipmentID body w ts request.
  unfold NodeSDK.exportOrderShipmentReceipt, NodeSDK.getUsageStats.
  rewrite !node_makeRequest_wire. cbn [Eff.sent Eff.record_request Eff.tick].
  rewrite !node_sign, !required_headers, node_body_sent.
  split; [|split; reflexivity].
  now destruct (JS.truthy body).
Qed.

(** X16. The JavaScript client class of the access guide (access guide,
    [login], [getHeaders]): an accepted login whose body has a [data]
    object returns the body together with a client that holds
    [data.Token]; every header set that client builds afterwards carries
    [Authorization: Bearer <token>] when that token is truthy and no
    [Authorization] entry when it is missing or falsy; and the login
    request itself was sent with the token the client held before. *)
Theorem X16_guide_login_token_is_bearer_of_later_headers
    (g : AccessGuide.ThirdPartyAPIClient) (email password : string)
    (w : Eff.World) (resp : Http.Response) (result d : JS.value) :
  Spec.answers w resp ->
  Http.ok resp = true ->
  Http.parsed resp = Some result ->
  JS.get result "data" = Some d -> d <> JS.Null ->
  exists g' req,
    fst (AccessGuide.login g email password w) = Eff.Returned (result, g')
    /\ AccessGuide.apiKey g' = AccessGuide.apiKey g
    /\ AccessGuide.secretKey g' = AccessGuide.secretKey g
    /\ AccessGuide.baseUrl g' = AccessGuide.baseUrl g
    /\ AccessGuide.jwtToken g' = JS.get d "Token"
    /\ Eff.sent (snd (AccessGuide.login g email password w)) = (Eff.sent w ++ [req])%list
    /\ Http.headers req !! "Authorization" =
       option_map (fun t => "Bearer " +:+ JS.to_string t) (Spec.guide_token g)
    /\ forall (method path body : string) (w' : Eff.World),
       exists h,
         fst (AccessGuide.getHeaders g' method path body w') = Eff.Returned h
         /\ h !! "Authorization" =
            match JS.get d "Token" with
            | Some t => if JS.truthy t then Some ("Bearer " +:+ JS.to_string t) else None
            | None => None
            end.
Proof.
  intros Hans Hok Hparsed Hdata Hd.
  eexists _, _.
  split; [now apply (guide_login_accepted g email password w resp result d)|].
  cbn [AccessGuide.apiKey AccessGuide.secretKey AccessGuide.baseUrl AccessGuide.jwtToken].
  do 4 (split; [reflexivity|]).
  split; [rewrite guide_login_wire; reflexivity|].
  split; [cbn [Http.headers]; apply guide_headers_authorization|].
  intros method path body w'. eexists.
  rewrite guide_getHeaders_run. split; [reflexivity|].
  rewrite guide_headers_authorization. unfold Spec.guide_token.
  cbn [AccessGuide.jwtToken].
  destruct (JS.get d "Token") as [t|]; [|reflexivity].
  now destruct (JS.truthy t).
Qed.

Lemma X16_witness :
  let result := JS.Obj [("data", JS.Obj [("Token", JS.Str "jwt2")])] in
  let resp := {| Http.status := 200; Http.statusText := "OK"; Http.text := "";
                 Http.parsed := Some result |} in
  let w := Spec.sample_world resp (Spec.sample_app JS.Null) in
  let g := {| AccessGuide.apiKey := "key1"; AccessGuide.secretKey := "secret";
              AccessGuide.baseUrl := "https://admin-api.app.fedshi.com";
              AccessGuide.jwtToken := Some JS.Null |} in
  Spec.answers w resp
  /\ exists g' req,
    fst (AccessGuide.login g "admin@example.com" "pw" w) = Eff.Returned (result, g')
    /\ AccessGuide.apiKey g' = "key1"
    /\ AccessGuide.secretKey g' = "secret"
    /\ AccessGuide.baseUrl g' = "https://admin-api.app.fedshi.com"
    /\ AccessGuide.jwtToken g' = Some (JS.Str "jwt2")
    /\ Eff.sent (snd (AccessGuide.login g "admin@example.com" "pw" w)) =
       (Eff.sent w ++ [req])%list
    /\ Http.headers req !! "Authorization" = None
    /\ forall (method path body : string) (w' : Eff.World),
       exists h,
         fst (AccessGuide.getHeaders g' method path body w') = Eff.Returned h
         /\ h !! "Authorization" = Some ("Bearer " +:+ "jwt2").
Proof.
  intros result resp w g.
  assert (Hans : Spec.answers w resp) by (intros r; reflexivity).
  split; [exact Hans|].
  apply (X16_guide_login_token_is_bearer_of_later_headers g "admin@example.com" "pw" w
           resp result (JS.Obj [("Token", JS.Str "jwt2")]));
    first [exact Hans | reflexivity | discriminate].
Defined.

(** X17. The GraphQL call of the JavaScript client class of the access
    guide (access guide, [makeGraphQLRequest]) never looks for GraphQL
    errors: an answer in 200-299 is returned as parsed, also when its body
    lists errors, for which the browser tool and the quick start client
    raise [GraphQL Error: ...]; an answer outside 200-299 raises [GraphQL
    request failed: <status> - <text>]. Falsy variables are left out of
    the body that is sent and signed. *)
Theorem X17_guide_graphql_call_returns_error_bodies
    (g : AccessGuide.ThirdPartyAPIClient) (c : Eff.FedshiAPIClient)
    (k : QuickStart.FedshiGraphQLClient)
    (query : string) (variables : JS.value)
    (w : Eff.World) (resp : Http.Response) (result errs : JS.value) :
  Spec.answers w resp ->
  Http.parsed resp = Some result ->
  JS.get result "errors" = Some errs ->
  JS.truthy errs = true ->
  fst (AccessGuide.makeGraphQLRequest g query variables w) =
    (if Http.ok resp then Eff.Returned result
     else Eff.Thrown (JS.Error ("GraphQL request failed: " +:+ JS.decimal (Http.status resp)
                                +:+ " - " +:+ Http.text resp)))
  /\ fst (Browser.makeGraphQLRequest c query variables w) =
       (if Http.ok resp then Eff.Thrown (JS.Error ("GraphQL Error: " +:+ JS.stringify errs))
        else Eff.Thrown (JS.Error ("GraphQL request failed: "
                                   +:+ JS.decimal (Http.status resp))))
  /\ fst (QuickStart.makeRequest k query variables w) =
       Eff.Thrown (JS.Error ("GraphQL Error: " +:+ JS.stringify errs))
  /\ exists req,
       Eff.sent (snd (AccessGuide.makeGraphQLRequest g query variables w)) =
         (Eff.sent w ++ [req])%list
       /\ Http.body req =
          Http.Text (JS.stringify
                       (if JS.truthy variables
                        then JS.Obj [("query", JS.Str query); ("variables", variables)]
                        else JS.Obj [("query", JS.Str query)])).
Proof.
  intros Hans Hparsed Herrors Htruthy.
  split.
  { rewrite (guide_makeGraphQLRequest_outcome g query variables w resp Hans).
    now rewrite Hparsed. }
  split.
  { destruct (Http.ok resp) eqn:Hok.
    - now apply (browser_graphql_errors c query variables w resp result errs).
    - now apply browser_graphql_rejected. }
  split.
  { now apply (quickstart_graphql_errors k query variables w resp result errs). }
  rewrite guide_makeGraphQLRequest_wire. eexists. split; reflexivity.
Qed.

Lemma X17_witness :
  let errs := JS.Arr [JS.Obj [("message", JS.Str "access denied")]] in
  let result := JS.Obj [("errors", errs); ("data", JS.Null)] in
  let resp := {| Http.status := 200; Http.statusText := "OK"; Http.text := "";
                 Http.parsed := Some result |} in
  let w := Spec.sample_world resp (Spec.sample_app JS.Null) in
  let g := {| AccessGuide.apiKey := "key1"; AccessGuide.secretKey := "secret";
              AccessGuide.baseUrl := "https://admin-api.app.fedshi.com";
              AccessGuide.jwtToken := Some JS.Null |} in
  let k := {| QuickStart.client_apiKey := "key1"; QuickStart.client_secretKey := "secret";
              QuickStart.client_baseUrl := QuickStart.baseUrl |} in
  Spec.answers w resp
  /\ fst (AccessGuide.makeGraphQLRequest g "query { Home { Total } }" JS.Null w) =
       Eff.Returned result.
Proof.
  intros errs result resp w g k.
  assert (Hans : Spec.answers w resp) by (intros r; reflexivity).
  split; [exact Hans|].
  apply (X17_guide_graphql_call_returns_error_bodies g Spec.sample_client k
           "query { Home { Total } }" JS.Null w resp result errs Hans);
    reflexivity.
Defined.

(** ** Reading a shipment file *)

Section Csv_facts.
Import JS Http Eff Spec Terms CsvFile.

Lemma split_nonempty sep s : split sep s <> [].
Proof.
  destruct s as [|c rest]; cbn; [discriminate|].
  destruct (Ascii.eqb c sep); [discriminate|].
  destruct (split sep rest); discriminate.
Qed.

(** No piece holds the separator, and every character of a piece is a
    character of the text. *)
Lemma split_pieces sep s :
  Forall (fun piece => occurs sep piece = false
                       /\ forall x, occurs x piece = true -> occurs x s = true)
         (split sep s).
Proof.
  induction s as [|c rest IH]; cbn [split].
  - repeat constructor. intros x H. discriminate H.
  - destruct (Ascii.eqb c sep) eqn:Hc.
    + constructor.
      * split; [reflexivity|]. intros x H. discriminate H.
      * eapply Forall_impl; [exact IH|]. cbn. intros piece [H1 H2].
        split; [exact H1|]. intros x Hx. cbn [occurs]. rewrite (H2 x Hx).
        apply orb_true_r.
    + destruct (split sep rest) as [|piece pieces] eqn:Hs.
      * now destruct (split_nonempty sep rest).
      * apply Forall_cons in IH as [[H1 H2] IH]. constructor.
        -- split.
           ++ cbn [occurs]. now rewrite Hc, H1.
           ++ intros x Hx. cbn [occurs] in *.
              apply orb_true_iff in Hx as [Hx|Hx]; [now rewrite Hx|].
              rewrite (H2 x Hx). apply orb_true_r.
        -- eapply Forall_impl; [exact IH|]. cbn. intros q [Hq1 Hq2].
           split; [exact Hq1|]. intros x Hx. cbn [occurs]. rewrite (Hq2 x Hx).
           apply orb_true_r.
Qed.

Lemma split_app sep a b :
  occurs sep b = false ->
  split sep (a +:+ String sep b) = (split sep a ++ [b])%list.
Proof.
  intros Hb.
  assert (Hsplit : forall t, occurs sep t = false -> split sep t = [t]).
  { induction t as [|c t IH]; cbn [occurs split]; intros H; [reflexivity|].
    apply orb_false_elim in H as [Hc Ht]. rewrite Hc, (IH Ht). reflexivity. }
  induction a as [|c a IH].
  - change (split sep (String sep b) = [""; b]).
    cbn [split]. rewrite Ascii.eqb_refl. now rewrite (Hsplit b Hb).
  - rewrite str_app_cons. cbn [split]. rewrite IH.
    destruct (Ascii.eqb c sep); [reflexivity|].
    destruct (split sep a) as [|piece pieces] eqn:Hs; [|reflexivity].
    now destruct (split_nonempty sep a).
Qed.

End Csv_facts.

Section Trim_facts.
Import JS Http Eff Spec Terms CsvFile.

Lemma trimStart_chars s : forall x, occurs x (trimStart s) = true -> occurs x s = true.
Proof.
  assert (H : forall n s, (String.length s <= n)%nat ->
              forall x, occurs x (trimStart s) = true -> occurs x s = true).
  { clear s. induction n as [|n IH]; intros s Hlen x Hx.
    - destruct s; [exact Hx|cbn in Hlen; lia].
    - destruct s as [|c1 r1]; [exact Hx|].
      cbn [trimStart] in Hx. cbn [String.length] in Hlen.
      destruct (white1 c1).
      { cbn [occurs]. rewrite (IH r1 ltac:(lia) x Hx). apply orb_true_r. }
      destruct r1 as [|c2 r2]; [exact Hx|]. cbn [String.length] in Hlen.
      destruct (white2 c1 c2).
      { cbn [occurs]. rewrite (IH r2 ltac:(lia) x Hx). now rewrite !orb_true_r. }
      destruct r2 as [|c3 r3]; [exact Hx|]. cbn [String.length] in Hlen.
      destruct (white3 c1 c2 c3); [|exact Hx].
      cbn [occurs]. rewrite (IH r3 ltac:(lia) x Hx). now rewrite !orb_true_r. }
  now apply (H (String.length s)).
Qed.

Lemma trimEnd_chars s : forall x, occurs x (trimEnd s) = true -> occurs x s = true.
Proof.
  induction s as [|c rest IH]; intros x Hx; [exact Hx|].
  cbn [trimEnd] in Hx.
  destruct (String.eqb (trimStart (String c rest)) ""); [discriminate Hx|].
  cbn [occurs] in *. apply orb_true_iff in Hx as [Hx|Hx]; [now rewrite Hx|].
  rewrite (IH x Hx). apply orb_true_r.
Qed.

Lemma trim_chars s x : occurs x (trim s) = true -> occurs x s = true.
Proof. intros H. now apply trimStart_chars, trimEnd_chars. Qed.

Lemma trim_free s x : occurs x s = false -> occurs x (trim s) = false.
Proof.
  intros H. destruct (occurs x (trim s)) eqn:Ht; [|reflexivity].
  apply trim_chars in Ht. congruence.
Qed.

Lemma visible_not_white c :
  visible c = true ->
  white1 c = false /\ (forall c2, white2 c c2 = false)
  /\ (forall c2 c3, white3 c c2 c3 = false).
Proof.
  unfold visible, white1, white2, white3. intros H.
  apply andb_prop in H as [H _]. apply andb_prop in H as [H1 H2].
  apply Z.leb_le in H1. apply Z.leb_le in H2.
  assert (E : forall k, (k < 33 \/ 126 < k)%Z -> (byte c =? k)%Z = false).
  { intros k Hk. apply Z.eqb_neq. lia. }
  split; [|split].
  - rewrite (E 32%Z) by lia. rewrite orb_false_r.
    destruct (Z.leb_spec 9 (byte c)); [|reflexivity].
    cbn. apply Z.leb_gt. lia.
  - intros c2. now rewrite (E 194%Z) by lia.
  - intros c2 c3. rewrite (E 225%Z), (E 226%Z), (E 227%Z), (E 239%Z) by lia.
    reflexivity.
Qed.

Lemma trimStart_visible c rest :
  visible c = true -> trimStart (String c rest) = String c rest.
Proof.
  intros H. destruct (visible_not_white c H) as (H1 & H2 & H3).
  cbn [trimStart]. rewrite H1. destruct rest as [|c2 r2]; [reflexivity|].
  rewrite H2. destruct r2 as [|c3 r3]; [reflexivity|]. now rewrite H3.
Qed.


Lemma white_not_visible :
  (forall c, white1 c = true -> visible c = false)
  /\ (forall c1 c2, white2 c1 c2 = true -> visible c2 = false)
  /\ (forall c1 c2 c3, white3 c1 c2 c3 = true -> visible c3 = false).
Proof.
  assert (V : forall c, (byte c < 33 \/ 126 < byte c)%Z -> visible c = false).
  { intros c H. unfold visible.
    destruct (Z.leb_spec 33 (byte c)); [|reflexivity].
    destruct (Z.leb_spec (byte c) 126); [lia|reflexivity]. }
  split; [|split].
  - intros c H. apply V. unfold white1 in H.
    apply orb_prop in H as [H|H].
    + apply andb_prop in H as [_ H]. apply Z.leb_le in H. lia.
    + apply Z.eqb_eq in H. lia.
  - intros c1 c2 H. apply V. unfold white2 in H.
    apply andb_prop in H as [_ H]. apply Z.eqb_eq in H. lia.
  - intros c1 c2 c3 H. apply V. unfold white3 in H.
    repeat match goal with
           | H : _ || _ = true |- _ => apply orb_prop in H as [H|H]
           | H : _ && _ = true |- _ => apply andb_prop in H as [? H]
           end;
      first [apply Z.eqb_eq in H | apply Z.leb_le in H]; lia.
Qed.

Lemma ends_visible_cons c rest :
  rest <> "" -> ends_visible (String c rest) = ends_visible rest.
Proof. destruct rest; [contradiction|reflexivity]. Qed.

(** A text that ends with a visible character is not all white space. *)
Lemma trimStart_ends_visible s : ends_visible s = true -> trimStart s <> "".
Proof.
  destruct white_not_visible as (W1 & W2 & W3).
  assert (H : forall n s, (String.length s <= n)%nat ->
              ends_visible s = true -> trimStart s <> "").
  { clear s. induction n as [|n IH]; intros s Hlen Hs.
    - destruct s; [discriminate Hs|cbn in Hlen; lia].
    - destruct s as [|c1 r1]; [discriminate Hs|].
      cbn [trimStart]. cbn [String.length] in Hlen.
      destruct (white1 c1) eqn:H1.
      { destruct r1 as [|c2 r2]; [cbn in Hs; rewrite (W1 c1 H1) in Hs; discriminate|].
        apply IH; [lia|exact Hs]. }
      destruct r1 as [|c2 r2]; [discriminate|]. cbn [String.length] in Hlen.
      destruct (white2 c1 c2) eqn:H2.
      { destruct r2 as [|c3 r3]; [cbn in Hs; rewrite (W2 c1 c2 H2) in Hs; discriminate|].
        apply IH; [lia|exact Hs]. }
      destruct r2 as [|c3 r3]; [discriminate|]. cbn [String.length] in Hlen.
      destruct (white3 c1 c2 c3) eqn:H3; [|discriminate].
      destruct r3 as [|c4 r4]; [cbn in Hs; rewrite (W3 c1 c2 c3 H3) in Hs; discriminate|].
      apply IH; [lia|exact Hs]. }
  now apply (H (String.length s)).
Qed.

Lemma trimEnd_ends_visible s : ends_visible s = true -> trimEnd s = s.
Proof.
  induction s as [|c rest IH]; intros Hs; [reflexivity|].
  cbn [trimEnd].
  destruct (String.eqb_spec (trimStart (String c rest)) "") as [E|_].
  - now destruct (trimStart_ends_visible _ Hs).
  - destruct rest as [|c2 r2]; [reflexivity|].
    rewrite IH; [reflexivity|exact Hs].
Qed.

Lemma ends_visible_app a b : b <> "" -> ends_visible (a +:+ b) = ends_visible b.
Proof.
  intros Hb. induction a as [|c a IH]; [reflexivity|].
  rewrite str_app_cons, ends_visible_cons; [exact IH|].
  destruct a; [exact Hb|discriminate].
Qed.

Lemma plain_ends_visible s : s <> "" -> plain s = true -> ends_visible s = true.
Proof.
  induction s as [|c rest IH]; intros Hs Hp; [contradiction|].
  cbn [plain] in Hp. apply andb_prop in Hp as [Hc Hrest].
  destruct rest as [|c2 r2]; [exact Hc|].
  rewrite ends_visible_cons by discriminate. now apply IH.
Qed.

Lemma plain_free s c : visible c = false -> plain s = true -> occurs c s = false.
Proof.
  intros Hc. induction s as [|x rest IH]; intros Hp; [reflexivity|].
  cbn [plain] in Hp. apply andb_prop in Hp as [Hx Hrest].
  cbn [occurs]. rewrite (IH Hrest), orb_false_r.
  destruct (Ascii.eqb_spec x c) as [->|_]; [congruence|reflexivity].
Qed.

(** A text that starts and ends with a visible character is left as it
    is by [trim]. *)
Lemma trim_visible c rest :
  visible c = true -> ends_visible (String c rest) = true ->
  trim (String c rest) = String c rest.
Proof.
  intros Hc He. unfold trim. rewrite (trimStart_visible c rest Hc).
  now apply trimEnd_ends_visible.
Qed.

Lemma trim_plain s : s <> "" -> plain s = true -> trim s = s.
Proof.
  intros Hs Hp. pose proof (plain_ends_visible s Hs Hp) as He.
  destruct s as [|c rest]; [contradiction|].
  cbn [plain] in Hp. apply andb_prop in Hp as [Hc _]. now apply trim_visible.
Qed.

Lemma trim_row id courier :
  id <> "" -> courier <> "" -> plain id = true -> plain courier = true ->
  trim (id +:+ "," +:+ courier) = id +:+ "," +:+ courier.
Proof.
  intros Hid Hco Pid Pco.
  assert (He : ends_visible (id +:+ "," +:+ courier) = true).
  { rewrite ends_visible_app by (destruct courier; discriminate).
    change ("," +:+ courier) with (String "," courier).
    rewrite ends_visible_cons by exact Hco. now apply plain_ends_visible. }
  destruct id as [|c rest]; [contradiction|].
  cbn [plain] in Pid. apply andb_prop in Pid as [Hc _].
  rewrite str_app_cons in *. now apply trim_visible.
Qed.

End Trim_facts.

Section Csv_rows.
Import JS Http Eff Spec Terms CsvFile.

Variable parseInt : string -> value.

Lemma newline_free_occurs s :
  newline_free s = negb (occurs (ascii_of_nat 10) s).
Proof.
  induction s as [|c rest IH]; [reflexivity|].
  cbn [newline_free occurs]. rewrite IH. unfold is_lf. now rewrite negb_orb.
Qed.

Lemma split_free sep t : occurs sep t = false -> split sep t = [t].
Proof.
  induction t as [|c t IH]; cbn [occurs split]; intros H; [reflexivity|].
  apply orb_false_elim in H as [Hc Ht]. rewrite Hc, (IH Ht). reflexivity.
Qed.

Lemma split_cons_free sep a b :
  occurs sep a = false -> split sep (a +:+ String sep b) = a :: split sep b.
Proof.
  induction a as [|c a IH]; intros Ha.
  - change (split sep (String sep b) = "" :: split sep b).
    cbn [split]. now rewrite Ascii.eqb_refl.
  - cbn [occurs] in Ha. apply orb_false_elim in Ha as [Hc Ha].
    rewrite str_app_cons. cbn [split]. rewrite Hc, (IH Ha). reflexivity.
Qed.

(** A row [<id>,<courier>] of plain texts is accepted as it stands. *)
Lemma row_plain acc id courier :
  id <> "" -> courier <> "" -> plain id = true -> plain courier = true ->
  row parseInt acc (id +:+ "," +:+ courier) = ((fst acc ++ [id])%list, parseInt courier).
Proof.
  intros Hid Hco Pid Pco. unfold row.
  rewrite (trim_row id courier Hid Hco Pid Pco).
  assert (Hne : String.eqb (id +:+ "," +:+ courier) "" = false).
  { destruct id; [contradiction|reflexivity]. }
  rewrite Hne.
  change ("," +:+ courier) with (String "," courier).
  rewrite split_cons_free by (apply plain_free; [reflexivity|exact Pid]).
  rewrite split_free by (apply plain_free; [reflexivity|exact Pco]).
  rewrite (trim_plain id Hid Pid), (trim_plain courier Hco Pco).
  apply String.eqb_neq in Hid, Hco. now rewrite Hid, Hco.
Qed.

(** What one turn of the loop may add. *)
Lemma row_adds acc raw :
  row parseInt acc raw = acc
  \/ exists id courier,
       row parseInt acc raw = ((fst acc ++ [id])%list, parseInt courier)
       /\ id <> "" /\ courier <> ""
       /\ (forall x, occurs x raw = false -> occurs x id = false)
       /\ occurs "," id = false.
Proof.
  unfold row. destruct (String.eqb (trim raw) ""); [now left|].
  pose proof (split_pieces "," (trim raw)) as Hp.
  destruct (split "," (trim raw)) as [|column0 [|column1 columns]]; [now left..|].
  destruct (String.eqb_spec (trim column0) "") as [|Hid]; [now left|].
  destruct (String.eqb_spec (trim column1) "") as [|Hco]; [now left|].
  right. exists (trim column0), (trim column1). cbn [negb andb].
  split; [reflexivity|]. split; [exact Hid|]. split; [exact Hco|].
  apply Forall_cons in Hp as [[H0 Hsub] _].
  split.
  - intros x Hx. apply trim_free.
    destruct (occurs x column0) eqn:E; [|reflexivity].
    apply Hsub, trim_chars in E. congruence.
  - now apply trim_free.
Qed.

Lemma rows_clean rows : forall acc,
  Forall (fun raw => occurs (ascii_of_nat 10) raw = false) rows ->
  Forall (fun id => id <> "" /\ occurs "," id = false
                    /\ occurs (ascii_of_nat 10) id = false) (fst acc) ->
  Forall (fun id => id <> "" /\ occurs "," id = false
                    /\ occurs (ascii_of_nat 10) id = false)
         (fst (fold_left (row parseInt) rows acc))
  /\ (length (fst (fold_left (row parseInt) rows acc)) <= length (fst acc) + length rows)%nat.
Proof.
  induction rows as [|raw rows IH]; intros acc Hrows Hacc; cbn [fold_left].
  - split; [exact Hacc|lia].
  - apply Forall_cons in Hrows as [Hraw Hrows].
    destruct (row_adds acc raw) as [E|(id & courier & E & Hid & _ & Hsub & Hcomma)];
      rewrite E.
    + destruct (IH acc Hrows Hacc) as [H1 H2]. split; [exact H1|cbn [length]; lia].
    + destruct (IH ((fst acc ++ [id])%list, parseInt courier) Hrows) as [H1 H2].
      { cbn [fst]. apply Forall_app. split; [exact Hacc|].
        repeat constructor; auto. }
      split; [exact H1|]. cbn [fst length] in *. rewrite length_app in H2.
      cbn [length] in H2. lia.
Qed.

Lemma tail_lines_free content :
  Forall (fun raw => occurs (ascii_of_nat 10) raw = false)
         (tail (split (ascii_of_nat 10) content)).
Proof.
  pose proof (split_pieces (ascii_of_nat 10) content) as H.
  destruct (split (ascii_of_nat 10) content) as [|l ls]; [constructor|].
  apply Forall_cons in H as [_ H]. cbn [tail].
  eapply Forall_impl; [exact H|]. now intros raw [Hraw _].
Qed.

Lemma onload_header header :
  newline_free header = true ->
  onload parseInt header = {| shipmentIDs := []; courierID := Null |}.
Proof.
  intros H. rewrite newline_free_occurs in H. apply negb_true_iff in H.
  unfold onload. now rewrite (split_free _ _ H).
Qed.

Lemma onload_skips_header header rest :
  newline_free header = true ->
  onload parseInt (header +:+ nl +:+ rest) =
  {| shipmentIDs := fst (fold_left (row parseInt) (split (ascii_of_nat 10) rest) ([], Null));
     courierID := snd (fold_left (row parseInt) (split (ascii_of_nat 10) rest) ([], Null)) |}.
Proof.
  intros H. rewrite newline_free_occurs in H. apply negb_true_iff in H.
  unfold onload. change (nl +:+ rest) with (String (ascii_of_nat 10) rest).
  now rewrite (split_cons_free _ _ _ H).
Qed.

Lemma onload_snoc text line :
  occurs (ascii_of_nat 10) line = false ->
  onload parseInt (text +:+ nl +:+ line) =
  let acc := (shipmentIDs (onload parseInt text), courierID (onload parseInt text)) in
  {| shipmentIDs := fst (row parseInt acc line); courierID := snd (row parseInt acc line) |}.
Proof.
  intros H. unfold onload. change (nl +:+ line) with (String (ascii_of_nat 10) line).
  rewrite (split_app _ _ _ H).
  destruct (split (ascii_of_nat 10) text) as [|l ls] eqn:Hs.
  - now destruct (split_nonempty (ascii_of_nat 10) text).
  - cbn [tail app]. rewrite fold_left_app. cbn [fold_left shipmentIDs courierID].
    now rewrite <- surjective_pairing.
Qed.

Lemma csv_text_snoc header rows r :
  csv_text header (rows ++ [r]) =
  csv_text header rows +:+ nl +:+ fst r +:+ "," +:+ snd r.
Proof. unfold csv_text. now rewrite fold_left_app. Qed.

Lemma onload_csv_text header rows :
  newline_free header = true ->
  Forall (fun r => fst r <> "" /\ snd r <> ""
                   /\ plain (fst r) = true /\ plain (snd r) = true) rows ->
  onload parseInt (csv_text header rows) =
  {| shipmentIDs := map fst rows;
     courierID := match last rows with
                  | Some r => parseInt (snd r)
                  | None => Null
                  end |}.
Proof.
  intros Hh. induction rows as [|r rows IH] using rev_ind; intros Hrows.
  - now apply onload_header.
  - apply Forall_app in Hrows as [Hrows Hr].
    apply Forall_cons in Hr as [(Hid & Hco & Pid & Pco) _].
    rewrite csv_text_snoc, onload_snoc.
    + rewrite (IH Hrows). cbv zeta. cbn [shipmentIDs courierID].
      rewrite (row_plain _ (fst r) (snd r) Hid Hco Pid Pco). cbn [fst snd].
      now rewrite map_app, last_snoc.
    + rewrite <- (negb_involutive (occurs _ _)), <- newline_free_occurs.
      rewrite !newline_free_app.
      assert (P : forall s, plain s = true -> newline_free s = true).
      { intros s Hs. rewrite newline_free_occurs.
        now rewrite (plain_free s (ascii_of_nat 10) eq_refl Hs). }
      now rewrite (P _ Pid), (P _ Pco).
Qed.

End Csv_rows.

(** X18. The shipment identifiers read from a file (app.js, 686-717) are
    clean, whatever the file holds: none is empty, none contains a comma or
    a line feed, and there are at most as many as the file has lines after
    the first. *)
Theorem X18_shipment_ids_are_clean :
  forall (parseInt : string -> JS.value) (csvContent : string),
    Forall (fun id => id <> ""
                      /\ Terms.occurs "," id = false
                      /\ Terms.occurs (ascii_of_nat 10) id = false)
           (Eff.shipmentIDs (CsvFile.onload parseInt csvContent))
    /\ (length (Eff.shipmentIDs (CsvFile.onload parseInt csvContent))
        <= length (CsvFile.split (ascii_of_nat 10) csvContent) - 1)%nat.
Proof.
  intros parseInt csvContent. unfold CsvFile.onload. cbn [Eff.shipmentIDs].
  destruct (rows_clean parseInt (tail (CsvFile.split (ascii_of_nat 10) csvContent))
              ([], JS.Null) (tail_lines_free csvContent)) as [H1 H2]; [constructor|].
  split; [exact H1|]. cbn [fst length] in H2.
  destruct (CsvFile.split (ascii_of_nat 10) csvContent) as [|l ls];
    cbn [tail length] in *; lia.
Qed.

(** X19. The first line of a shipment file is never read (app.js, 690,
    695): two files that differ in their first line only are read alike,
    and a file of one line, whatever it holds, yields no identifier, so
    that [processCSVAndCreateShipmentPack] (app.js, 603-608) raises "No
    shipment IDs found in CSV file" for it without sending anything. *)
Theorem X19_first_line_is_never_read
    (parseInt : string -> JS.value) (c : Eff.FedshiAPIClient) (file : Http.File)
    (w : Eff.World) (header header' rest : string) :
  Spec.newline_free header = true ->
  Spec.newline_free header' = true ->
  Eff.csv_of w file = Eff.Returned (CsvFile.onload parseInt header) ->
  CsvFile.onload parseInt (header +:+ JS.nl +:+ rest) =
    CsvFile.onload parseInt (header' +:+ JS.nl +:+ rest)
  /\ CsvFile.onload parseInt header =
       {| Eff.shipmentIDs := []; Eff.courierID := JS.Null |}
  /\ Browser.processCSVAndCreateShipmentPack c file w =
       (Eff.Thrown (JS.Error "No shipment IDs found in CSV file"), w).
Proof.
  intros Hh Hh' Hcsv.
  split; [now rewrite !onload_skips_header|].
  split; [now apply onload_header|].
  unfold Browser.processCSVAndCreateShipmentPack.
  rewrite (bind_returned _ _ w (CsvFile.onload parseInt header) w)
    by (unfold Eff.parseCSVFile; now rewrite Hcsv).
  now rewrite (onload_header parseInt header Hh).
Qed.

Lemma X19_witness :
  let parseInt := fun _ : string => JS.Num 7 in
  let w :=
    {| Eff.ticks := 0;
       Eff.iso := fun _ => "2024-01-15T10:30:45.000Z";
       Eff.network := fun _ _ => None;
       Eff.sent := [];
       Eff.window_app := Some (Spec.sample_app JS.Null);
       Eff.page := [];
       Eff.csv_of := fun _ => Eff.Returned (CsvFile.onload parseInt "NZQVP,7") |} in
  CsvFile.onload parseInt ("NZQVP,7" +:+ JS.nl +:+ "NBFGO,7") =
    CsvFile.onload parseInt ("ShipmentID,CourierID" +:+ JS.nl +:+ "NBFGO,7")
  /\ CsvFile.onload parseInt "NZQVP,7" =
       {| Eff.shipmentIDs := []; Eff.courierID := JS.Null |}
  /\ Browser.processCSVAndCreateShipmentPack Spec.sample_client Spec.sample_file w =
       (Eff.Thrown (JS.Error "No shipment IDs found in CSV file"), w).
Proof.
  intros parseInt w.
  apply (X19_first_line_is_never_read parseInt Spec.sample_client Spec.sample_file w
           "NZQVP,7" "ShipmentID,CourierID" "NBFGO,7");
    reflexivity.
Defined.

(** X20. Reading back a shipment file (app.js, 686-717, with 622-637): a
    file made of any header line followed by one line [<id>,<courier>] per
    row, where identifiers and couriers are non-empty texts of visible
    ASCII characters without commas, yields the identifiers of all rows in
    order, and as courier the number parsed from the courier of the last
    row alone: the couriers of the other rows are dropped unchecked. The
    request that creates the pack carries exactly these values. *)
Theorem X20_rows_are_read_back_and_last_courier_wins
    (parseInt : string -> JS.value) (c : Eff.FedshiAPIClient) (file : Http.File)
    (w : Eff.World) (header : string) (rows : list (string * string))
    (id courier : string) :
  Spec.newline_free header = true ->
  Forall (fun r => fst r <> "" /\ snd r <> ""
                   /\ Terms.plain (fst r) = true /\ Terms.plain (snd r) = true)
         (rows ++ [(id, courier)]) ->
  Eff.csv_of w file =
    Eff.Returned (CsvFile.onload parseInt (Terms.csv_text header (rows ++ [(id, courier)]))) ->
  CsvFile.onload parseInt (Terms.csv_text header (rows ++ [(id, courier)])) =
    {| Eff.shipmentIDs := (map fst rows ++ [id])%list;
       Eff.courierID := parseInt courier |}
  /\ exists req,
       Eff.sent (snd (Browser.processCSVAndCreateShipmentPack c file w)) =
         (Eff.sent w ++ [req])%list
       /\ Http.body req =
          Http.Text
            (JS.stringify
               (JS.Obj
                  [("query", JS.Str Browser.AddShipmentPackV2_query);
                   ("variables",
                    JS.Obj
                      [("request",
                        JS.Obj
                          [("OrderShipmentIDs",
                            JS.Arr (map JS.Str (map fst rows ++ [id])%list));
                           ("DeliveryCourierID", parseInt courier);
                           ("Type", JS.Str "shipping")])])])).
Proof.
  intros Hh Hrows Hcsv.
  assert (E : CsvFile.onload parseInt (Terms.csv_text header (rows ++ [(id, courier)])) =
              {| Eff.shipmentIDs := (map fst rows ++ [id])%list;
                 Eff.courierID := parseInt courier |}).
  { rewrite (onload_csv_text parseInt header _ Hh Hrows).
    now rewrite map_app, last_snoc. }
  split; [exact E|].
  rewrite E in Hcsv.
  rewrite (browser_processCSV_wire c file _ w Hcsv)
    by (cbn [Eff.shipmentIDs]; destruct (map fst rows); discriminate).
  eexists. split; reflexivity.
Qed.

Lemma X20_witness :
  let parseInt := fun s : string => if String.eqb s "9" then JS.Num 9 else JS.Num 7 in
  let text := Terms.csv_text "ShipmentID,CourierID" ([("NZQVP", "7")] ++ [("NBFGO", "9")]) in
  let w :=
    {| Eff.ticks := 0;
       Eff.iso := fun _ => "2024-01-15T10:30:45.000Z";
       Eff.network := fun _ _ => None;
       Eff.sent := [];
       Eff.window_app := Some (Spec.sample_app JS.Null);
       Eff.page := [];
       Eff.csv_of := fun _ => Eff.Returned (CsvFile.onload parseInt text) |} in
  CsvFile.onload parseInt text =
    {| Eff.shipmentIDs := ["NZQVP"; "NBFGO"]; Eff.courierID := JS.Num 9 |}.
Proof.
  intros parseInt text w.
  apply (X20_rows_are_read_back_and_last_courier_wins parseInt Spec.sample_client
           Spec.sample_file w "ShipmentID,CourierID" [("NZQVP", "7")] "NBFGO" "9").
  - reflexivity.
  - repeat constructor; discriminate.
  - reflexivity.
Defined.

(** ** Receipts and uploads of the quick start guide *)

Section Guide_outcomes.
Import JS Http Eff Spec Terms.

Lemma quickstart_upload_function_run file w resp :
  answers w resp ->
  exists req,
    QuickStart.uploadShipmentPack_send file w = (Returned resp, record_request req (tick w)).
Proof.
  intros Hans. unfold QuickStart.uploadShipmentPack_send.
  rewrite (bind_returned _ _ _ _ _ (clock_run w)).
  eexists. apply fetch_run, Hans.
Qed.

Lemma quickstart_upload_function_outcome file w resp result d :
  answers w resp -> parsed resp = Some result ->
  get result "data" = Some d ->
  fst (QuickStartClient.uploadShipmentPack file w) =
  match get d "UploadShipmentPack" with
  | Some pack =>
      if truthy pack then Returned pack
      else Thrown (Error ("Failed to upload shipment pack: "
                          +:+ match get result "errors" with
                              | Some errs => stringify errs
                              | None => "undefined"
                              end))
  | None =>
      Thrown (Error ("Failed to upload shipment pack: "
                     +:+ match get result "errors" with
                         | Some errs => stringify errs
                         | None => "undefined"
                         end))
  end.
Proof.
  intros Hans Hparsed Hdata.
  destruct (quickstart_upload_function_run file w resp Hans) as [req Hsend].
  assert (Hnull : result <> Null) by (intros ->; discriminate Hdata).
  unfold QuickStartClient.uploadShipmentPack.
  rewrite (bind_returned _ _ _ _ _ Hsend).
  erewrite bind_returned by (apply json_run, Hparsed).
  erewrite bind_returned by (apply prop_run, Hdata).
  cbn [truthy_opt].
  destruct (truthy d) eqn:Htd.
  - assert (Hd : d <> Null) by (intros ->; discriminate Htd).
    erewrite bind_returned by (apply prop_get_run, Hd).
    destruct (get d "UploadShipmentPack") as [pack|]; cbn [truthy_opt].
    + destruct (truthy pack); [reflexivity|].
      erewrite bind_returned by (apply prop_get_run, Hnull). reflexivity.
    + erewrite bind_returned by (apply prop_get_run, Hnull). reflexivity.
  - rewrite (bind_returned _ _ _ (Some d) _ eq_refl). cbn [truthy_opt]. rewrite Htd.
    erewrite bind_returned by (apply prop_get_run, Hnull).
    destruct d as [|[]|n|s|items|fields]; try discriminate Htd; reflexivity.
Qed.

Lemma data_or_errors_run result w :
  result <> Null ->
  QuickStart.data_or_errors result w =
  match get result "errors" with
  | Some errs =>
      if truthy errs then (Thrown (Error ("GraphQL Error: " +:+ stringify errs)), w)
      else (Returned (get result "data"), w)
  | None => (Returned (get result "data"), w)
  end.
Proof.
  intros Hnull. unfold QuickStart.data_or_errors.
  rewrite (bind_returned _ _ _ _ _ (prop_get_run result "errors" _ Hnull)).
  destruct (get result "errors") as [errs|].
  - destruct (truthy errs); [reflexivity|]. now apply prop_get_run.
  - now apply prop_get_run.
Qed.

Lemma quickstart_upload_method_outcome c file w resp result d :
  answers w resp -> parsed resp = Some result ->
  get result "data" = Some d -> d <> Null ->
  fst (QuickStart.uploadShipmentPack c file w) =
  match get result "errors" with
  | Some errs =>
      if truthy errs then Thrown (Error ("GraphQL Error: " +:+ stringify errs))
      else Returned (get d "UploadShipmentPack")
  | None => Returned (get d "UploadShipmentPack")
  end.
Proof.
  intros Hans Hparsed Hdata Hd.
  assert (Hnull : result <> Null) by (intros ->; discriminate Hdata).
  unfold QuickStart.uploadShipmentPack.
  rewrite (bind_returned _ _ _ _ _ (clock_run w)).
  erewrite bind_returned by (apply fetch_run, Hans).
  erewrite bind_returned by (apply json_run, Hparsed).
  unfold bind at 1. rewrite (data_or_errors_run result _ Hnull), Hdata.
  destruct (get result "errors") as [errs|].
  - destruct (truthy errs); [reflexivity|]. now rewrite prop_get_run.
  - now rewrite prop_get_run.
Qed.

Lemma export_receipt_outcome (call : M (option value)) w (o : outcome (option value)) :
  fst (call w) = o ->
  fst (bind call (fun result => prop result "ExportOrderShipmentReceipt") w) =
  match o with
  | Returned (Some Null) =>
      Thrown (TypeError
                "Cannot read properties of null (reading 'ExportOrderShipmentReceipt')")
  | Returned (Some d) => Returned (get d "ExportOrderShipmentReceipt")
  | Returned None =>
      Thrown (TypeError
                "Cannot read properties of undefined (reading 'ExportOrderShipmentReceipt')")
  | Thrown e => Thrown e
  end.
Proof.
  intros <-. unfold bind. destruct (call w) as [[[d|]|e] w1]; cbn [fst]; try reflexivity.
  destruct d; reflexivity.
Qed.

End Guide_outcomes.

(** X21. The two receipt methods (app.js, 588-600; quick start guide,
    [FedshiGraphQLClient.exportOrderShipmentReceipt]) on an accepted answer
    without errors: both return the member [ExportOrderShipmentReceipt] of
    [data], which is [undefined] when [data] has no such member; when the
    answer has no [data] at all, or [data] is [null], both raise a
    [TypeError] for reading that member rather than an error of their own.
    Both send the identifier as the variable [ID]. *)
Theorem X21_receipt_methods_need_a_data_object
    (c : Eff.FedshiAPIClient) (k : QuickStart.FedshiGraphQLClient)
    (orderShipmentID : JS.value) (w : Eff.World)
    (resp : Http.Response) (result : JS.value) :
  Spec.answers w resp ->
  Http.ok resp = true ->
  Http.parsed resp = Some result -> result <> JS.Null ->
  JS.truthy_opt (JS.get result "errors") = false ->
  let receipt :=
    match JS.get result "data" with
    | Some JS.Null =>
        Eff.Thrown
          (JS.TypeError
             "Cannot read properties of null (reading 'ExportOrderShipmentReceipt')")
    | Some d => Eff.Returned (JS.get d "ExportOrderShipmentReceipt")
    | None =>
        Eff.Thrown
          (JS.TypeError
             "Cannot read properties of undefined (reading 'ExportOrderShipmentReceipt')")
    end in
  fst (Browser.exportOrderShipmentReceipt c orderShipmentID w) = receipt
  /\ fst (QuickStartClient.exportOrderShipmentReceipt k orderShipmentID w) = receipt
  /\ (exists req,
        Eff.sent (snd (Browser.exportOrderShipmentReceipt c orderShipmentID w)) =
          (Eff.sent w ++ [req])%list
        /\ Http.body req =
           Http.Text (JS.stringify
                        (JS.Obj [("query", JS.Str Browser.exportOrderShipmentReceipt_query);
                                 ("variables", JS.Obj [("ID", orderShipmentID)])])))
  /\ (exists req,
        Eff.sent (snd (QuickStartClient.exportOrderShipmentReceipt k orderShipmentID w)) =
          (Eff.sent w ++ [req])%list
        /\ Http.body req =
           Http.Text
             (JS.stringify
                (JS.Obj [("query",
                          JS.Str QuickStartClient.client_ExportOrderShipmentReceipt_query);
                         ("variables", JS.Obj [("ID", orderShipmentID)])]))).
Proof.
  intros Hans Hok Hparsed Hnull Herrors receipt.
  split.
  { unfold Browser.exportOrderShipmentReceipt.
    rewrite (export_receipt_outcome _ w _
               (browser_graphql_data c _ _ w resp result Hans Hok Hparsed Hnull Herrors)).
    reflexivity. }
  split.
  { unfold QuickStartClient.exportOrderShipmentReceipt.
    rewrite (export_receipt_outcome _ w _
               (quickstart_graphql_data k _ _ w resp result Hans Hparsed Hnull Herrors)).
    reflexivity. }
  split.
  - pose proof (browser_makeGraphQLRequest_wire c Browser.exportOrderShipmentReceipt_query
                  (JS.Obj [("ID", orderShipmentID)]) w) as Hwire.
    cbv zeta in Hwire. unfold Browser.exportOrderShipmentReceipt, Eff.bind.
    destruct (Browser.makeGraphQLRequest c Browser.exportOrderShipmentReceipt_query
                (JS.Obj [("ID", orderShipmentID)]) w) as [[data|e] w1];
      cbn [snd] in *; rewrite ?quiet_prop, Hwire; eexists; split; reflexivity.
  - pose proof (quickstart_makeRequest_wire k
                  QuickStartClient.client_ExportOrderShipmentReceipt_query
                  (JS.Obj [("ID", orderShipmentID)]) w) as Hwire.
    cbv zeta in Hwire. unfold QuickStartClient.exportOrderShipmentReceipt, Eff.bind.
    destruct (QuickStart.makeRequest k
                QuickStartClient.client_ExportOrderShipmentReceipt_query
                (JS.Obj [("ID", orderShipmentID)]) w) as [[data|e] w1];
      cbn [snd] in *; rewrite ?quiet_prop, Hwire; eexists; split; reflexivity.
Qed.

Lemma X21_witness :
  let result := JS.Obj [("message", JS.Str "maintenance")] in
  let resp := {| Http.status := 200; Http.statusText := "OK"; Http.text := "";
                 Http.parsed := Some result |} in
  let w := Spec.sample_world resp (Spec.sample_app JS.Null) in
  let k := {| QuickStart.client_apiKey := "key1"; QuickStart.client_secretKey := "secret";
              QuickStart.client_baseUrl := QuickStart.baseUrl |} in
  Spec.answers w resp
  /\ fst (Browser.exportOrderShipmentReceipt Spec.sample_client (JS.Str "NZQVP") w) =
     Eff.Thrown
       (JS.TypeError
          "Cannot read properties of undefined (reading 'ExportOrderShipmentReceipt')").
Proof.
  intros result resp w k.
  assert (Hans : Spec.answers w resp) by (intros r; reflexivity).
  split; [exact Hans|].
  apply (X21_receipt_methods_need_a_data_object Spec.sample_client k (JS.Str "NZQVP")
           w resp result Hans);
    first [reflexivity | discriminate].
Defined.

(** X22. The two uploaders of the quick start guide judge the same answer
    differently (quick start guide, function [uploadShipmentPack] and
    method [FedshiGraphQLClient.uploadShipmentPack]): on an answer with a
    [data] object, the function succeeds exactly when
    [data.UploadShipmentPack] is truthy, whatever [errors] holds, and
    otherwise raises "Failed to upload shipment pack: " followed by the
    JSON text of [errors] ("undefined" when there is none); the method
    fails exactly when [errors] is truthy, and otherwise returns
    [data.UploadShipmentPack] even when it is [null] or missing. *)
Theorem X22_uploaders_judge_answers_differently
    (k : QuickStart.FedshiGraphQLClient) (file : Http.File) (w : Eff.World)
    (resp : Http.Response) (result d : JS.value) :
  Spec.answers w resp ->
  Http.parsed resp = Some result ->
  JS.get result "data" = Some d -> d <> JS.Null ->
  let errors_text :=
    match JS.get result "errors" with
    | Some errs => JS.stringify errs
    | None => "undefined"
    end in
  fst (QuickStartClient.uploadShipmentPack file w) =
    (if JS.truthy_opt (JS.get d "UploadShipmentPack")
     then Eff.Returned (default JS.Null (JS.get d "UploadShipmentPack"))
     else Eff.Thrown (JS.Error ("Failed to upload shipment pack: " +:+ errors_text)))
  /\ fst (QuickStart.uploadShipmentPack k file w) =
       (if JS.truthy_opt (JS.get result "errors")
        then Eff.Thrown (JS.Error ("GraphQL Error: " +:+ errors_text))
        else Eff.Returned (JS.get d "UploadShipmentPack")).
Proof.
  intros Hans Hparsed Hdata Hd errors_text. split.
  - rewrite (quickstart_upload_function_outcome file w resp result d Hans Hparsed Hdata).
    destruct (JS.get d "UploadShipmentPack") as [pack|]; [|reflexivity].
    cbn. now destruct (JS.truthy pack).
  - rewrite (quickstart_upload_method_outcome k file w resp result d Hans Hparsed Hdata Hd).
    unfold errors_text.
    destruct (JS.get result "errors") as [errs|]; [|reflexivity].
    cbn. now destruct (JS.truthy errs).
Qed.

Lemma X22_witness :
  let pack := JS.Obj [("ID", JS.Str "SP1")] in
  let errs := JS.Arr [JS.Obj [("message", JS.Str "row 3 skipped")]] in
  let result := JS.Obj [("data", JS.Obj [("UploadShipmentPack", pack)]); ("errors", errs)] in
  let resp := {| Http.status := 200; Http.statusText := "OK"; Http.text := "";
                 Http.parsed := Some result |} in
  let w := Spec.sample_world resp (Spec.sample_app JS.Null) in
  let k := {| QuickStart.client_apiKey := "key1"; QuickStart.client_secretKey := "secret";
              QuickStart.client_baseUrl := QuickStart.baseUrl |} in
  Spec.answers w resp
  /\ fst (QuickStartClient.uploadShipmentPack Spec.sample_file w) = Eff.Returned pack
  /\ fst (QuickStart.uploadShipmentPack k Spec.sample_file w) =
     Eff.Thrown (JS.Error ("GraphQL Error: " +:+ JS.stringify errs)).
Proof.
  intros pack errs result resp w k.
  assert (Hans : Spec.answers w resp) by (intros r; reflexivity).
  split; [exact Hans|].
  apply (X22_uploaders_judge_answers_differently k Spec.sample_file w resp result
           (JS.Obj [("UploadShipmentPack", pack)]) Hans);
    first [reflexivity | discriminate].
Defined.

(** ** GraphQL errors in an accepted answer *)

Section Graphql_errors.
Import JS Http Eff Spec.

Lemma quickstart_upload_method_errors c file w resp result errs :
  answers w resp -> parsed resp = Some result ->
  get result "errors" = Some errs -> truthy errs = true ->
  fst (QuickStart.uploadShipmentPack c file w) =
  Thrown (Error ("GraphQL Error: " +:+ stringify errs)).
Proof.
  intros Hans Hparsed Herrors Htruthy.
  assert (Hnull : result <> Null) by (intros ->; discriminate Herrors).
  unfold QuickStart.uploadShipmentPack.
  rewrite (bind_returned _ _ _ _ _ (clock_run w)).
  erewrite bind_returned by (apply fetch_run, Hans).
  erewrite bind_returned by (apply json_run, Hparsed).
  unfold bind at 1. rewrite (data_or_errors_run result _ Hnull), Herrors, Htruthy.
  reflexivity.
Qed.

Lemma quickstart_upload_function_no_data file w resp result :
  answers w resp -> parsed resp = Some result -> result <> Null ->
  get result "data" = None ->
  fst (QuickStartClient.uploadShipmentPack file w) =
  Thrown (Error ("Failed to upload shipment pack: "
                 +:+ match get result "errors" with
                     | Some errs => stringify errs
                     | None => "undefined"
                     end)).
Proof.
  intros Hans Hparsed Hnull Hdata.
  destruct (quickstart_upload_function_run file w resp Hans) as [req Hsend].
  unfold QuickStartClient.uploadShipmentPack.
  rewrite (bind_returned _ _ _ _ _ Hsend).
  erewrite bind_returned by (apply json_run, Hparsed).
  erewrite bind_returned by (apply prop_get_run, Hnull).
  rewrite Hdata. unfold bind at 1. cbn [truthy_opt]. unfold ret at 1.
  cbn [truthy_opt].
  erewrite bind_returned by (apply prop_get_run, Hnull). reflexivity.
Qed.

Lemma python_graphql_send_run json_dumps py q v w resp :
  answers w resp ->
  exists req,
    AccessGuidePython.make_graphql_request_send json_dumps py q v w =
    (Returned resp, record_request req (tick w)).
Proof.
  intros Hans. unfold AccessGuidePython.make_graphql_request_send. cbv zeta.
  rewrite (bind_returned _ _ _ _ _ (python_get_headers_run _ _ _ _ _)).
  eexists. apply fetch_run, answers_tick, Hans.
Qed.

Lemma python_graphql_outcome json_dumps py q v w resp :
  answers w resp ->
  fst (AccessGuidePython.make_graphql_request json_dumps py q v w) =
  if (status resp =? 200)%Z then
    match parsed resp with
    | Some result => Returned result
    | None => Thrown (SyntaxError "Unexpected token in JSON")
    end
  else Thrown (Error ("GraphQL request failed: " +:+ decimal (status resp) +:+ " - "
                      +:+ text resp)).
Proof.
  intros Hans.
  destruct (python_graphql_send_run json_dumps py q v w resp Hans) as [req Hsend].
  unfold AccessGuidePython.make_graphql_request.
  rewrite (bind_returned _ _ _ _ _ Hsend).
  destruct (status resp =? 200)%Z; [|reflexivity].
  unfold json. now destruct (parsed resp).
Qed.

End Graphql_errors.

(** C4. On an answer with status 200 whose body lists errors [e, ...],
    the calls of the browser tool and of the client class of the quick
    start guide do what the claim says: the generic calls ([makeGraphQLRequest],
    [makeRequest]) and the upload method raise an error whose message is
    the serialised error list, which shows the message of [e] as a JSON
    string, and the shipment pack call raises an error with that very
    message ("Unknown GraphQL error" when it is empty). The GraphQL call of
    the client classes of the access guide, JavaScript and Python, does
    not: it returns the parsed body, with its errors, as the result of the
    call. The upload function of the quick start guide raises only when the
    answer has no truthy [data.UploadShipmentPack], and returns that member
    otherwise. *)
Theorem C4_access_guide_returns_graphql_errors
    (c : Eff.FedshiAPIClient) (k : QuickStart.FedshiGraphQLClient)
    (g : AccessGuide.ThirdPartyAPIClient) (py : AccessGuide.PyClient)
    (json_dumps : JS.value -> string)
    (query : string) (variables : JS.value)
    (file : Http.File) (csv : Eff.CsvData) (w : Eff.World)
    (resp : Http.Response) (result e : JS.value) (rest : list JS.value) :
  Spec.answers w resp ->
  Http.status resp = 200%Z ->
  Http.parsed resp = Some result ->
  JS.get result "errors" = Some (JS.Arr (e :: rest)) ->
  Eff.csv_of w file = Eff.Returned csv ->
  Eff.shipmentIDs csv <> [] ->
  let errors := JS.stringify (JS.Arr (e :: rest)) in
  (fst (Browser.makeGraphQLRequest c query variables w) =
     Eff.Thrown (JS.Error ("GraphQL Error: " +:+ errors))
   /\ fst (QuickStart.makeRequest k query variables w) =
     Eff.Thrown (JS.Error ("GraphQL Error: " +:+ errors))
   /\ fst (QuickStart.uploadShipmentPack k file w) =
     Eff.Thrown (JS.Error ("GraphQL Error: " +:+ errors))
   /\ match JS.get e "message" with
      | Some (JS.Str m) => Spec.contains (JS.quote m) ("GraphQL Error: " +:+ errors)
      | _ => True
      end
   /\ exists ex,
        fst (Browser.processCSVAndCreateShipmentPack c file w) = Eff.Thrown ex
        /\ match JS.get e "message" with
           | Some (JS.Str m) =>
               ex = JS.Error (if String.eqb m "" then "Unknown GraphQL error" else m)
           | _ => True
           end)
  /\ fst (AccessGuide.makeGraphQLRequest g query variables w) = Eff.Returned result
  /\ fst (AccessGuidePython.make_graphql_request json_dumps py query variables w) =
       Eff.Returned result
  /\ fst (QuickStartClient.uploadShipmentPack file w) =
       match JS.get result "data" with
       | Some d =>
           match JS.get d "UploadShipmentPack" with
           | Some pack =>
               if JS.truthy pack then Eff.Returned pack
               else Eff.Thrown (JS.Error ("Failed to upload shipment pack: " +:+ errors))
           | None => Eff.Thrown (JS.Error ("Failed to upload shipment pack: " +:+ errors))
           end
       | None => Eff.Thrown (JS.Error ("Failed to upload shipment pack: " +:+ errors))
       end.
Proof.
  intros Hans Hstatus Hparsed Herrors Hcsv Hids errors. subst errors.
  assert (Hnull : result <> JS.Null) by (intros ->; discriminate Herrors).
  split; [split; [|split; [|split; [|split]]] | split; [|split]].
  - apply (browser_graphql_errors c query variables w resp result);
      auto using status_200_ok.
  - now apply (quickstart_graphql_errors k query variables w resp result).
  - now apply (quickstart_upload_method_errors k file w resp result).
  - destruct (JS.get e "message") as [[| | |m| |]|] eqn:Hm; try exact I.
    apply contains_app_r.
    eapply contains_trans; [|apply stringify_head].
    destruct e as [| | | | |fs]; try discriminate Hm.
    eapply contains_trans; [|apply (stringify_field "message" fs (JS.Str m) Hm)].
    apply contains_app_r, contains_app_r, contains_refl.
  - rewrite (browser_shipment_pack_errors c file csv w resp result e rest)
      by assumption.
    destruct e as [| | | | |fs]; try (eexists; split; [reflexivity | exact I]).
    eexists. split; [reflexivity|].
    destruct (JS.get (JS.Obj fs) "message") as [[| | |m| |]|]; try exact I.
    cbn [JS.truthy JS.to_string].
    now destruct (String.eqb m "").
  - rewrite (guide_makeGraphQLRequest_outcome g query variables w resp Hans).
    now rewrite (status_200_ok resp Hstatus), Hparsed.
  - rewrite (python_graphql_outcome json_dumps py query variables w resp Hans).
    now rewrite Hstatus, Hparsed.
  - destruct (JS.get result "data") as [d|] eqn:Hdata.
    + rewrite (quickstart_upload_function_outcome file w resp result d Hans Hparsed Hdata).
      now rewrite Herrors.
    + rewrite (quickstart_upload_function_no_data file w resp result Hans Hparsed
                 Hnull Hdata).
      now rewrite Herrors.
Qed.

Lemma C4_witness :
  let errors := JS.Arr [JS.Obj [("message", JS.Str "access denied")]] in
  let result := JS.Obj [("errors", errors); ("data", JS.Null)] in
  let resp := {| Http.status := 200; Http.statusText := "OK"; Http.text := "";
                 Http.parsed := Some result |} in
  let w := Spec.sample_world resp (Spec.sample_app JS.Null) in
  let g := {| AccessGuide.apiKey := "key1"; AccessGuide.secretKey := "secret";
              AccessGuide.baseUrl := "https://admin-api.app.fedshi.com";
              AccessGuide.jwtToken := Some JS.Null |} in
  let py := {| AccessGuide.api_key := "key1"; AccessGuide.secret_key := "secret";
               AccessGuide.base_url := "https://admin-api.app.fedshi.com";
               AccessGuide.jwt_token := None |} in
  let query := "query { OrderShipments { Total } }" in
  Spec.answers w resp
  /\ fst (AccessGuide.makeGraphQLRequest g query (JS.Obj []) w) = Eff.Returned result
  /\ fst (AccessGuidePython.make_graphql_request JS.stringify py query (JS.Obj []) w) =
       Eff.Returned result
  /\ fst (Browser.makeGraphQLRequest Spec.sample_client query (JS.Obj []) w) =
       Eff.Thrown (JS.Error ("GraphQL Error: " +:+ JS.stringify errors))
  /\ (exists ex,
        fst (Browser.processCSVAndCreateShipmentPack Spec.sample_client
               Spec.sample_file w) = Eff.Thrown ex
        /\ ex = JS.Error "access denied").
Proof.
  intros errors result resp w g py query.
  assert (Hans : Spec.answers w resp) by (intros r; reflexivity).
  split; [exact Hans|].
  assert (Hids : ["NZQVP"; "NBFGO"] <> @nil string) by discriminate.
  destruct (C4_access_guide_returns_graphql_errors Spec.sample_client
              {| QuickStart.client_apiKey := "key1"; QuickStart.client_secretKey := "secret";
                 QuickStart.client_baseUrl := QuickStart.baseUrl |}
              g py JS.stringify query (JS.Obj []) Spec.sample_file
              {| Eff.shipmentIDs := ["NZQVP"; "NBFGO"]; Eff.courierID := JS.Num 7 |}
              w resp result
              (JS.Obj [("message", JS.Str "access denied")]) []
              Hans eq_refl eq_refl eq_refl eq_refl Hids)
    as [(Hbrowser & _ & _ & _ & ex & Hpack & Hex) (Hguide & Hpython & _)].
  split; [exact Hguide|]. split; [exact Hpython|]. split; [exact Hbrowser|].
  exists ex. split; [exact Hpack | exact Hex].
Defined.
